(** * lukso-relayer: the v1 transaction handlers over a model of the store

    A shallow embedding of [src/handlers/v1/transaction.ts] (the relay
    handler [execute], its helpers [ensureRemainingQuota],
    [createTransaction], [extractChannelId] and the status handler [quota]),
    of the relayer-nonce computation of the earlier revision of the same
    handler, and of the PostgreSQL tables they read and write.

    Tables are lists of rows in stored order; a SQL statement is the list
    function it denotes; [db.tx] commits or rolls back; the pg-promise
    result expectations ([one], [oneOrNone]) reject on an unexpected number
    of rows, [any] and [none] never do on the statements used here. JavaScript numbers that hold gas amounts, nonces and
    timestamps are integers well inside the exactly representable range
    and are modelled by [Z]. Column widths (VARCHAR(n), INT) are not
    modelled: values are taken to fit their columns, and a statement about
    every outcome of a write says so through [columns_accept]. *)

From Stdlib Require Import ZArith List String Ascii Bool Lia.
From Stdlib Require Import DecimalString DecimalZ DecimalPos.
From Stdlib Require Import Permutation Sorted.
Import ListNotations.

Open Scope string_scope.
Open Scope Z_scope.

(** ** Rows of the four tables *)

Module UniversalProfile.
Record row := mk {
  address : string;
  created_at : Z
}.
End UniversalProfile.

Module Quota.
(** [quotas]: the handler reads [id], [universal_profile_address],
    [monthly_gas] and [gas_used]. *)
Record row := mk {
  id : Z;
  universal_profile_address : string;
  monthly_gas : Z;
  gas_used : Z
}.

Definition debit (estimatedGas : Z) (q : row) : row :=
  mk (id q) (universal_profile_address q) (monthly_gas q)
     (gas_used q + estimatedGas).
End Quota.

Module ApprovedQuota.
(** [approved_quotas]: one row per delegation from [approver_address] to
    [approved_address]. *)
Record row := mk {
  id : Z;
  approver_address : string;
  approved_address : string;
  monthly_gas : Z;
  gas_used : Z
}.

Definition debit (estimatedGas : Z) (a : row) : row :=
  mk (id a) (approver_address a) (approved_address a) (monthly_gas a)
     (gas_used a + estimatedGas).
End ApprovedQuota.

Module Transaction.
(** [transactions], db/migrations/0005_transactions.sql, with the
    [created_at] and [updated_at] columns the INSERT fills with NOW().
    [relayer_nonce] is VARCHAR(100): it holds the decimal text of the
    number the handler inserted. *)
Record row := mk {
  id : Z;
  universal_profile_address : string;
  nonce : string;
  signature : string;
  abi : string;
  channel_id : Z;
  status : string;
  signer_address : string;
  hash : string;
  relayer_nonce : string;
  relayer_address : string;
  estimated_gas : Z;
  gas_used : Z;
  approved_quota_id : option Z;
  created_at : Z;
  updated_at : Z
}.
End Transaction.

(** ** The store *)

Record Tables := mkTables {
  universal_profiles : list UniversalProfile.row;
  quotas : list Quota.row;
  approved_quotas : list ApprovedQuota.row;
  transactions : list Transaction.row
}.

(** The tables together with the two SERIAL sequences that hand out row
    ids. A sequence is not transactional: a rolled back INSERT keeps the
    value it drew. *)
Record DB := mkDB {
  tables : Tables;
  quotas_id_seq : Z;
  transactions_id_seq : Z
}.

Definition with_tables (db : DB) (t : Tables) : DB :=
  mkDB t (quotas_id_seq db) (transactions_id_seq db).

(** ** Failures *)

Inductive error :=
| ArgumentError (message : string)   (* types/errors/argumentError *)
| NoGasError (message : string)      (* types/errors/noGasError *)
| Thrown (message : string)          (* [throw "..."] of a plain string *)
| TypeError                          (* property read on null or undefined *)
| QueryResultError                   (* pg-promise: unexpected number of rows *)
| UniqueViolation                    (* PostgreSQL 23505 *)
| ForeignKeyViolation                (* PostgreSQL 23503 *)
| BigNumberError (reason : string)   (* ethers BigNumber faults *)
| UpstreamError (what : string).     (* chain adapter, signature recovery *)

Inductive result (A : Type) :=
| Ok (a : A)
| Err (e : error).
Arguments Ok {A} a.
Arguments Err {A} e.

Definition is_ok {A} (r : result A) : bool :=
  match r with Ok _ => true | Err _ => false end.

(** A computation against the store: the store it leaves and its outcome. *)
Definition M (A : Type) : Type := DB -> DB * result A.

Definition ret {A} (a : A) : M A := fun db => (db, Ok a).
Definition throw {A} (e : error) : M A := fun db => (db, Err e).
Definition lift {A} (r : result A) : M A := fun db => (db, r).
Definition bind {A B} (m : M A) (k : A -> M B) : M B :=
  fun db => match m db with
            | (db', Ok a) => k a db'
            | (db', Err e) => (db', Err e)
            end.
Definition get : M DB := fun db => (db, Ok db).

Declare Scope db_scope.
Delimit Scope db_scope with db.
Notation "x <- c ;; k" := (bind c (fun x => k))
  (at level 61, c at next level, right associativity) : db_scope.
Notation "c ;;; k" := (bind c (fun _ => k))
  (at level 61, right associativity) : db_scope.
Open Scope db_scope.

(** [db.task]: the callback runs on one connection, every statement
    commits on its own; a rejection leaves the earlier statements in
    place. *)
Definition task {A} (m : M A) : M A := m.

(** [db.tx]: BEGIN, the callback, then COMMIT, or ROLLBACK when the
    callback rejects. The rollback restores the tables, not the
    sequences. *)
Definition tx {A} (m : M A) : M A :=
  fun db => match m db with
            | (db', Ok a) => (db', Ok a)
            | (db', Err e) => (with_tables db' (tables db), Err e)
            end.

(** pg-promise result expectations. *)
Definition oneOrNone {A} (rows : list A) : result (option A) :=
  match rows with
  | [] => Ok None
  | [r] => Ok (Some r)
  | _ => Err QueryResultError
  end.

Definition one {A} (rows : list A) : result A :=
  match rows with
  | [r] => Ok r
  | _ => Err QueryResultError
  end.

(** ** The SQL statements of the handlers *)

Module SQL.

(** SELECT * FROM quotas WHERE universal_profile_address = $1 *)
Definition quotas_of (address : string) (db : DB) : list Quota.row :=
  filter (fun q => (Quota.universal_profile_address q =? address)%string)
         (quotas (tables db)).

(** SELECT * FROM universal_profiles WHERE address = $1 *)
Definition profiles_of (address : string) (db : DB)
  : list UniversalProfile.row :=
  filter (fun p => (UniversalProfile.address p =? address)%string)
         (universal_profiles (tables db)).

(** SELECT * FROM approved_quotas WHERE approved_address = $1 *)
Definition approved_quotas_of (address : string) (db : DB)
  : list ApprovedQuota.row :=
  filter (fun a => (ApprovedQuota.approved_address a =? address)%string)
         (approved_quotas (tables db)).

(** SELECT * FROM quotas WHERE universal_profile_address IN ($1:csv) *)
Definition quotas_in (addresses : list string) (db : DB)
  : list Quota.row :=
  filter (fun q => existsb (String.eqb (Quota.universal_profile_address q))
                           addresses)
         (quotas (tables db)).

(** INSERT INTO universal_profiles(address, created_at) VALUES($1, $2) *)
Definition insert_profile (address : string) (created_at : Z) : M unit :=
  fun db =>
    let t := tables db in
    (with_tables db
       (mkTables (universal_profiles t
                    ++ [UniversalProfile.mk address created_at])
                 (quotas t) (approved_quotas t) (transactions t)),
     Ok tt).

(** INSERT INTO quotas(universal_profile_address, monthly_gas, gas_used)
    VALUES($1, $2, $3) RETURNING * *)
Definition insert_quota (address : string) (monthly_gas gas_used : Z)
  : M (list Quota.row) :=
  fun db =>
    let t := tables db in
    let q := Quota.mk (quotas_id_seq db) address monthly_gas gas_used in
    (mkDB (mkTables (universal_profiles t) (quotas t ++ [q])
                    (approved_quotas t) (transactions t))
          (quotas_id_seq db + 1) (transactions_id_seq db),
     Ok [q]).

(** UPDATE quotas SET gas_used = gas_used + $1 WHERE id = $2 *)
Definition debit_quota (estimatedGas id : Z) : M unit :=
  fun db =>
    let t := tables db in
    (with_tables db
       (mkTables (universal_profiles t)
                 (map (fun q => if Quota.id q =? id
                                then Quota.debit estimatedGas q else q)
                      (quotas t))
                 (approved_quotas t) (transactions t)),
     Ok tt).

Definition delegation_matches (approved approver : string)
           (a : ApprovedQuota.row) : bool :=
  (ApprovedQuota.approved_address a =? approved)%string
  && (ApprovedQuota.approver_address a =? approver)%string.

(** UPDATE approved_quotas SET gas_used = gas_used + $1
    WHERE approved_address = $2 and approver_address = $3 RETURNING * *)
Definition debit_approved_quota (estimatedGas : Z)
           (approved approver : string) : M (list ApprovedQuota.row) :=
  fun db =>
    let t := tables db in
    let hit := delegation_matches approved approver in
    (with_tables db
       (mkTables (universal_profiles t) (quotas t)
                 (map (fun a => if hit a
                                then ApprovedQuota.debit estimatedGas a
                                else a)
                      (approved_quotas t))
                 (transactions t)),
     Ok (map (ApprovedQuota.debit estimatedGas)
             (filter hit (approved_quotas t)))).

(** UNIQUE (nonce, channel_id, signer_address) *)
Definition same_authorization (nonce : string) (channel_id : Z)
           (signer_address : string) (r : Transaction.row) : bool :=
  (Transaction.nonce r =? nonce)%string
  && (Transaction.channel_id r =? channel_id)
  && (Transaction.signer_address r =? signer_address)%string.

(** FOREIGN KEY(universal_profile_address)
    REFERENCES universal_profiles(address) *)
Definition profile_exists (address : string) (db : DB) : bool :=
  existsb (fun p => (UniversalProfile.address p =? address)%string)
          (universal_profiles (tables db)).

(** FOREIGN KEY(approved_quota_id) REFERENCES approved_quotas(id) *)
Definition approved_quota_exists (id : option Z) (db : DB) : bool :=
  match id with
  | None => true
  | Some i => existsb (fun a => ApprovedQuota.id a =? i)
                      (approved_quotas (tables db))
  end.

(** INSERT INTO transactions(...) VALUES(..., NOW(), NOW()) RETURNING *.
    The row draws its id from the sequence first; the unique index is
    checked when the row is inserted, the foreign keys at the end of the
    statement. *)
Definition insert_transaction (values : Z -> Transaction.row)
  : M (list Transaction.row) :=
  fun db =>
    let t := tables db in
    let r := values (transactions_id_seq db) in
    let drawn := mkDB t (quotas_id_seq db) (transactions_id_seq db + 1) in
    if existsb (same_authorization (Transaction.nonce r)
                                   (Transaction.channel_id r)
                                   (Transaction.signer_address r))
               (transactions t)
    then (drawn, Err UniqueViolation)
    else if negb (profile_exists (Transaction.universal_profile_address r) db
                  && approved_quota_exists (Transaction.approved_quota_id r)
                                           db)
    then (drawn, Err ForeignKeyViolation)
    else (with_tables drawn
            (mkTables (universal_profiles t) (quotas t) (approved_quotas t)
                      (transactions t ++ [r])),
          Ok [r]).

End SQL.

(** A SELECT: the rows it returns, in stored order; the expectation of
    the call ([oneOrNone], [any]) is applied to them by the caller. *)
Definition query {A} (select : DB -> list A) : M (list A) :=
  fun db => (db, Ok (select db)).

(** ** JavaScript and ethers primitives *)

(** The decimal text PostgreSQL stores when a JavaScript integer is bound
    to a VARCHAR column. *)
Definition String_ (n : Z) : string := NilZero.string_of_int (Z.to_int n).

(** [Number(text)] on the empty text and on the decimal text of an
    integer; [None] is NaN. *)
Definition Number_ (text : string) : option Z :=
  match text with
  | "" => Some 0
  | _ => option_map Z.of_int (NilZero.int_of_string text)
  end.

Module BigNumber.

Definition dec_digit (c : ascii) : option Z :=
  let n := Z.of_N (N_of_ascii c) in
  if (48 <=? n) && (n <=? 57) then Some (n - 48) else None.

Definition hex_digit (c : ascii) : option Z :=
  let n := Z.of_N (N_of_ascii c) in
  if (48 <=? n) && (n <=? 57) then Some (n - 48)
  else if (97 <=? n) && (n <=? 102) then Some (n - 87)
  else if (65 <=? n) && (n <=? 70) then Some (n - 55)
  else None.

(** The value of a run of digits, most significant first. *)
Fixpoint digits (base : Z) (digit : ascii -> option Z) (s : string)
         (acc : Z) : option Z :=
  match s with
  | EmptyString => Some acc
  | String c rest =>
      match digit c with
      | Some d => digits base digit rest (acc * base + d)
      | None => None
      end
  end.

Definition magnitude (s : string) : option Z :=
  match s with
  | String "0" (String "x" (String c rest)) =>
      digits 16 hex_digit (String c rest) 0
  | String c rest => digits 10 dec_digit (String c rest) 0
  | EmptyString => None
  end.

(** [BigNumber.from(value)] on a string: an optional minus sign, then
    either 0x and hexadecimal digits or decimal digits. *)
Definition from (value : string) : result Z :=
  match value with
  | String "-" rest =>
      match magnitude rest with
      | Some v => Ok (- v)
      | None => Err (BigNumberError "invalid BigNumber string")
      end
  | _ =>
      match magnitude value with
      | Some v => Ok v
      | None => Err (BigNumberError "invalid BigNumber string")
      end
  end.

(** [bn.shr(n)]: negative values are refused. *)
Definition shr (bn : Z) (n : Z) : result Z :=
  if (bn <? 0) || (n <? 0)
  then Err (BigNumberError "negative-width")
  else Ok (Z.shiftr bn n).

(** [bn.toNumber()]: only values of at most 53 bits convert. *)
Definition toNumber (bn : Z) : result Z :=
  if Z.abs bn <? 2 ^ 53 then Ok bn else Err (BigNumberError "overflow").

End BigNumber.

Definition bind_result {A B} (r : result A) (k : A -> result B) : result B :=
  match r with
  | Ok a => k a
  | Err e => Err e
  end.

(** [extractChannelId], transaction.ts l.352-355. *)
Definition extractChannelId (nonce : string) : result Z :=
  bind_result (BigNumber.from nonce) (fun bn =>
  bind_result (BigNumber.shr bn 128) BigNumber.toNumber).

(** ** Collaborators outside the handler file

    [services/lukso], [utils] and the ethers signature helpers are consumed
    through their call interface. None of them is handed the database
    handle, so each is a function of its arguments that may reject. *)

Definition KeyManager := string.

Class Collaborators := {
  (** [wallet.address] *)
  wallet_address : string;
  (** [wallet.getTransactionCount()] *)
  getTransactionCount : Z;
  (** kmAddress and keyManager for a profile *)
  setUpKeyManager : string -> result (string * KeyManager);
  getSignerAddress : string -> string -> string -> string -> result string;
  checkSignerPermissions : string -> string -> result unit;
  (** [None] stands for undefined *)
  estimateGas : KeyManager -> string -> string -> string -> result (option Z);
  calcHash : KeyManager -> string -> string -> string -> Z -> result string;
  (** solidityKeccak256(["address", "uint"], [address, timestamp]) *)
  quotaMessage : string -> Z -> string;
  verifyMessage : string -> string -> result string;
  (** epoch milliseconds of the first day of the month after [now] *)
  firstOfNextMonth : Z -> Z
}.

(** ** Quota resolution: [ensureRemainingQuota], transaction.ts l.290-350 *)

(** The [for] loop of l.331-343; [quota] is the variable the loop
    reassigns, [None] when it holds null. *)
Fixpoint forApprovedQuotas (estimatedGas : Z)
         (approvedQuotas : list ApprovedQuota.row)
         (quota : option Quota.row) : M (option Quota.row) :=
  match approvedQuotas with
  | [] => ret quota
  | a :: rest =>
      if ApprovedQuota.gas_used a + estimatedGas >=? ApprovedQuota.monthly_gas a
      then forApprovedQuotas estimatedGas rest quota
      else
        rows <- query (SQL.quotas_of (ApprovedQuota.approver_address a)) ;;
        quota <- lift (oneOrNone rows) ;;
        match quota with
        | None => throw TypeError
        | Some q =>
            if Quota.gas_used q + estimatedGas <=? Quota.monthly_gas q
            then ret (Some q)
            else forApprovedQuotas estimatedGas rest (Some q)
        end
  end.

Definition ensureRemainingQuota (now : Z) (estimatedGas : Z)
           (address : string) : M Quota.row :=
  task (
    rows <- query (SQL.quotas_of address) ;;
    quota <- lift (oneOrNone rows) ;;
    match quota with
    | None =>
        ups <- query (SQL.profiles_of address) ;;
        up <- lift (oneOrNone ups) ;;
        match up with
        | None => SQL.insert_profile address now
        | Some _ => ret tt
        end ;;;
        inserted <- SQL.insert_quota address 650000 0 ;;
        lift (one inserted)
    | Some quota =>
        if Quota.gas_used quota + estimatedGas <=? Quota.monthly_gas quota
        then ret quota
        else
          approvedQuotas <- query (SQL.approved_quotas_of address) ;;
          if (List.length approvedQuotas =? 0)%nat
          then throw (NoGasError "gas limit reached")
          else
            quota <- forApprovedQuotas estimatedGas approvedQuotas
                                       (Some quota) ;;
            match quota with
            | None => throw (NoGasError "gas limit reached")
            | Some quota =>
                if Quota.gas_used quota + estimatedGas >? Quota.monthly_gas quota
                then throw (NoGasError "gas limit reached")
                else ret quota
            end
    end).

(** ** [createTransaction], transaction.ts l.98-142 *)

Definition createTransaction `{Collaborators} (now : Z)
           (estimatedGas : Z) (quota : Quota.row)
           (address nonce signature abi : string) (channelId : Z)
           (signerAddress : string) (walletNonce : Z) (hash : string)
  : M Transaction.row :=
  tx (
    SQL.debit_quota estimatedGas (Quota.id quota) ;;;
    updated <- SQL.debit_approved_quota estimatedGas address
                 (Quota.universal_profile_address quota) ;;
    approvedQuota <- lift (oneOrNone updated) ;;
    inserted <- SQL.insert_transaction (fun id =>
      Transaction.mk id address nonce signature abi channelId "PENDING"
                     signerAddress hash (String_ walletNonce) wallet_address
                     estimatedGas 0 (option_map ApprovedQuota.id approvedQuota)
                     now now) ;;
    lift (one inserted)).

(** ** Relayer nonce of the earlier revision of the handler

    The earlier [execute] computes the nonce of the relayer wallet inline
    (l.62-72):
    SELECT * FROM transactions WHERE relayer_address = $1
      AND status = 'PENDING' ORDER BY relayer_nonce DESC LIMIT 1. *)

Module Earlier.

(** ORDER BY relayer_nonce DESC. The column is VARCHAR(100), so rows are
    ordered as text; on texts made of digits every collation agrees with
    the character-wise order used here. *)
Fixpoint insert_desc (r : Transaction.row) (sorted : list Transaction.row)
  : list Transaction.row :=
  match sorted with
  | [] => [r]
  | x :: rest =>
      if String.ltb (Transaction.relayer_nonce x) (Transaction.relayer_nonce r)
      then r :: sorted
      else x :: insert_desc r rest
  end.

Definition order_by_relayer_nonce_desc (rows : list Transaction.row)
  : list Transaction.row :=
  fold_right insert_desc [] rows.

Definition pending_of (relayer : string) (db : DB) : list Transaction.row :=
  filter (fun t => (Transaction.relayer_address t =? relayer)%string
                   && (Transaction.status t =? "PENDING")%string)
         (transactions (tables db)).

Definition latest_pending (relayer : string) (db : DB)
  : list Transaction.row :=
  firstn 1 (order_by_relayer_nonce_desc (pending_of relayer db)).

(** [walletNonce]; [None] is NaN. *)
Definition walletNonce `{Collaborators} : M (option Z) :=
  rows <- query (latest_pending wallet_address) ;;
  pendingWalletTransaction <- lift (oneOrNone rows) ;;
  match pendingWalletTransaction with
  | Some t => ret (option_map (fun n => n + 1)
                              (Number_ (Transaction.relayer_nonce t)))
  | None => ret (Some getTransactionCount)
  end.

(** The numeric maximum the computation is after. *)
Definition max_pending_nonce (relayer : string) (db : DB) : option Z :=
  fold_right (fun t acc =>
                match Number_ (Transaction.relayer_nonce t), acc with
                | Some n, Some m => Some (Z.max n m)
                | Some n, None => Some n
                | None, _ => acc
                end)
             None (pending_of relayer db).

End Earlier.

(** ** The relay handler [execute], transaction.ts l.41-96 *)

Definition missing (field : option string) : bool :=
  match field with
  | None => true
  | Some s => (s =? "")%string
  end.

Definition validateExecuteParams (address nonce abi sig : option string)
  : result unit :=
  if missing address then Err (ArgumentError "address must be present")
  else if missing nonce then Err (ArgumentError "nonce must be present")
  else if missing abi then Err (ArgumentError "abi must be present")
  else if missing sig then Err (ArgumentError "signature must be present")
  else Ok tt.

Module ExecuteBody.
(** [req.body] of the relay request; [None] is an absent field. *)
Record t := mk {
  address : option string;
  nonce : option string;
  abi : option string;
  signature : option string
}.
End ExecuteBody.

Record Job := mkJob {
  kmAddress : string;
  transactionId : Z
}.

Inductive Response :=
| TransactionHash (transactionHash : string)
| QuotaStatus (quota : Z) (unit_ : string) (totalQuota : Z) (resetDate : Z)
| Next (message : string).

(** A field that passed validation. *)
Definition present (field : option string) : string :=
  match field with
  | Some s => s
  | None => ""
  end.

(** The [try] block of [execute]. [getWalletNonce] of [services/lukso] is
    handed the database handle and reads it. *)
Definition executeBody `{Collaborators} (getWalletNonce : DB -> result Z)
           (body : ExecuteBody.t) (now : Z) : M (Job * string) :=
  let address := ExecuteBody.address body in
  let nonce := ExecuteBody.nonce body in
  let abi := ExecuteBody.abi body in
  let signature := ExecuteBody.signature body in
  lift (validateExecuteParams address nonce abi signature) ;;;
  let address := present address in
  let nonce := present nonce in
  let abi := present abi in
  let signature := present signature in
  km <- lift (setUpKeyManager address) ;;
  let '(kmAddress, keyManager) := km in
  signerAddress <- lift (getSignerAddress kmAddress nonce abi signature) ;;
  lift (checkSignerPermissions address signerAddress) ;;;
  estimatedGas <- lift (estimateGas keyManager signature nonce abi) ;;
  match estimatedGas with
  | None | Some 0 => throw (Thrown "could not estimate gas")
  | Some estimatedGas =>
      quota <- ensureRemainingQuota now estimatedGas address ;;
      channelId <- lift (extractChannelId nonce) ;;
      db <- get ;;
      walletNonce <- lift (getWalletNonce db) ;;
      hash <- lift (calcHash keyManager signature nonce abi walletNonce) ;;
      transaction <- createTransaction now estimatedGas quota address nonce
                       signature abi channelId signerAddress walletNonce hash ;;
      ret (mkJob kmAddress (Transaction.id transaction), hash)
  end.

(** The [catch] block of [execute]: the message handed to [next]. *)
Definition executeFailure (e : error) : string :=
  match e with
  | ArgumentError message => message
  | NoGasError message => message
  | _ => "Failed to execute"
  end.

(** The store, the job queue and the response after one relay request. *)
Definition execute `{Collaborators} (getWalletNonce : DB -> result Z)
           (body : ExecuteBody.t) (now : Z) (db : DB) (txQueue : list Job)
  : DB * list Job * Response :=
  match executeBody getWalletNonce body now db with
  | (db', Ok (job, hash)) => (db', (txQueue ++ [job])%list, TransactionHash hash)
  | (db', Err e) => (db', txQueue, Next (executeFailure e))
  end.

(** ** The status handler [quota], transaction.ts l.144-259 *)

Definition validateQuotaParams (address : option string)
           (timestamp : option Z) (signature : option string) : result unit :=
  if missing address then Err (ArgumentError "address must be present")
  else if match timestamp with
          | None => true
          | Some t => t =? 0
          end
  then Err (ArgumentError "timestamp must be present")
  else if missing signature
  then Err (ArgumentError "signature must be present")
  else Ok tt.

Module QuotaBody.
Record t := mk {
  address : option string;
  timestamp : option Z;
  signature : option string
}.
End QuotaBody.

(** The [db.task] of l.166-210: the profile's own quota (created when
    absent), the delegations granted to it and the quotas of their
    approvers ([None]: left undefined). *)
Definition loadQuotas (now : Z) (address : string)
  : M (Quota.row * list ApprovedQuota.row * option (list Quota.row)) :=
  task (
    rows <- query (SQL.quotas_of address) ;;
    found <- lift (oneOrNone rows) ;;
    transactionQuota <-
      match found with
      | Some q => ret q
      | None =>
          ups <- query (SQL.profiles_of address) ;;
          up <- lift (oneOrNone ups) ;;
          match up with
          | None => SQL.insert_profile address now
          | Some _ => ret tt
          end ;;;
          inserted <- SQL.insert_quota address 650000 0 ;;
          lift (one inserted)
      end ;;
    approvedQuotas <- query (SQL.approved_quotas_of address) ;;
    parentQuotas <-
      (if (0 <? List.length approvedQuotas)%nat
       then parents <- query (SQL.quotas_in
                                (map ApprovedQuota.approver_address
                                     approvedQuotas)) ;;
            ret (Some parents)
       else ret None) ;;
    ret (transactionQuota, approvedQuotas, parentQuotas)).

(** [parentQuotas.find(pQuota => pQuota.universal_profile_address ===
    aQuota.approver_address)] *)
Definition parentOf (parentQuotas : list Quota.row) (aQuota : ApprovedQuota.row)
  : option Quota.row :=
  find (fun pQuota => (Quota.universal_profile_address pQuota
                       =? ApprovedQuota.approver_address aQuota)%string)
       parentQuotas.

(** One turn of the [forEach] of l.215-235 on the pair
    (totalQuota, gasUsed). *)
Definition countApproved (parentQuotas : list Quota.row)
           (acc : Z * Z) (aQuota : ApprovedQuota.row) : Z * Z :=
  let '(totalQuota, gasUsed) := acc in
  match parentOf parentQuotas aQuota with
  | None => acc
  | Some parentQuota =>
      if Quota.gas_used parentQuota >=? Quota.monthly_gas parentQuota
      then acc
      else
        let parentGasRemaining :=
          Quota.monthly_gas parentQuota - Quota.gas_used parentQuota in
        let approvedGasRemaining :=
          ApprovedQuota.monthly_gas aQuota - ApprovedQuota.gas_used aQuota in
        (if parentGasRemaining >=? approvedGasRemaining
         then totalQuota + ApprovedQuota.monthly_gas aQuota
         else totalQuota + parentGasRemaining,
         gasUsed + ApprovedQuota.gas_used aQuota)
  end.

(** l.212-236: (totalQuota, gasUsed) of the response. *)
Definition computeAvailableQuota (transactionQuota : Quota.row)
           (approvedQuotas : list ApprovedQuota.row)
           (parentQuotas : option (list Quota.row)) : result (Z * Z) :=
  let own := (Quota.monthly_gas transactionQuota,
              Quota.gas_used transactionQuota) in
  match approvedQuotas, parentQuotas with
  | [], _ => Ok own
  | _ :: _, None => Err TypeError
  | _ :: _, Some parents =>
      Ok (fold_left (countApproved parents) approvedQuotas own)
  end.

Definition quotaBody `{Collaborators} (body : QuotaBody.t) (now : Z)
  : M Response :=
  let address := QuotaBody.address body in
  let timestamp := QuotaBody.timestamp body in
  let signature := QuotaBody.signature body in
  lift (validateQuotaParams address timestamp signature) ;;;
  let address := present address in
  let timestamp := match timestamp with Some t => t | None => 0 end in
  let signature := present signature in
  let timeDiff := now - timestamp in
  if (timeDiff >? 5000) || (timeDiff <? -5000)
  then throw (ArgumentError "timestamp must be +/- 5 seconds")
  else
    let message := quotaMessage address timestamp in
    signerAddress <- lift (verifyMessage message signature) ;;
    lift (checkSignerPermissions address signerAddress) ;;;
    loaded <- loadQuotas now address ;;
    let '(transactionQuota, approvedQuotas, parentQuotas) := loaded in
    totals <- lift (computeAvailableQuota transactionQuota approvedQuotas
                                          parentQuotas) ;;
    let '(totalQuota, gasUsed) := totals in
    ret (QuotaStatus gasUsed "gas" totalQuota (firstOfNextMonth now)).

Definition quotaFailure (e : error) : string :=
  match e with
  | ArgumentError message => message
  | _ => "failed to get quota"
  end.

Definition quota `{Collaborators} (body : QuotaBody.t) (now : Z) (db : DB)
  : DB * Response :=
  match quotaBody body now db with
  | (db', Ok response) => (db', response)
  | (db', Err e) => (db', Next (quotaFailure e))
  end.

(** ** The aggregate of the status read path as the specification words it

    total = own allowance + for every delegation granted to the profile the
    lesser of its allowance and the approver's remaining headroom;
    used = own used + the used of every such delegation. *)

Module Spec.

Definition headroom (q : Quota.row) : Z :=
  Quota.monthly_gas q - Quota.gas_used q.

Definition approverOf (db : DB) (a : ApprovedQuota.row) : option Quota.row :=
  parentOf (quotas (tables db)) a.

Definition delegated_total (db : DB) (a : ApprovedQuota.row) : Z :=
  match approverOf db a with
  | Some p => Z.min (ApprovedQuota.monthly_gas a) (headroom p)
  | None => 0
  end.

Definition sum (l : list Z) : Z := fold_right Z.add 0 l.

Definition total (own : Quota.row) (address : string) (db : DB) : Z :=
  Quota.monthly_gas own
  + sum (map (delegated_total db) (SQL.approved_quotas_of address db)).

Definition used (own : Quota.row) (address : string) (db : DB) : Z :=
  Quota.gas_used own
  + sum (map ApprovedQuota.gas_used (SQL.approved_quotas_of address db)).

End Spec.

(** What one delegation adds to (total, used) in the handler, [stored]
    being the quota rows its approver is looked up in: nothing when the
    approver has no quota row or no headroom left; otherwise its used,
    together with its whole allowance when the approver's headroom covers
    what is left of the delegation, else with the approver's headroom. *)
Definition counted (stored : list Quota.row) (a : ApprovedQuota.row) : bool :=
  match parentOf stored a with
  | Some p => Quota.gas_used p <? Quota.monthly_gas p
  | None => false
  end.

Definition counted_total (stored : list Quota.row) (a : ApprovedQuota.row)
  : Z :=
  match parentOf stored a with
  | Some p =>
      if Spec.headroom p
         >=? ApprovedQuota.monthly_gas a - ApprovedQuota.gas_used a
      then ApprovedQuota.monthly_gas a
      else Spec.headroom p
  | None => 0
  end.

Definition handler_total (own : Quota.row) (address : string) (db : DB) : Z :=
  let stored := quotas (tables db) in
  Quota.monthly_gas own
  + Spec.sum (map (fun a => if counted stored a
                            then counted_total stored a else 0)
                  (SQL.approved_quotas_of address db)).


(** ** Requests racing on the store

    A relay request touches the store in two scopes: the [db.task] of
    [ensureRemainingQuota] and, after further awaits, the [db.tx] of
    [createTransaction]. Other requests run between the two. *)

Module Race.

Record request := mkRequest {
  address : string;
  estimatedGas : Z;
  nonce : string;
  signature : string;
  abi : string;
  channelId : Z;
  signerAddress : string;
  walletNonce : Z;
  hash : string
}.

Inductive event :=
| Resolve (i : nat)    (* request i runs ensureRemainingQuota *)
| Create (i : nat).    (* request i runs createTransaction *)

Inductive progress :=
| Waiting
| Resolved (payer : Quota.row)
| Done (transaction : Transaction.row)
| Failed (e : error).

Record state := mkState {
  db : DB;
  requests : list progress
}.

Fixpoint set_nth {A} (i : nat) (a : A) (l : list A) : list A :=
  match l, i with
  | [], _ => []
  | _ :: rest, O => a :: rest
  | x :: rest, S j => x :: set_nth j a rest
  end.

Definition step `{Collaborators} (now : Z) (reqs : list request)
           (s : state) (e : event) : state :=
  match e with
  | Resolve i =>
      match nth_error reqs i, nth_error (requests s) i with
      | Some r, Some Waiting =>
          match ensureRemainingQuota now (estimatedGas r) (address r) (db s)
          with
          | (db', Ok payer) =>
              mkState db' (set_nth i (Resolved payer) (requests s))
          | (db', Err err) =>
              mkState db' (set_nth i (Failed err) (requests s))
          end
      | _, _ => s
      end
  | Create i =>
      match nth_error reqs i, nth_error (requests s) i with
      | Some r, Some (Resolved payer) =>
          match createTransaction now (estimatedGas r) payer (address r)
                  (nonce r) (signature r) (abi r) (channelId r)
                  (signerAddress r)
                  (walletNonce r) (hash r) (db s)
          with
          | (db', Ok t) => mkState db' (set_nth i (Done t) (requests s))
          | (db', Err err) =>
              mkState db' (set_nth i (Failed err) (requests s))
          end
      | _, _ => s
      end
  end.

Definition run `{Collaborators} (now : Z) (reqs : list request)
           (schedule : list event) (db0 : DB) : state :=
  fold_left (step now reqs) schedule
            (mkState db0 (map (fun _ => Waiting) reqs)).

End Race.

(** Every quota row is within its allowance. *)
Definition within_allowance (db : DB) : Prop :=
  Forall (fun q => Quota.gas_used q <= Quota.monthly_gas q)
         (quotas (tables db)).

(** [quotas.id] is the primary key and is drawn from the sequence. *)
Definition quota_ids_ok (db : DB) : Prop :=
  NoDup (map Quota.id (quotas (tables db)))
  /\ Forall (fun q => Quota.id q < quotas_id_seq db) (quotas (tables db)).

(** The authorization check of [execute], l.50-52: key manager lookup,
    signer recovery, permission check. *)
Definition authorization `{Collaborators} (body : ExecuteBody.t)
  : result string :=
  let address := present (ExecuteBody.address body) in
  bind_result (setUpKeyManager address) (fun km =>
  bind_result (getSignerAddress (fst km) (present (ExecuteBody.nonce body))
                                (present (ExecuteBody.abi body))
                                (present (ExecuteBody.signature body)))
              (fun signerAddress =>
  bind_result (checkSignerPermissions address signerAddress)
              (fun _ => Ok signerAddress))).

(** ** Payer selection as the specification words it (§4.2)

    The own quota pays when it has headroom; otherwise the delegations
    granted to the profile are taken in stored order, a delegation with
    used + gas >= allowance is skipped, and the first remaining one whose
    approver's quota has headroom is selected; QuotaExceeded otherwise. *)

Module Resolver.

Definition has_headroom (estimatedGas : Z) (q : Quota.row) : bool :=
  Quota.gas_used q + estimatedGas <=? Quota.monthly_gas q.

Definition skipped (estimatedGas : Z) (a : ApprovedQuota.row) : bool :=
  ApprovedQuota.gas_used a + estimatedGas >=? ApprovedQuota.monthly_gas a.

(** The approver's quota when delegation [a] can pay. *)
Definition usable (db : DB) (estimatedGas : Z) (a : ApprovedQuota.row)
  : option Quota.row :=
  if skipped estimatedGas a then None
  else match SQL.quotas_of (ApprovedQuota.approver_address a) db with
       | [q] => if has_headroom estimatedGas q then Some q else None
       | _ => None
       end.

Fixpoint firstUsable (db : DB) (estimatedGas : Z)
         (delegations : list ApprovedQuota.row) : option Quota.row :=
  match delegations with
  | [] => None
  | a :: rest =>
      match usable db estimatedGas a with
      | Some q => Some q
      | None => firstUsable db estimatedGas rest
      end
  end.

Definition resolvePayer (own : Quota.row) (estimatedGas : Z)
           (address : string) (db : DB) : result Quota.row :=
  if has_headroom estimatedGas own then Ok own
  else match firstUsable db estimatedGas (SQL.approved_quotas_of address db)
       with
       | Some q => Ok q
       | None => Err (NoGasError "gas limit reached")
       end.

(** Every delegation the scan consults (not skipped) has an approver with
    exactly one quota row. *)
Definition approvers_have_quota (db : DB) (estimatedGas : Z)
           (delegations : list ApprovedQuota.row) : Prop :=
  Forall (fun a => skipped estimatedGas a = false ->
                   exists q, SQL.quotas_of (ApprovedQuota.approver_address a)
                                           db = [q])
         delegations.

(** The scan moves past delegation [a] without selecting it and without
    failing: it is skipped, or its approver's single quota row lacks
    headroom. *)
Definition passed_over (db : DB) (estimatedGas : Z) (a : ApprovedQuota.row)
  : Prop :=
  skipped estimatedGas a = true
  \/ exists q, SQL.quotas_of (ApprovedQuota.approver_address a) db = [q]
               /\ has_headroom estimatedGas q = false.

End Resolver.

(** ** Counting debited rows

    The rows of a table whose used counter differs between two states of
    the store, rows being matched by position. *)

Definition used_changes {A} (used : A -> Z) (before after : list A) : nat :=
  List.length (filter (fun p => negb (used (fst p) =? used (snd p)))
                      (combine before after)).

Definition rows_debited (before after : DB) : nat :=
  (used_changes Quota.gas_used (quotas (tables before))
                (quotas (tables after))
   + used_changes ApprovedQuota.gas_used (approved_quotas (tables before))
                  (approved_quotas (tables after)))%nat.

(** ** Sample collaborators and stores *)

Module Sample.

(** Collaborators that accept every signature and estimate 5 gas. *)
Definition collaborators : Collaborators := {|
  wallet_address := "0xRelayer";
  getTransactionCount := 9;
  setUpKeyManager := fun _ => Ok ("0xKeyManager", "0xKeyManager");
  getSignerAddress := fun _ _ _ _ => Ok "0xSigner";
  checkSignerPermissions := fun _ _ => Ok tt;
  estimateGas := fun _ _ _ _ => Ok (Some 5);
  calcHash := fun _ _ _ _ _ => Ok "0xHash";
  quotaMessage := fun address _ => address;
  verifyMessage := fun _ _ => Ok "0xSigner";
  firstOfNextMonth := fun now => now
|}.

Definition empty : DB := mkDB (mkTables [] [] [] []) 1 1.

Definition profile (address : string) : UniversalProfile.row :=
  UniversalProfile.mk address 0.

(** §8 of the specification: own allowance 100, used 100; one delegation
    (allowance 50, used 10) from an approver with allowance 200,
    used 190. *)
Definition delegated : DB :=
  mkDB (mkTables [profile "0xUP"; profile "0xApprover"]
                 [Quota.mk 1 "0xUP" 100 100;
                  Quota.mk 2 "0xApprover" 200 190]
                 [ApprovedQuota.mk 1 "0xApprover" "0xUP" 50 10]
                 [])
       3 1.

(** A delegation whose approver has no quota row. *)
Definition orphaned : DB :=
  mkDB (mkTables [profile "0xUP"; profile "0xApprover"]
                 [Quota.mk 1 "0xUP" 100 100]
                 [ApprovedQuota.mk 1 "0xApprover" "0xUP" 50 10]
                 [])
       2 1.


(** A delegation (allowance 100, used 60) whose approver has 50 left. *)
Definition partly_used : DB :=
  mkDB (mkTables [profile "0xUP"; profile "0xApprover"]
                 [Quota.mk 1 "0xUP" 650000 0;
                  Quota.mk 2 "0xApprover" 650000 649950]
                 [ApprovedQuota.mk 1 "0xApprover" "0xUP" 100 60]
                 [])
       3 1.

(** One profile with allowance 100 and nothing used. *)
Definition single : DB :=
  mkDB (mkTables [profile "0xUP"] [Quota.mk 1 "0xUP" 100 0] [] []) 2 1.

Definition pending (id : Z) (relayer_nonce : string) : Transaction.row :=
  Transaction.mk id "0xUP" (String_ id) "0xSignature" "0xAbi" 0 "PENDING"
                 "0xSigner" "0xHash" relayer_nonce "0xRelayer" 5 0 None 0 0.

(** Two relays in flight, with the relayer nonces 9 and 10. *)
Definition in_flight : DB :=
  mkDB (mkTables [profile "0xUP"] [Quota.mk 1 "0xUP" 650000 10] []
                 [pending 1 (String_ 9); pending 2 (String_ 10)])
       2 3.

Definition racers : list Race.request :=
  [Race.mkRequest "0xUP" 60 "1" "0xSignature1" "0xAbi" 0 "0xSigner" 9
                  "0xHash1";
   Race.mkRequest "0xUP" 60 "2" "0xSignature2" "0xAbi" 0 "0xSigner" 10
                  "0xHash2"].

(** [single] after a first relay of 5 gas paid by the own quota. *)
Definition first_relay : Transaction.row :=
  Transaction.mk 1 "0xUP" "1" "0xSignature" "0xAbi" 0 "PENDING" "0xSigner"
                 "0xHash" "9" "0xRelayer" 5 0 None 0 0.

Definition after_first_relay : DB :=
  mkDB (mkTables [profile "0xUP"] [Quota.mk 1 "0xUP" 100 5] []
                 [first_relay])
       2 2.

(** The relayer nonce computed as in the earlier revision. *)
Definition getWalletNonce (db : DB) : result Z :=
  match snd (@Earlier.walletNonce collaborators db) with
  | Ok (Some n) => Ok n
  | Ok None => Err TypeError
  | Err e => Err e
  end.

Definition relay (call_nonce : string) : ExecuteBody.t :=
  ExecuteBody.mk (Some "0xUP") (Some call_nonce) (Some "0xAbi")
                 (Some "0xSignature").

(** (2 << 128) | 1 *)
Definition channel2_nonce : string := "0x200000000000000000000000000000001".

(** Two delegation rows from the same approver to the same profile. *)
Definition twice_delegated : DB :=
  mkDB (mkTables [profile "0xUP"; profile "0xApprover"]
                 [Quota.mk 1 "0xUP" 100 0;
                  Quota.mk 2 "0xApprover" 200 0]
                 [ApprovedQuota.mk 1 "0xApprover" "0xUP" 50 0;
                  ApprovedQuota.mk 2 "0xApprover" "0xUP" 30 0]
                 [])
       3 1.

End Sample.

(** ** The listing handler [list], transaction.ts l.24-39 *)

Module Listing.

(** ORDER BY created_at DESC; rows created at the same time keep their
    stored order. *)
Fixpoint insert_desc (r : Transaction.row) (sorted : list Transaction.row)
  : list Transaction.row :=
  match sorted with
  | [] => [r]
  | x :: rest =>
      if Transaction.created_at x <=? Transaction.created_at r
      then r :: sorted
      else x :: insert_desc r rest
  end.

Definition order_by_created_at_desc (rows : list Transaction.row)
  : list Transaction.row :=
  fold_right insert_desc [] rows.

(** SELECT * FROM transactions WHERE universal_profile_address = $1
    ORDER BY created_at DESC *)
Definition transactions_of (upAddress : string) (db : DB)
  : list Transaction.row :=
  order_by_created_at_desc
    (filter (fun t => (Transaction.universal_profile_address t
                       =? upAddress)%string)
            (transactions (tables db))).

Inductive response :=
| Transactions (transactions : list Transaction.row)
| Failed (message : string).

(** [a] is listed before [b]: it is not older. *)
Definition newer_first (a b : Transaction.row) : Prop :=
  Transaction.created_at b <= Transaction.created_at a.

End Listing.

(** The handler: the store it leaves and what it answers. *)
Definition list_ (upAddress : string) (db : DB) : DB * Listing.response :=
  match query (Listing.transactions_of upAddress) db with
  | (db', Ok transactions) => (db', Listing.Transactions transactions)
  | (db', Err _) => (db', Listing.Failed "failed to list transactions")
  end.

(** ** Constraints of the schema kept by the handlers *)

(** The columns of UNIQUE (nonce, channel_id, signer_address). *)
Definition authorization_of (t : Transaction.row) : string * Z * string :=
  (Transaction.nonce t, Transaction.channel_id t, Transaction.signer_address t).

(** One quota row and one profile row per address; transaction ids unique
    and drawn from the sequence; no authorization stored twice. *)
Definition keys_ok (db : DB) : Prop :=
  NoDup (map Quota.universal_profile_address (quotas (tables db)))
  /\ NoDup (map UniversalProfile.address (universal_profiles (tables db)))
  /\ NoDup (map Transaction.id (transactions (tables db)))
  /\ Forall (fun t => Transaction.id t < transactions_id_seq db)
            (transactions (tables db))
  /\ NoDup (map authorization_of (transactions (tables db))).

(** Every delegation row is within its allowance. *)
Definition delegations_within_allowance (db : DB) : Prop :=
  Forall (fun a => ApprovedQuota.gas_used a <= ApprovedQuota.monthly_gas a)
         (approved_quotas (tables db)).

(** The row [ensureRemainingQuota] and [loadQuotas] create for a profile
    without one. *)
Definition created_quota (db : DB) (address : string) : Quota.row :=
  Quota.mk (quotas_id_seq db) address 650000 0.

(** The store after the lazy creation of [ensureRemainingQuota] (l.301-317)
    and of the status handler (l.174-192) for a profile without quota row:
    the profile row is appended when the profile had none (l.307-312,
    l.181-186), then the quota row, whose id advances the sequence. *)
Definition with_created_quota (now : Z) (address : string) (db : DB) : DB :=
  mkDB (mkTables
          (universal_profiles (tables db)
             ++ match SQL.profiles_of address db with
                | [] => [UniversalProfile.mk address now]
                | _ => []
                end)
          (quotas (tables db) ++ [created_quota db address])
          (approved_quotas (tables db))
          (transactions (tables db)))
       (quotas_id_seq db + 1) (transactions_id_seq db).

(** ** Column types

    db/migrations/0005_transactions.sql declares [id] SERIAL PRIMARY KEY,
    [channel_id] and [estimated_gas] INT, the addresses, [nonce] and
    [relayer_nonce] VARCHAR(100), [hash] VARCHAR(1000), [signature] and
    [abi] TEXT; [gas_used] of quotas is INT, and that of approved_quotas
    is taken to be. PostgreSQL refuses a statement that would store a
    value outside its column (22003, 22001), a text it cannot encode
    (22021) or an id that is already stored. The statements of
    [Module SQL] leave these refusals out. *)

Module Column.

Definition int (v : Z) : bool := (- 2 ^ 31 <=? v) && (v <? 2 ^ 31).

(** A text of one-byte characters, NUL excluded. *)
Fixpoint text (value : string) : bool :=
  match value with
  | EmptyString => true
  | String c rest =>
      (0 <? N_of_ascii c)%N && (N_of_ascii c <? 128)%N && text rest
  end.

Definition varchar (n : nat) (value : string) : bool :=
  text value && (String.length value <=? n)%nat.

End Column.

(** The values [createTransaction] is about to store are within their
    columns: the two debited counters stay INT, the id drawn from the
    sequence is INT and not stored yet, and the values of the INSERT and
    of the WHERE clauses fit. *)
Definition columns_accept `{Collaborators} (estimatedGas : Z)
           (quota : Quota.row) (address nonce signature abi : string)
           (channelId : Z) (signerAddress : string) (walletNonce : Z)
           (hash : string) (db : DB) : bool :=
  forallb (fun q => implb (Quota.id q =? Quota.id quota)
                          (Column.int (Quota.gas_used q + estimatedGas)))
          (quotas (tables db))
  && forallb (fun a => implb (SQL.delegation_matches address
                                (Quota.universal_profile_address quota) a)
                             (Column.int (ApprovedQuota.gas_used a
                                          + estimatedGas)))
             (approved_quotas (tables db))
  && Column.int (transactions_id_seq db)
  && negb (existsb (fun t => Transaction.id t =? transactions_id_seq db)
                   (transactions (tables db)))
  && Column.varchar 100 (Quota.universal_profile_address quota)
  && Column.varchar 100 address
  && Column.varchar 100 nonce
  && Column.text signature
  && Column.text abi
  && Column.int channelId
  && Column.varchar 100 signerAddress
  && Column.varchar 1000 hash
  && Column.varchar 100 (String_ walletNonce)
  && Column.varchar 100 wallet_address
  && Column.int estimatedGas.

(** A status request the handler goes on to serve: its three parameters
    are present, its timestamp is within 5000 ms of the server time, and
    the signer recovered from its signature has permission on the
    profile. *)
Definition status_request_accepted `{Collaborators} (body : QuotaBody.t)
           (now : Z) : Prop :=
  exists (timestamp : Z) (signerAddress : string),
    QuotaBody.timestamp body = Some timestamp
    /\ validateQuotaParams (QuotaBody.address body) (Some timestamp)
                           (QuotaBody.signature body) = Ok tt
    /\ -5000 <= now - timestamp <= 5000
    /\ verifyMessage (quotaMessage (present (QuotaBody.address body))
                                   timestamp)
                     (present (QuotaBody.signature body)) = Ok signerAddress
    /\ checkSignerPermissions (present (QuotaBody.address body))
                              signerAddress = Ok tt.

(** ** Quota resolution of the earlier revision of the handler

    The earlier [ensureRemainingQuota] (l.192-236) reads the delegations
    from the table approved_universal_profiles, which has no budget of its
    own; the table is only read, and is handed to the model. It throws
    plain strings, and creates the quota row without a profile row. *)

Module ApprovedUniversalProfile.
Record row := mk {
  approver_address : string;
  approved_address : string
}.
End ApprovedUniversalProfile.

Module EarlierResolver.

(** The [for] loop of l.222-229. *)
Fixpoint forApprovedUniversalProfiles (estimatedGas : Z)
         (approvedUniversalProfiles : list ApprovedUniversalProfile.row)
         (quota : option Quota.row) : M (option Quota.row) :=
  match approvedUniversalProfiles with
  | [] => ret quota
  | a :: rest =>
      rows <- query (SQL.quotas_of
                       (ApprovedUniversalProfile.approver_address a)) ;;
      quota <- lift (oneOrNone rows) ;;
      match quota with
      | None => throw TypeError
      | Some q =>
          if Quota.gas_used q + estimatedGas <=? Quota.monthly_gas q
          then ret (Some q)
          else forApprovedUniversalProfiles estimatedGas rest (Some q)
      end
  end.

Definition ensureRemainingQuota
           (approved_universal_profiles : list ApprovedUniversalProfile.row)
           (estimatedGas : Z) (address : string) : M Quota.row :=
  task (
    rows <- query (SQL.quotas_of address) ;;
    quota <- lift (oneOrNone rows) ;;
    match quota with
    | None =>
        inserted <- SQL.insert_quota address 650000 0 ;;
        lift (one inserted)
    | Some quota =>
        if Quota.gas_used quota + estimatedGas <=? Quota.monthly_gas quota
        then ret quota
        else
          let approvedUniversalProfiles :=
            filter (fun a => (ApprovedUniversalProfile.approved_address a
                              =? address)%string)
                   approved_universal_profiles in
          if (List.length approvedUniversalProfiles =? 0)%nat
          then throw (Thrown "gas limit reached")
          else
            quota <- forApprovedUniversalProfiles estimatedGas
                       approvedUniversalProfiles (Some quota) ;;
            match quota with
            | None => throw (Thrown "gas limit reached")
            | Some quota =>
                if Quota.gas_used quota + estimatedGas >? Quota.monthly_gas quota
                then throw (Thrown "gas limit reached")
                else ret quota
            end
    end).

(** The delegation rows of the later table as rows of the earlier one. *)
Definition approval_of (a : ApprovedQuota.row) : ApprovedUniversalProfile.row :=
  ApprovedUniversalProfile.mk (ApprovedQuota.approver_address a)
                              (ApprovedQuota.approved_address a).

(** The later failure as the earlier revision throws it. *)
Definition as_thrown (outcome : result Quota.row) : result Quota.row :=
  match outcome with
  | Err (NoGasError message) => Err (Thrown message)
  | other => other
  end.

End EarlierResolver.

(** * Properties *)

(** ** Channel extraction *)

(** C9. Channel extraction is the right shift by 128 bits of the call
    nonce: for every nonce text that BigNumber reads as a non-negative
    value whose high part fits a JavaScript integer (below 2^53),
    [extractChannelId] returns [call_nonce >> 128]; in particular the
    channel of (2 << 128) | 1 is 2. *)
Theorem extractChannelId_shift (nonce : string) (call_nonce : Z) :
  BigNumber.from nonce = Ok call_nonce ->
  0 <= call_nonce ->
  Z.shiftr call_nonce 128 < 2 ^ 53 ->
  extractChannelId nonce = Ok (Z.shiftr call_nonce 128).
Proof.
  intros Hfrom Hpos Hfit.
  unfold extractChannelId. rewrite Hfrom. cbn [bind_result].
  unfold BigNumber.shr.
  destruct (call_nonce <? 0) eqn:Hneg; [apply Z.ltb_lt in Hneg; lia|].
  cbn [orb Z.ltb Z.compare bind_result].
  unfold BigNumber.toNumber.
  assert (0 <= Z.shiftr call_nonce 128) by (apply Z.shiftr_nonneg; lia).
  rewrite Z.abs_eq by assumption.
  destruct (Z.shiftr call_nonce 128 <? 2 ^ 53) eqn:Hlt; [reflexivity|].
  apply Z.ltb_ge in Hlt. lia.
Qed.

Lemma extractChannelId_shift_witness :
  BigNumber.from Sample.channel2_nonce = Ok (Z.lor (Z.shiftl 2 128) 1)
  /\ extractChannelId Sample.channel2_nonce = Ok 2.
Proof.
  split; [reflexivity|].
  apply (extractChannelId_shift Sample.channel2_nonce
                                (Z.lor (Z.shiftl 2 128) 1));
    [reflexivity | vm_compute; discriminate | vm_compute; reflexivity].
Defined.

(** A channel of 2^53 or more does not convert: the extraction rejects. *)
Lemma extractChannelId_overflow (nonce : string) (call_nonce : Z) :
  BigNumber.from nonce = Ok call_nonce ->
  2 ^ 53 <= Z.shiftr call_nonce 128 ->
  extractChannelId nonce = Err (BigNumberError "overflow").
Proof.
  intros Hfrom Hbig.
  assert (0 <= call_nonce).
  { apply Z.shiftr_nonneg with (n := 128). lia. }
  unfold extractChannelId. rewrite Hfrom. cbn [bind_result].
  unfold BigNumber.shr.
  destruct (call_nonce <? 0) eqn:Hneg; [apply Z.ltb_lt in Hneg; lia|].
  cbn [orb Z.ltb Z.compare bind_result].
  unfold BigNumber.toNumber.
  rewrite Z.abs_eq by lia.
  destruct (Z.shiftr call_nonce 128 <? 2 ^ 53) eqn:Hlt; [|reflexivity].
  apply Z.ltb_lt in Hlt. lia.
Qed.

(** ** Rejections that leave the store alone *)

Ltac unfold_db :=
  unfold bind, lift, query, ret, throw, task, get in *.

(** C7. A status request whose signed timestamp is more than 5000 ms away
    from the server time, in either direction, is rejected whatever the
    signature check would answer, and the store is left as it was; when the
    three parameters are present the rejection is the freshness one. *)
Theorem quota_rejects_stale_timestamp `{Collaborators}
        (body : QuotaBody.t) (timestamp now : Z) (db : DB) :
  QuotaBody.timestamp body = Some timestamp ->
  5000 < Z.abs (now - timestamp) ->
  exists message,
    quota body now db = (db, Next message)
    /\ (validateQuotaParams (QuotaBody.address body) (Some timestamp)
                            (QuotaBody.signature body) = Ok tt ->
        message = "timestamp must be +/- 5 seconds").
Proof.
  intros Hts Hstale.
  unfold quota, quotaBody. rewrite Hts. unfold_db.
  destruct (validateQuotaParams (QuotaBody.address body) (Some timestamp)
                                (QuotaBody.signature body)) as [[]|e] eqn:Hv.
  - assert (Hwin : (now - timestamp >? 5000) || (now - timestamp <? -5000)
                   = true).
    { apply orb_true_iff.
      destruct (Z.abs_spec (now - timestamp)) as [[_ Habs]|[_ Habs]];
        rewrite Habs in Hstale; [left | right]; lia. }
    rewrite Hwin. eexists. split; [reflexivity | reflexivity].
  - eexists. split; [reflexivity | intros Hok; discriminate Hok].
Qed.

(** A timestamp 6000 ms in the past, every parameter present, a signature
    the collaborators accept. *)
Lemma quota_rejects_stale_timestamp_witness :
  let body := QuotaBody.mk (Some "0xUP") (Some 1700000000000)
                           (Some "0xSignature") in
  5000 < Z.abs (1700000006000 - 1700000000000)
  /\ exists message,
      @quota Sample.collaborators body 1700000006000 Sample.empty
      = (Sample.empty, Next message)
      /\ (validateQuotaParams (QuotaBody.address body) (Some 1700000000000)
                              (QuotaBody.signature body) = Ok tt ->
          message = "timestamp must be +/- 5 seconds").
Proof.
  split; [vm_compute; reflexivity|].
  apply (@quota_rejects_stale_timestamp Sample.collaborators
           (QuotaBody.mk (Some "0xUP") (Some 1700000000000)
                         (Some "0xSignature"))
           1700000000000 1700000006000 Sample.empty);
    [reflexivity | vm_compute; reflexivity].
Defined.

(** Inside the window the same request is served. *)
Example quota_serves_fresh_timestamp :
  @quota Sample.collaborators
         (QuotaBody.mk (Some "0xUP") (Some 1700000000000) (Some "0xSignature"))
         1700000005000 Sample.single
  = (Sample.single, QuotaStatus 0 "gas" 100 1700000005000).
Proof. vm_compute. reflexivity. Qed.

(** C8. A relay request that fails parameter validation or the
    authorization check (key manager lookup, signer recovery, permission
    predicate) is answered through [next] with the store and the job queue
    exactly as before: no quota row is touched and no transaction row is
    inserted. *)
Theorem execute_rejection_keeps_store `{Collaborators}
        (getWalletNonce : DB -> result Z) (body : ExecuteBody.t)
        (now : Z) (db : DB) (txQueue : list Job) :
  is_ok (validateExecuteParams (ExecuteBody.address body)
                               (ExecuteBody.nonce body)
                               (ExecuteBody.abi body)
                               (ExecuteBody.signature body)) = false
  \/ is_ok (authorization body) = false ->
  exists message,
    execute getWalletNonce body now db txQueue = (db, txQueue, Next message).
Proof.
  intros Hrejected.
  unfold execute, executeBody. unfold_db.
  destruct (validateExecuteParams _ _ _ _) as [[]|e] eqn:Hv.
  - destruct Hrejected as [Hbad|Hauth]; [discriminate Hbad|].
    unfold authorization in Hauth.
    destruct (setUpKeyManager _) as [[km keyManager]|e1];
      [|eexists; reflexivity].
    cbn [bind_result fst] in Hauth.
    destruct (getSignerAddress _ _ _ _) as [signerAddress|e2];
      [|eexists; reflexivity].
    cbn [bind_result] in Hauth.
    destruct (checkSignerPermissions _ _) as [[]|e3];
      [discriminate Hauth | eexists; reflexivity].
  - eexists. reflexivity.
Qed.

(** An absent nonce on an empty store. *)
Lemma execute_rejection_keeps_store_witness :
  exists message,
    @execute Sample.collaborators (fun _ => Ok 9)
             (ExecuteBody.mk (Some "0xUP") None (Some "0xAbi")
                             (Some "0xSignature"))
             0 Sample.empty []
    = (Sample.empty, [], Next message).
Proof.
  apply (@execute_rejection_keeps_store Sample.collaborators (fun _ => Ok 9)
           (ExecuteBody.mk (Some "0xUP") None (Some "0xAbi")
                           (Some "0xSignature"))
           0 Sample.empty []).
  left. reflexivity.
Defined.

(** The validation rejections are [ArgumentError]s, passed on verbatim. *)
Lemma validateExecuteParams_error (address nonce abi sig : option string)
      (e : error) :
  validateExecuteParams address nonce abi sig = Err e ->
  exists message, e = ArgumentError message /\ executeFailure e = message.
Proof.
  unfold validateExecuteParams.
  destruct (missing address); [intros [= <-]; eexists; split; reflexivity|].
  destruct (missing nonce); [intros [= <-]; eexists; split; reflexivity|].
  destruct (missing abi); [intros [= <-]; eexists; split; reflexivity|].
  destruct (missing sig); [intros [= <-]; eexists; split; reflexivity|].
  discriminate.
Qed.

(** ** Quota resolution *)

(** The delegation scan only reads. *)
Lemma forApprovedQuotas_reads (estimatedGas : Z)
      (approvedQuotas : list ApprovedQuota.row) :
  forall (quota : option Quota.row) (db : DB),
    fst (forApprovedQuotas estimatedGas approvedQuotas quota db) = db.
Proof.
  induction approvedQuotas as [|a rest IH]; intros quota db; cbn.
  - reflexivity.
  - destruct (_ >=? _); [apply IH|].
    unfold_db.
    destruct (oneOrNone _) as [[q|]|e]; cbn; try reflexivity.
    destruct (_ <=? _); [reflexivity | apply IH].
Qed.

(** The row the scan leaves in [quota] is the one it started with or a row
    of the [quotas] table. *)
Lemma forApprovedQuotas_row (estimatedGas : Z)
      (approvedQuotas : list ApprovedQuota.row) :
  forall (quota : option Quota.row) (db db' : DB) (q : Quota.row),
    forApprovedQuotas estimatedGas approvedQuotas quota db = (db', Ok (Some q)) ->
    quota = Some q \/ In q (quotas (tables db)).
Proof.
  induction approvedQuotas as [|a rest IH]; intros quota db db' q; cbn.
  - unfold_db. intros [= _ ->]. left. reflexivity.
  - destruct (_ >=? _); [apply IH|].
    unfold_db.
    destruct (oneOrNone _) as [[q1|]|e] eqn:Hone; try discriminate.
    assert (Hin : In q1 (quotas (tables db))).
    { unfold oneOrNone in Hone.
      destruct (SQL.quotas_of _ db) as [|r [|r' rows]] eqn:Hrows;
        try discriminate.
      injection Hone as ->.
      assert (In q1 (SQL.quotas_of (ApprovedQuota.approver_address a) db))
        by (rewrite Hrows; left; reflexivity).
      unfold SQL.quotas_of in *. eapply proj1. apply filter_In. eassumption. }
    destruct (_ <=? _).
    + intros [= _ <-]. right. exact Hin.
    + intros Hrest. apply IH in Hrest. destruct Hrest as [[= <-]|Hq].
      * right. exact Hin.
      * right. exact Hq.
Qed.

(** With a quota row already stored for the profile, the resolver does not
    write, and the row it returns is a stored quota row with room for the
    estimate. *)
Lemma ensureRemainingQuota_existing (now estimatedGas : Z) (address : string)
      (db db' : DB) (own q : Quota.row) :
  SQL.quotas_of address db = [own] ->
  ensureRemainingQuota now estimatedGas address db = (db', Ok q) ->
  db' = db
  /\ In q (quotas (tables db))
  /\ Quota.gas_used q + estimatedGas <= Quota.monthly_gas q.
Proof.
  intros Hown.
  assert (Hown_in : In own (quotas (tables db))).
  { assert (In own (SQL.quotas_of address db)) by (rewrite Hown; left; easy).
    unfold SQL.quotas_of in *. eapply proj1. apply filter_In. eassumption. }
  unfold ensureRemainingQuota. unfold_db. rewrite Hown. cbn [oneOrNone].
  destruct (Quota.gas_used own + estimatedGas <=? Quota.monthly_gas own)
    eqn:Hroom.
  - intros [= <- <-]. apply Z.leb_le in Hroom. auto.
  - destruct (List.length _ =? 0)%nat; [discriminate|].
    pose proof (forApprovedQuotas_reads estimatedGas
                  (SQL.approved_quotas_of address db) (Some own) db) as Hreads.
    destruct (forApprovedQuotas _ _ _ db) as [db1 [[q1|]|e]] eqn:Hscan;
      cbn in Hreads; subst db1; try discriminate.
    destruct (Quota.gas_used q1 + estimatedGas >? Quota.monthly_gas q1)
      eqn:Hover; [discriminate|].
    intros [= <- <-].
    split; [reflexivity|]. split.
    + apply forApprovedQuotas_row in Hscan.
      destruct Hscan as [[= <-]|Hin]; assumption.
    + rewrite Z.gtb_ltb in Hover. apply Z.ltb_ge in Hover. exact Hover.
Qed.

(** Without a quota row the resolver creates one (allowance 650000,
    nothing used) and returns it, whatever the estimate. *)
Lemma ensureRemainingQuota_created (now estimatedGas : Z) (address : string)
      (db : DB) :
  SQL.quotas_of address db = [] ->
  SQL.profiles_of address db = [] ->
  ensureRemainingQuota now estimatedGas address db
  = (mkDB (mkTables (universal_profiles (tables db)
                       ++ [UniversalProfile.mk address now])
                    (quotas (tables db)
                       ++ [Quota.mk (quotas_id_seq db) address 650000 0])
                    (approved_quotas (tables db))
                    (transactions (tables db)))
          (quotas_id_seq db + 1) (transactions_id_seq db),
     Ok (Quota.mk (quotas_id_seq db) address 650000 0)).
Proof.
  intros Hquota Hprofile.
  unfold ensureRemainingQuota. unfold_db.
  rewrite Hquota. cbn [oneOrNone]. rewrite Hprofile. reflexivity.
Qed.

(** C1. A profile without a quota row asks for 700000 gas: the resolver
    creates the quota (allowance 650000, used 0) and returns it as payer
    although 0 + 700000 exceeds 650000; a profile whose stored quota is
    0 / 650000 is refused the same estimate. *)
Theorem ensureRemainingQuota_created_unchecked :
  let fresh := Quota.mk 1 "0xUP" 650000 0 in
  snd (ensureRemainingQuota 0 700000 "0xUP" Sample.empty) = Ok fresh
  /\ Quota.gas_used fresh + 700000 > Quota.monthly_gas fresh
  /\ snd (ensureRemainingQuota 0 700000 "0xUP"
            (fst (ensureRemainingQuota 0 1 "0xUP" Sample.empty)))
     = Err (NoGasError "gas limit reached").
Proof. vm_compute. repeat split; reflexivity. Qed.

(** The scan against the worded selection: started on a row without
    headroom, it ends on the first usable delegation's approver quota, or
    on some row without headroom when no delegation is usable. *)
Lemma forApprovedQuotas_firstUsable (estimatedGas : Z) (db : DB)
      (approvedQuotas : list ApprovedQuota.row) :
  Resolver.approvers_have_quota db estimatedGas approvedQuotas ->
  forall q0 : Quota.row,
    Resolver.has_headroom estimatedGas q0 = false ->
    exists q' : Quota.row,
      forApprovedQuotas estimatedGas approvedQuotas (Some q0) db
      = (db, Ok (Some q'))
      /\ match Resolver.firstUsable db estimatedGas approvedQuotas with
         | Some q => q' = q /\ Resolver.has_headroom estimatedGas q = true
         | None => Resolver.has_headroom estimatedGas q' = false
         end.
Proof.
  induction approvedQuotas as [|a rest IH]; intros Hrows q0 Hq0.
  - exists q0. split; [reflexivity | exact Hq0].
  - inversion Hrows as [|? ? Ha Hrest]; subst.
    cbn [forApprovedQuotas Resolver.firstUsable]. unfold Resolver.usable.
    change (ApprovedQuota.gas_used a + estimatedGas
            >=? ApprovedQuota.monthly_gas a)
      with (Resolver.skipped estimatedGas a).
    destruct (Resolver.skipped estimatedGas a) eqn:Hskip.
    + apply IH; assumption.
    + destruct (Ha eq_refl) as [q Hq]. unfold_db. rewrite Hq.
      cbn [oneOrNone].
      change (Quota.gas_used q + estimatedGas <=? Quota.monthly_gas q)
        with (Resolver.has_headroom estimatedGas q).
      destruct (Resolver.has_headroom estimatedGas q) eqn:Hroom.
      * exists q. auto.
      * apply IH; assumption.
Qed.

(** On a store where the profile has its quota row and every approver the
    scan consults has one, the resolver is the worded selection and leaves
    the store as it was. *)
Lemma ensureRemainingQuota_resolvePayer (now estimatedGas : Z)
      (address : string) (db : DB) (own : Quota.row) :
  SQL.quotas_of address db = [own] ->
  Resolver.approvers_have_quota db estimatedGas
                                (SQL.approved_quotas_of address db) ->
  ensureRemainingQuota now estimatedGas address db
  = (db, Resolver.resolvePayer own estimatedGas address db).
Proof.
  intros Hown Hrows.
  unfold ensureRemainingQuota, Resolver.resolvePayer. unfold_db.
  rewrite Hown. cbn [oneOrNone].
  change (Quota.gas_used own + estimatedGas <=? Quota.monthly_gas own)
    with (Resolver.has_headroom estimatedGas own).
  destruct (Resolver.has_headroom estimatedGas own) eqn:Hroom; [reflexivity|].
  destruct (SQL.approved_quotas_of address db) as [|a rest] eqn:Hdel;
    [reflexivity|].
  cbn [List.length Nat.eqb].
  destruct (forApprovedQuotas_firstUsable estimatedGas db (a :: rest) Hrows
              own Hroom) as [q' [Hscan Hfirst]].
  rewrite Hscan.
  destruct (Resolver.firstUsable db estimatedGas (a :: rest)) as [q|].
  - destruct Hfirst as [-> Hq]. unfold Resolver.has_headroom in Hq.
    apply Z.leb_le in Hq.
    destruct (Quota.gas_used q + estimatedGas >? Quota.monthly_gas q) eqn:Hover;
      [|reflexivity].
    rewrite Z.gtb_ltb in Hover. apply Z.ltb_lt in Hover. lia.
  - unfold Resolver.has_headroom in Hfirst. apply Z.leb_gt in Hfirst.
    destruct (Quota.gas_used q' + estimatedGas >? Quota.monthly_gas q')
      eqn:Hover; [reflexivity|].
    rewrite Z.gtb_ltb in Hover. apply Z.ltb_ge in Hover. lia.
Qed.

(** §8: own allowance 100, used 90, estimate 5: the own quota pays. *)
Example resolve_own :
  ensureRemainingQuota 0 5 "0xUP"
    (mkDB (mkTables [Sample.profile "0xUP"] [Quota.mk 1 "0xUP" 100 90] [] [])
          2 1)
  = (mkDB (mkTables [Sample.profile "0xUP"] [Quota.mk 1 "0xUP" 100 90] [] [])
          2 1,
     Ok (Quota.mk 1 "0xUP" 100 90)).
Proof. reflexivity. Qed.

(** §8: own quota used up, one usable delegation: the approver's quota row
    is returned. *)
Example resolve_delegated :
  ensureRemainingQuota 0 5 "0xUP" Sample.delegated
  = (Sample.delegated, Ok (Quota.mk 2 "0xApprover" 200 190)).
Proof. reflexivity. Qed.

(** The scan reaching a delegation that is not skipped and whose approver
    has no quota row reads a property of null. *)
Lemma forApprovedQuotas_null (estimatedGas : Z) (db : DB)
      (a : ApprovedQuota.row) (rest : list ApprovedQuota.row)
      (passed : list ApprovedQuota.row) :
  Forall (Resolver.passed_over db estimatedGas) passed ->
  Resolver.skipped estimatedGas a = false ->
  SQL.quotas_of (ApprovedQuota.approver_address a) db = [] ->
  forall quota : option Quota.row,
    forApprovedQuotas estimatedGas (passed ++ a :: rest) quota db
    = (db, Err TypeError).
Proof.
  intros Hpassed Hskip Hnone.
  induction passed as [|p passed IH]; intros quota; cbn [app forApprovedQuotas].
  - unfold Resolver.skipped in Hskip. rewrite Hskip.
    unfold_db. rewrite Hnone. reflexivity.
  - inversion Hpassed as [|? ? Hp Hrest]; subst.
    destruct Hp as [Hp|[q [Hq Hroom]]].
    + unfold Resolver.skipped in Hp. rewrite Hp. apply IH. exact Hrest.
    + destruct (_ >=? _); [apply IH; exact Hrest|].
      unfold_db. rewrite Hq. cbn [oneOrNone].
      unfold Resolver.has_headroom in Hroom. rewrite Hroom.
      apply IH. exact Hrest.
Qed.

(** C10. When the profile's own quota lacks headroom and the delegation
    scan reaches a delegation with used + gas < allowance whose approver
    has no quota row, the resolver fails with the TypeError of reading a
    property of null, which [execute] reports as the generic
    "Failed to execute" and not as the NoGasError message; the store is
    unchanged, so no quota row was created for the approver. *)
Theorem ensureRemainingQuota_missing_approver_quota
        (now estimatedGas : Z) (address : string) (db : DB) (own : Quota.row)
        (passed : list ApprovedQuota.row) (a : ApprovedQuota.row)
        (rest : list ApprovedQuota.row) :
  SQL.quotas_of address db = [own] ->
  Quota.gas_used own + estimatedGas > Quota.monthly_gas own ->
  SQL.approved_quotas_of address db = (passed ++ a :: rest)%list ->
  Forall (Resolver.passed_over db estimatedGas) passed ->
  ApprovedQuota.gas_used a + estimatedGas < ApprovedQuota.monthly_gas a ->
  SQL.quotas_of (ApprovedQuota.approver_address a) db = [] ->
  ensureRemainingQuota now estimatedGas address db = (db, Err TypeError)
  /\ executeFailure TypeError = "Failed to execute"
  /\ executeFailure TypeError
     <> executeFailure (NoGasError "gas limit reached").
Proof.
  intros Hown Hfull Hdel Hpassed Hroom Hnone.
  split; [|split; [reflexivity | discriminate]].
  unfold ensureRemainingQuota. unfold_db.
  rewrite Hown. cbn [oneOrNone].
  destruct (Quota.gas_used own + estimatedGas <=? Quota.monthly_gas own)
    eqn:Hle; [apply Z.leb_le in Hle; lia|].
  rewrite Hdel.
  destruct (List.length (passed ++ a :: rest) =? 0)%nat eqn:Hlen.
  { apply Nat.eqb_eq in Hlen. rewrite length_app in Hlen. cbn in Hlen. lia. }
  rewrite (forApprovedQuotas_null estimatedGas db a rest passed Hpassed);
    [reflexivity | | exact Hnone].
  unfold Resolver.skipped.
  destruct (_ >=? _) eqn:Hge; [|reflexivity].
  rewrite Z.geb_leb in Hge. apply Z.leb_le in Hge. lia.
Qed.

Lemma ensureRemainingQuota_missing_approver_quota_witness :
  ensureRemainingQuota 0 5 "0xUP" Sample.orphaned
  = (Sample.orphaned, Err TypeError)
  /\ executeFailure TypeError = "Failed to execute"
  /\ executeFailure TypeError
     <> executeFailure (NoGasError "gas limit reached").
Proof.
  apply (ensureRemainingQuota_missing_approver_quota 0 5 "0xUP"
           Sample.orphaned (Quota.mk 1 "0xUP" 100 100) []
           (ApprovedQuota.mk 1 "0xApprover" "0xUP" 50 10) []);
    try reflexivity.
  constructor.
Defined.

(** The whole request, seen by the caller. *)
Example execute_missing_approver_quota :
  @execute Sample.collaborators (fun _ => Ok 9)
           (ExecuteBody.mk (Some "0xUP") (Some "1") (Some "0xAbi")
                           (Some "0xSignature"))
           0 Sample.orphaned []
  = (Sample.orphaned, [], Next "Failed to execute").
Proof. vm_compute. reflexivity. Qed.

(** ** Creating the transaction row *)

Ltac unfold_createTransaction H :=
  unfold createTransaction, tx, SQL.debit_quota, SQL.debit_approved_quota,
    SQL.insert_transaction in H;
  unfold bind, lift, query, ret, throw, task, get in H;
  cbn [tables universal_profiles quotas approved_quotas transactions
       quotas_id_seq transactions_id_seq with_tables
       Transaction.nonce Transaction.channel_id Transaction.signer_address
       Transaction.universal_profile_address Transaction.approved_quota_id]
    in H.

(** What a successful [createTransaction] did: at most one delegation row
    matched, no stored transaction carried the authorization, and the new
    store is the old one with the two UPDATEs applied and the row
    appended. *)
Lemma createTransaction_ok_inv `{Collaborators}
      (now estimatedGas : Z) (quota : Quota.row)
      (address nonce signature abi : string) (channelId : Z)
      (signerAddress : string) (walletNonce : Z) (hash : string)
      (db db' : DB) (t : Transaction.row) :
  createTransaction now estimatedGas quota address nonce signature abi
                    channelId signerAddress walletNonce hash db = (db', Ok t) ->
  let hit := SQL.delegation_matches address
               (Quota.universal_profile_address quota) in
  let hits := filter hit (approved_quotas (tables db)) in
  (List.length hits <= 1)%nat
  /\ existsb (SQL.same_authorization nonce channelId signerAddress)
             (transactions (tables db)) = false
  /\ t = Transaction.mk (transactions_id_seq db) address nonce signature abi
           channelId "PENDING" signerAddress hash (String_ walletNonce)
           wallet_address estimatedGas 0
           (option_map ApprovedQuota.id
              (List.hd_error (map (ApprovedQuota.debit estimatedGas) hits)))
           now now
  /\ db' = mkDB (mkTables
                   (universal_profiles (tables db))
                   (map (fun q => if Quota.id q =? Quota.id quota
                                  then Quota.debit estimatedGas q else q)
                        (quotas (tables db)))
                   (map (fun a => if hit a
                                  then ApprovedQuota.debit estimatedGas a
                                  else a)
                        (approved_quotas (tables db)))
                   (transactions (tables db) ++ [t]))
                (quotas_id_seq db) (transactions_id_seq db + 1).
Proof.
  intros Hrun. cbv zeta.
  destruct db as [[ups qs aqs txs] qseq tseq].
  unfold_createTransaction Hrun.
  cbn [tables universal_profiles quotas approved_quotas transactions
       quotas_id_seq transactions_id_seq].
  set (hit := SQL.delegation_matches address
                (Quota.universal_profile_address quota)) in *.
  destruct (filter hit aqs) as [|h [|h' more]]; cbn [map oneOrNone] in Hrun;
    try discriminate Hrun.
  - destruct (existsb _ txs); cbv beta iota in Hrun; [discriminate Hrun|].
    destruct (negb _); cbv beta iota in Hrun; [discriminate Hrun|].
    cbn [one] in Hrun. injection Hrun as <- <-.
    cbn [List.length map hd_error]. repeat split; auto.
  - destruct (existsb _ txs); cbv beta iota in Hrun; [discriminate Hrun|].
    destruct (negb _); cbv beta iota in Hrun; [discriminate Hrun|].
    cbn [one] in Hrun. injection Hrun as <- <-.
    cbn [List.length map hd_error]. repeat split; auto.
Qed.

(** A call whose authorization triple is already stored is rejected by the
    unique index, provided pg-promise did not reject the delegation UPDATE
    first; the rollback leaves every table as it was and only the id
    sequence has moved. *)
Lemma createTransaction_duplicate_rejected `{Collaborators}
      (now estimatedGas : Z) (quota : Quota.row)
      (address nonce signature abi : string) (channelId : Z)
      (signerAddress : string) (walletNonce : Z) (hash : string) (db : DB) :
  existsb (SQL.same_authorization nonce channelId signerAddress)
          (transactions (tables db)) = true ->
  (List.length (filter (SQL.delegation_matches address
                          (Quota.universal_profile_address quota))
                       (approved_quotas (tables db))) <= 1)%nat ->
  createTransaction now estimatedGas quota address nonce signature abi
                    channelId signerAddress walletNonce hash db
  = (mkDB (tables db) (quotas_id_seq db) (transactions_id_seq db + 1),
     Err UniqueViolation).
Proof.
  intros Hstored Hone.
  destruct db as [[ups qs aqs txs] qseq tseq].
  cbn [tables universal_profiles quotas approved_quotas transactions
       quotas_id_seq transactions_id_seq] in *.
  match goal with |- ?lhs = _ => remember lhs as run eqn:Hrun end.
  unfold_createTransaction Hrun.
  destruct (filter _ aqs) as [|h [|h' more]]; cbn [map oneOrNone] in Hrun.
  - rewrite Hstored in Hrun. cbv beta iota in Hrun. exact Hrun.
  - rewrite Hstored in Hrun. cbv beta iota in Hrun. exact Hrun.
  - cbn [List.length] in Hone. lia.
Qed.

Lemma same_authorization_refl (nonce : string) (channelId : Z)
      (signerAddress : string) (t : Transaction.row) :
  Transaction.nonce t = nonce ->
  Transaction.channel_id t = channelId ->
  Transaction.signer_address t = signerAddress ->
  SQL.same_authorization nonce channelId signerAddress t = true.
Proof.
  intros <- <- <-. unfold SQL.same_authorization.
  rewrite !String.eqb_refl, Z.eqb_refl. reflexivity.
Qed.

(** Debiting the matching delegations does not change which rows match. *)
Lemma filter_debited_length (hit : ApprovedQuota.row -> bool)
      (estimatedGas : Z) (rows : list ApprovedQuota.row) :
  (forall a, hit (ApprovedQuota.debit estimatedGas a) = hit a) ->
  List.length (filter hit (map (fun a => if hit a
                                         then ApprovedQuota.debit estimatedGas a
                                         else a) rows))
  = List.length (filter hit rows).
Proof.
  intros Hstable.
  induction rows as [|a rows IH]; [reflexivity|].
  cbn [map filter].
  destruct (hit a) eqn:Ha.
  - rewrite Hstable, Ha. cbn [List.length]. rewrite IH. reflexivity.
  - rewrite Ha. exact IH.
Qed.

(** A call whose authorization triple is already stored fails, whatever
    its other arguments, and its rollback leaves every table as it was:
    with the unique violation when at most one delegation row matches its
    profile and payer, with the pg-promise rejection of the delegation
    UPDATE otherwise. *)
Lemma createTransaction_stored_rejected `{Collaborators}
      (now estimatedGas : Z) (quota : Quota.row)
      (address nonce signature abi : string) (channelId : Z)
      (signerAddress : string) (walletNonce : Z) (hash : string) (db : DB) :
  existsb (SQL.same_authorization nonce channelId signerAddress)
          (transactions (tables db)) = true ->
  exists db2,
    createTransaction now estimatedGas quota address nonce signature abi
                      channelId signerAddress walletNonce hash db
    = (db2, Err (if (List.length
                       (filter (SQL.delegation_matches address
                                  (Quota.universal_profile_address quota))
                               (approved_quotas (tables db))) <=? 1)%nat
                 then UniqueViolation else QueryResultError))
    /\ tables db2 = tables db.
Proof.
  intros Hstored.
  destruct (le_gt_dec
              (List.length
                 (filter (SQL.delegation_matches address
                            (Quota.universal_profile_address quota))
                         (approved_quotas (tables db)))) 1) as [Hone|Hmany].
  - rewrite (createTransaction_duplicate_rejected now estimatedGas quota
               address nonce signature abi channelId signerAddress
               walletNonce hash db Hstored Hone).
    apply Nat.leb_le in Hone. rewrite Hone.
    eexists. split; reflexivity.
  - destruct db as [[ups qs aqs txs] qseq tseq].
    cbn [tables universal_profiles quotas approved_quotas transactions
         quotas_id_seq transactions_id_seq] in *.
    destruct (createTransaction now estimatedGas quota address nonce signature
                abi channelId signerAddress walletNonce hash
                (mkDB (mkTables ups qs aqs txs) qseq tseq))
      as [db2 outcome] eqn:Hrun.
    unfold_createTransaction Hrun.
    destruct (filter _ aqs) as [|h [|h' more]];
      cbn [List.length] in Hmany; try lia.
    cbn [map oneOrNone] in Hrun. injection Hrun as <- <-.
    cbn [List.length Nat.leb].
    eexists. split; reflexivity.
Qed.

(** C2. Two calls of [createTransaction] that carry the same
    (call nonce, channel id, signer address), whatever their other
    arguments (profile, payer, estimate) and whichever of them runs first:
    when the first succeeds, the second fails, and after its rollback
    every table of the store is as the first call left it, the debit of
    the second call included. For values their columns accept, the failure
    is the unique-index violation of transactions (the duplicate
    authorization) when at most one delegation row runs from the second
    payer's profile to the second requesting profile; with more than one
    such row pg-promise rejects the delegation UPDATE (oneOrNone,
    l.117-120) before the INSERT is reached. *)
Theorem createTransaction_replay_rejected `{Collaborators}
        (nonce : string) (channelId : Z) (signerAddress : string)
        (now1 estimatedGas1 : Z) (quota1 : Quota.row)
        (address1 signature1 abi1 : string) (walletNonce1 : Z)
        (hash1 : string)
        (now2 estimatedGas2 : Z) (quota2 : Quota.row)
        (address2 signature2 abi2 : string) (walletNonce2 : Z)
        (hash2 : string)
        (db db1 : DB) (t1 : Transaction.row) :
  createTransaction now1 estimatedGas1 quota1 address1 nonce signature1 abi1
                    channelId signerAddress walletNonce1 hash1 db
  = (db1, Ok t1) ->
  exists (db2 : DB) (e : error),
    createTransaction now2 estimatedGas2 quota2 address2 nonce signature2 abi2
                      channelId signerAddress walletNonce2 hash2 db1
    = (db2, Err e)
    /\ tables db2 = tables db1
    /\ (columns_accept estimatedGas2 quota2 address2 nonce signature2 abi2
                       channelId signerAddress walletNonce2 hash2 db1
        = true ->
        e = if (List.length
                  (filter (SQL.delegation_matches address2
                             (Quota.universal_profile_address quota2))
                          (approved_quotas (tables db1))) <=? 1)%nat
            then UniqueViolation else QueryResultError).
Proof.
  intros Hfirst.
  apply createTransaction_ok_inv in Hfirst. cbv zeta in Hfirst.
  destruct Hfirst as (_ & _ & Ht1 & Hdb1).
  destruct (createTransaction_stored_rejected now2 estimatedGas2 quota2
              address2 nonce signature2 abi2 channelId signerAddress
              walletNonce2 hash2 db1) as (db2 & Hsecond & Htables).
  { rewrite Hdb1. cbn [tables transactions].
    rewrite existsb_app. apply orb_true_iff. right.
    cbn [existsb]. rewrite orb_false_r.
    apply same_authorization_refl; rewrite Ht1; reflexivity. }
  exists db2. eexists. split; [exact Hsecond|]. split; [exact Htables|].
  intros _. reflexivity.
Qed.

(** The delegated payment of §8, then the same authorization presented
    again and resolved to the profile's own quota. *)
Lemma createTransaction_replay_rejected_witness :
  exists db2,
    @createTransaction Sample.collaborators 7 8 (Quota.mk 1 "0xUP" 100 100)
      "0xUP" "1" "0xSignature" "0xAbi" 0 "0xSigner" 10 "0xOtherHash"
      (fst (@createTransaction Sample.collaborators 0 5
              (Quota.mk 2 "0xApprover" 200 190) "0xUP" "1" "0xSignature"
              "0xAbi" 0 "0xSigner" 9 "0xHash" Sample.delegated))
    = (db2, Err UniqueViolation)
    /\ tables db2
       = tables (fst (@createTransaction Sample.collaborators 0 5
                        (Quota.mk 2 "0xApprover" 200 190) "0xUP" "1"
                        "0xSignature" "0xAbi" 0 "0xSigner" 9 "0xHash"
                        Sample.delegated)).
Proof.
  destruct (@createTransaction_replay_rejected Sample.collaborators
              "1" 0 "0xSigner"
              0 5 (Quota.mk 2 "0xApprover" 200 190) "0xUP" "0xSignature"
              "0xAbi" 9 "0xHash"
              7 8 (Quota.mk 1 "0xUP" 100 100) "0xUP" "0xSignature" "0xAbi" 10
              "0xOtherHash" Sample.delegated
              (fst (@createTransaction Sample.collaborators 0 5
                      (Quota.mk 2 "0xApprover" 200 190) "0xUP" "1"
                      "0xSignature" "0xAbi" 0 "0xSigner" 9 "0xHash"
                      Sample.delegated))
              (Transaction.mk 1 "0xUP" "1" "0xSignature" "0xAbi" 0 "PENDING"
                              "0xSigner" "0xHash" "9" "0xRelayer" 5 0 (Some 1)
                              0 0))
    as (db2 & e & Hsecond & Htables & Herror).
  - vm_compute. reflexivity.
  - exists db2. split; [|exact Htables].
    rewrite Hsecond, Herror; [reflexivity|]. vm_compute. reflexivity.
Defined.

(** The duplicate authorization is not the failure of every replay. On a
    store with two delegation rows from the approver to the profile, a
    relay paid by the profile's own quota succeeds; the same authorization
    presented again with the approver's quota as payer is rejected by
    pg-promise on the delegation UPDATE, which matched two rows. *)
Lemma replay_rejected_by_row_count :
  ~ (forall (nonce : string) (channelId : Z) (signerAddress : string)
            (now1 estimatedGas1 : Z) (quota1 : Quota.row)
            (address1 signature1 abi1 : string) (walletNonce1 : Z)
            (hash1 : string)
            (now2 estimatedGas2 : Z) (quota2 : Quota.row)
            (address2 signature2 abi2 : string) (walletNonce2 : Z)
            (hash2 : string)
            (db db1 : DB) (t1 : Transaction.row),
        @createTransaction Sample.collaborators now1 estimatedGas1 quota1
          address1 nonce signature1 abi1 channelId signerAddress walletNonce1
          hash1 db
        = (db1, Ok t1) ->
        exists db2,
          @createTransaction Sample.collaborators now2 estimatedGas2 quota2
            address2 nonce signature2 abi2 channelId signerAddress
            walletNonce2 hash2 db1
          = (db2, Err UniqueViolation)
          /\ tables db2 = tables db1).
Proof.
  intros Hduplicate.
  specialize (Hduplicate "1" 0 "0xSigner"
                0 5 (Quota.mk 1 "0xUP" 100 0) "0xUP" "0xSignature" "0xAbi" 9
                "0xHash"
                0 5 (Quota.mk 2 "0xApprover" 200 0) "0xUP" "0xSignature"
                "0xAbi" 10 "0xHash" Sample.twice_delegated).
  specialize (Hduplicate _ _ eq_refl).
  destruct Hduplicate as (db2 & Hsecond & _).
  vm_compute in Hsecond. discriminate Hsecond.
Qed.

(** The caller of the replayed relay is told the generic failure. *)
Example execute_replay :
  executeFailure UniqueViolation = "Failed to execute".
Proof. reflexivity. Qed.

(** C5. A successful [createTransaction] adds estimatedGas to the used
    counter of the quota row whose id is the payer's and to that of the
    delegation row from the payer's profile to the requesting profile, of
    which there is at most one; every other quota row and every other
    delegation row is kept as it was. A delegated payment therefore debits
    two rows: the approver's quota and the delegation. *)
Theorem createTransaction_debited_rows `{Collaborators}
        (now estimatedGas : Z) (quota : Quota.row)
        (address nonce signature abi : string) (channelId : Z)
        (signerAddress : string) (walletNonce : Z) (hash : string)
        (db db' : DB) (t : Transaction.row) :
  createTransaction now estimatedGas quota address nonce signature abi
                    channelId signerAddress walletNonce hash db = (db', Ok t) ->
  let delegated := SQL.delegation_matches address
                     (Quota.universal_profile_address quota) in
  quotas (tables db')
  = map (fun q => if Quota.id q =? Quota.id quota
                  then Quota.debit estimatedGas q else q)
        (quotas (tables db))
  /\ approved_quotas (tables db')
     = map (fun a => if delegated a
                     then ApprovedQuota.debit estimatedGas a else a)
           (approved_quotas (tables db))
  /\ (List.length (filter delegated (approved_quotas (tables db))) <= 1)%nat.
Proof.
  intros Hrun. apply createTransaction_ok_inv in Hrun. cbv zeta in *.
  destruct Hrun as (Hone & _ & _ & ->).
  cbn [tables quotas approved_quotas]. auto.
Qed.

Lemma createTransaction_debited_rows_witness :
  exists db' t,
    @createTransaction Sample.collaborators 0 5
      (Quota.mk 2 "0xApprover" 200 190) "0xUP" "1" "0xSignature" "0xAbi" 0
      "0xSigner" 9 "0xHash" Sample.delegated = (db', Ok t)
    /\ quotas (tables db')
       = [Quota.mk 1 "0xUP" 100 100; Quota.mk 2 "0xApprover" 200 195]
    /\ approved_quotas (tables db')
       = [ApprovedQuota.mk 1 "0xApprover" "0xUP" 50 15].
Proof.
  destruct (@createTransaction Sample.collaborators 0 5
              (Quota.mk 2 "0xApprover" 200 190) "0xUP" "1" "0xSignature"
              "0xAbi" 0 "0xSigner" 9 "0xHash" Sample.delegated)
    as [db' [t|e]] eqn:Hrun; [|vm_compute in Hrun; discriminate Hrun].
  exists db', t. split; [reflexivity|].
  destruct (@createTransaction_debited_rows Sample.collaborators _ _ _ _ _ _ _
              _ _ _ _ _ _ _ Hrun) as (Hq & Ha & _).
  rewrite Hq, Ha. split; reflexivity.
Defined.

(** The single-row reading fails on the delegated payment of §8: the
    resolver returns the approver's quota, and the call debits that quota
    row (190 to 195) and the delegation row (10 to 15). *)
Lemma delegated_payment_debits_two_rows :
  ~ (forall (now estimatedGas : Z) (address nonce signature abi : string)
            (channelId : Z) (signerAddress : string) (walletNonce : Z)
            (hash : string) (db db' : DB) (payer : Quota.row)
            (t : Transaction.row),
        ensureRemainingQuota now estimatedGas address db = (db, Ok payer) ->
        @createTransaction Sample.collaborators now estimatedGas payer address
          nonce signature abi channelId signerAddress walletNonce hash db
        = (db', Ok t) ->
        rows_debited db db' = 1%nat).
Proof.
  intros Hsingle.
  specialize (Hsingle 0 5 "0xUP" "1" "0xSignature" "0xAbi" 0 "0xSigner" 9
                      "0xHash" Sample.delegated).
  specialize (Hsingle _ _ _ eq_refl eq_refl).
  vm_compute in Hsingle. discriminate Hsingle.
Qed.

(** ** A stored authorization stays stored

    Neither scope of a relay request removes or rewrites a transaction
    row, so the rejection of a replay does not depend on what ran between
    the two calls. *)

Lemma tx_rollback {A} (m : M A) (db : DB) (e : error) :
  snd (tx m db) = Err e -> tables (fst (tx m db)) = tables db.
Proof.
  unfold tx. destruct (m db) as [db' [a|e']]; cbn; [discriminate|].
  intros _. reflexivity.
Qed.

Lemma ensureRemainingQuota_keeps_transactions (now estimatedGas : Z)
      (address : string) (db : DB) :
  transactions (tables (fst (ensureRemainingQuota now estimatedGas address db)))
  = transactions (tables db).
Proof.
  unfold ensureRemainingQuota, SQL.insert_profile, SQL.insert_quota.
  unfold_db.
  destruct (SQL.quotas_of address db) as [|own [|own' more]];
    cbn [oneOrNone]; [| |reflexivity].
  - destruct (SQL.profiles_of address db) as [|p [|p' more]];
      cbn [oneOrNone]; reflexivity.
  - destruct (_ <=? _); [reflexivity|].
    destruct (List.length _ =? 0)%nat; [reflexivity|].
    pose proof (forApprovedQuotas_reads estimatedGas
                  (SQL.approved_quotas_of address db) (Some own) db) as Hreads.
    destruct (forApprovedQuotas _ _ _ db) as [db1 [[q1|]|e]];
      cbn in Hreads; subst db1; try reflexivity.
    destruct (_ >? _); reflexivity.
Qed.

Lemma createTransaction_keeps_authorizations `{Collaborators}
      (now estimatedGas : Z) (quota : Quota.row)
      (address nonce signature abi : string) (channelId : Z)
      (signerAddress : string) (walletNonce : Z) (hash : string) (db : DB)
      (stored : Transaction.row -> bool) :
  existsb stored (transactions (tables db)) = true ->
  existsb stored
    (transactions
       (tables (fst (createTransaction now estimatedGas quota address nonce
                       signature abi channelId signerAddress walletNonce hash
                       db))))
  = true.
Proof.
  intros Hstored.
  destruct (createTransaction now estimatedGas quota address nonce signature
              abi channelId signerAddress walletNonce hash db)
    as [db' [t|e]] eqn:Hrun.
  - apply createTransaction_ok_inv in Hrun. cbv zeta in Hrun.
    destruct Hrun as (_ & _ & _ & ->). cbn [fst tables transactions].
    rewrite existsb_app, Hstored. reflexivity.
  - unfold createTransaction in Hrun.
    match type of Hrun with tx ?m db = _ =>
      pose proof (tx_rollback m db e) as Hback; rewrite Hrun in Hback end.
    cbn [fst snd] in *. rewrite (Hback eq_refl). exact Hstored.
Qed.

Lemma step_keeps_authorizations `{Collaborators} (now : Z)
      (reqs : list Race.request) (s : Race.state) (e : Race.event)
      (stored : Transaction.row -> bool) :
  existsb stored (transactions (tables (Race.db s))) = true ->
  existsb stored (transactions (tables (Race.db (Race.step now reqs s e))))
  = true.
Proof.
  intros Hstored. destruct e as [i|i]; cbn [Race.step].
  - destruct (nth_error reqs i) as [r|]; [|exact Hstored].
    destruct (nth_error (Race.requests s) i) as [[| | |]|]; try exact Hstored.
    pose proof (ensureRemainingQuota_keeps_transactions now
                  (Race.estimatedGas r) (Race.address r) (Race.db s)) as Hkeep.
    destruct (ensureRemainingQuota _ _ _ (Race.db s)) as [db' [payer|err]];
      cbn [fst Race.db] in *; rewrite Hkeep; exact Hstored.
  - destruct (nth_error reqs i) as [r|]; [|exact Hstored].
    destruct (nth_error (Race.requests s) i) as [[|payer| |]|];
      try exact Hstored.
    pose proof (createTransaction_keeps_authorizations now
                  (Race.estimatedGas r) payer (Race.address r) (Race.nonce r)
                  (Race.signature r) (Race.abi r) (Race.channelId r)
                  (Race.signerAddress r) (Race.walletNonce r) (Race.hash r)
                  (Race.db s) stored Hstored) as Hkeep.
    destruct (createTransaction _ _ _ _ _ _ _ _ _ _ _ (Race.db s))
      as [db' [t|err]]; cbn [fst Race.db] in *; exact Hkeep.
Qed.

Lemma schedule_keeps_authorizations `{Collaborators} (now : Z)
      (reqs : list Race.request) (schedule : list Race.event)
      (stored : Transaction.row -> bool) :
  forall s : Race.state,
    existsb stored (transactions (tables (Race.db s))) = true ->
    existsb stored
      (transactions
         (tables (Race.db (fold_left (Race.step now reqs) schedule s))))
    = true.
Proof.
  induction schedule as [|e schedule IH]; intros s Hstored; [exact Hstored|].
  cbn [fold_left]. apply IH. apply step_keeps_authorizations. exact Hstored.
Qed.

(** Whatever other requests run after a successful [createTransaction],
    in whatever order, a later call with the same authorization triple
    fails and leaves the tables as it found them: with the unique
    violation when at most one delegation row matches its profile and
    payer, with the pg-promise rejection otherwise. *)
Lemma replay_rejected_after_any_schedule `{Collaborators}
      (now : Z) (reqs : list Race.request) (schedule : list Race.event)
      (s : Race.state)
      (now' estimatedGas : Z) (quota : Quota.row)
      (address nonce signature abi : string) (channelId : Z)
      (signerAddress : string) (walletNonce : Z) (hash : string) :
  existsb (SQL.same_authorization nonce channelId signerAddress)
          (transactions (tables (Race.db s))) = true ->
  let later := Race.db (fold_left (Race.step now reqs) schedule s) in
  exists db2,
    createTransaction now' estimatedGas quota address nonce signature abi
                      channelId signerAddress walletNonce hash later
    = (db2, Err (if (List.length
                       (filter (SQL.delegation_matches address
                                  (Quota.universal_profile_address quota))
                               (approved_quotas (tables later))) <=? 1)%nat
                 then UniqueViolation else QueryResultError))
    /\ tables db2 = tables later.
Proof.
  intros Hstored later.
  apply createTransaction_stored_rejected.
  apply schedule_keeps_authorizations. exact Hstored.
Qed.

(** ** Relayer nonce *)

(** With no relay in flight the nonce is the wallet's transaction count. *)
Lemma walletNonce_none_pending `{Collaborators} (db : DB) :
  Earlier.pending_of wallet_address db = [] ->
  Earlier.walletNonce db = (db, Ok (Some getTransactionCount)).
Proof.
  intros Hnone. unfold Earlier.walletNonce, Earlier.latest_pending.
  unfold_db. rewrite Hnone. reflexivity.
Qed.

(** With one relay in flight the nonce is its relayer nonce plus one. *)
Lemma walletNonce_one_pending `{Collaborators} (db : DB)
      (t : Transaction.row) :
  Earlier.pending_of wallet_address db = [t] ->
  Earlier.walletNonce db
  = (db, Ok (option_map (fun n => n + 1)
                        (Number_ (Transaction.relayer_nonce t)))).
Proof.
  intros Hone. unfold Earlier.walletNonce, Earlier.latest_pending.
  unfold_db. rewrite Hone. reflexivity.
Qed.

(** C3. Two relays in flight with the relayer nonces 9 and 10, stored as
    the texts "9" and "10" in the VARCHAR column: ORDER BY relayer_nonce
    DESC puts "9" first, so the next nonce is 10, not the maximum 10 plus
    one. *)
Theorem walletNonce_orders_text :
  map Transaction.relayer_nonce
      (Earlier.pending_of "0xRelayer" Sample.in_flight) = ["9"; "10"]
  /\ Earlier.max_pending_nonce "0xRelayer" Sample.in_flight = Some 10
  /\ @Earlier.walletNonce Sample.collaborators Sample.in_flight
     = (Sample.in_flight, Ok (Some 10)).
Proof. vm_compute. repeat split; reflexivity. Qed.

(** Where the texts have the same number of digits the order is the
    numeric one: relays in flight with the nonces 10 and 11 are followed
    by 12. *)
Example walletNonce_same_width :
  @Earlier.walletNonce Sample.collaborators
     (mkDB (mkTables [] [] []
                     [Sample.pending 1 (String_ 10);
                      Sample.pending 2 (String_ 11)])
           1 3)
  = (mkDB (mkTables [] [] []
                    [Sample.pending 1 (String_ 10);
                     Sample.pending 2 (String_ 11)])
          1 3,
     Ok (Some 12)).
Proof. vm_compute. reflexivity. Qed.

(** The state arises from the handler itself: from a wallet transaction
    count of 9, three relays in a row are given the relayer nonces 9, 10
    and again 10. *)
Example three_relays_reuse_nonce :
  let run body '(db, txQueue, _) :=
    @execute Sample.collaborators Sample.getWalletNonce body 0 db txQueue in
  let '(db, _, _) :=
    run (Sample.relay "3")
        (run (Sample.relay "2")
             (run (Sample.relay "1") (Sample.empty, [], Next ""))) in
  map Transaction.relayer_nonce (transactions (tables db)) = ["9"; "10"; "10"].
Proof. vm_compute. reflexivity. Qed.

(** ** The quota status aggregate *)

(** One turn of the [forEach], as an addition to both counters. *)
Lemma countApproved_adds (parents : list Quota.row) (totalQuota gasUsed : Z)
      (a : ApprovedQuota.row) :
  countApproved parents (totalQuota, gasUsed) a
  = (totalQuota + (if counted parents a then counted_total parents a else 0),
     gasUsed + (if counted parents a then ApprovedQuota.gas_used a else 0)).
Proof.
  unfold countApproved, counted, counted_total, Spec.headroom.
  destruct (parentOf parents a) as [p|]; [|f_equal; lia].
  destruct (Quota.gas_used p >=? Quota.monthly_gas p) eqn:Hfull;
    rewrite Z.geb_leb in Hfull.
  - apply Z.leb_le in Hfull.
    destruct (Quota.gas_used p <? Quota.monthly_gas p) eqn:Hroom;
      [apply Z.ltb_lt in Hroom; lia|].
    f_equal; lia.
  - apply Z.leb_gt in Hfull.
    destruct (Quota.gas_used p <? Quota.monthly_gas p) eqn:Hroom;
      [|apply Z.ltb_ge in Hroom; lia].
    destruct (_ >=? _); reflexivity.
Qed.

Lemma sum_cons (x : Z) (l : list Z) : Spec.sum (x :: l) = x + Spec.sum l.
Proof. reflexivity. Qed.

(** The [forEach] accumulation is the sum of what each delegation adds. *)
Lemma fold_countApproved (parents : list Quota.row)
      (approvedQuotas : list ApprovedQuota.row) :
  forall totalQuota gasUsed : Z,
    fold_left (countApproved parents) approvedQuotas (totalQuota, gasUsed)
    = (totalQuota
       + Spec.sum (map (fun a => if counted parents a
                                 then counted_total parents a else 0)
                       approvedQuotas),
       gasUsed
       + Spec.sum (map (fun a => if counted parents a
                                 then ApprovedQuota.gas_used a else 0)
                       approvedQuotas)).
Proof.
  induction approvedQuotas as [|a rest IH]; intros totalQuota gasUsed.
  - cbn. f_equal; lia.
  - cbn [fold_left]. rewrite countApproved_adds, IH.
    cbn [map]. rewrite !sum_cons. f_equal; lia.
Qed.






(** A second difference, in total: a delegation (allowance 100, used 60)
    whose approver has 50 left adds its whole allowance 100, since 50
    covers the remaining 40; the worded lesser-of is 50. *)
Example partly_used_delegation_total :
  let own := Quota.mk 1 "0xUP" 650000 0 in
  handler_total own "0xUP" Sample.partly_used = 650100
  /\ Spec.total own "0xUP" Sample.partly_used = 650050
  /\ @quota Sample.collaborators
            (QuotaBody.mk (Some "0xUP") (Some 1) (Some "0xSignature")) 1
            Sample.partly_used
     = (Sample.partly_used, QuotaStatus 60 "gas" 650100 1).
Proof. vm_compute. repeat split; reflexivity. Qed.

(** Where nothing of a delegation has been used and its approver has
    headroom, the handler adds the lesser of the delegation's allowance and
    the approver's headroom. *)
Lemma counted_total_unused (stored : list Quota.row) (a : ApprovedQuota.row)
      (p : Quota.row) :
  parentOf stored a = Some p ->
  ApprovedQuota.gas_used a = 0 ->
  counted_total stored a = Z.min (ApprovedQuota.monthly_gas a) (Spec.headroom p).
Proof.
  intros Hp Hunused. unfold counted_total. rewrite Hp, Hunused.
  rewrite Z.geb_leb.
  destruct (_ <=? _) eqn:Hle;
    [apply Z.leb_le in Hle | apply Z.leb_gt in Hle]; lia.
Qed.

(** ** Allowances under racing and under sequential requests *)

(** Two requests of 60 gas each against an allowance of 100. Both resolve
    before either debits: both see the headroom, both commit, and the
    quota row ends with 120 used of 100. *)
Lemma racing_requests_overshoot :
  let s := @Race.run Sample.collaborators 0 Sample.racers
             [Race.Resolve 0; Race.Resolve 1; Race.Create 0; Race.Create 1]
             Sample.single in
  (exists t0 t1, Race.requests s = [Race.Done t0; Race.Done t1])
  /\ quotas (tables (Race.db s)) = [Quota.mk 1 "0xUP" 100 120]
  /\ ~ within_allowance (Race.db s).
Proof.
  cbv zeta. split; [|split].
  - vm_compute. eexists. eexists. reflexivity.
  - vm_compute. reflexivity.
  - intros Hwithin. unfold within_allowance in Hwithin.
    assert (Hrows : quotas (tables (Race.db
              (@Race.run Sample.collaborators 0 Sample.racers
                 [Race.Resolve 0; Race.Resolve 1; Race.Create 0; Race.Create 1]
                 Sample.single)))
            = [Quota.mk 1 "0xUP" 100 120]) by (vm_compute; reflexivity).
    rewrite Hrows in Hwithin.
    inversion Hwithin as [|? ? Hrow _]; subst.
    cbn in Hrow. lia.
Qed.

(** The same two requests one after the other: the second is refused. *)
Example sequential_requests_refused :
  let s := @Race.run Sample.collaborators 0 Sample.racers
             [Race.Resolve 0; Race.Create 0; Race.Resolve 1; Race.Create 1]
             Sample.single in
  (exists t0, Race.requests s
              = [Race.Done t0; Race.Failed (NoGasError "gas limit reached")])
  /\ quotas (tables (Race.db s)) = [Quota.mk 1 "0xUP" 100 60].
Proof. cbv zeta. split; vm_compute; [eexists|]; reflexivity. Qed.

Lemma quota_by_id (rows : list Quota.row) (p q : Quota.row) :
  NoDup (map Quota.id rows) ->
  In p rows -> In q rows -> Quota.id q = Quota.id p -> q = p.
Proof.
  induction rows as [|r rows IH]; intros Hnodup Hp Hq Hid; [destruct Hp|].
  cbn [map] in Hnodup. inversion Hnodup as [|? ? Hfresh Hrest]; subst.
  destruct Hp as [->|Hp], Hq as [->|Hq].
  - reflexivity.
  - exfalso. apply Hfresh. rewrite <- Hid. apply in_map. exact Hq.
  - exfalso. apply Hfresh. rewrite Hid. apply in_map. exact Hp.
  - apply IH; assumption.
Qed.

(** Without a quota row, a successful resolution appended the created row
    to [quotas] and drew its id from the sequence. *)
Lemma ensureRemainingQuota_created_inv (now estimatedGas : Z)
      (address : string) (db db1 : DB) (payer : Quota.row) :
  SQL.quotas_of address db = [] ->
  ensureRemainingQuota now estimatedGas address db = (db1, Ok payer) ->
  payer = Quota.mk (quotas_id_seq db) address 650000 0
  /\ quotas (tables db1) = (quotas (tables db) ++ [payer])%list
  /\ quotas_id_seq db1 = quotas_id_seq db + 1.
Proof.
  intros Hnone. unfold ensureRemainingQuota, SQL.insert_profile,
    SQL.insert_quota. unfold_db.
  rewrite Hnone. cbn [oneOrNone].
  destruct (SQL.profiles_of address db) as [|p [|p' more]];
    cbn [oneOrNone one]; try discriminate;
    intros [= <- <-]; cbn; auto.
Qed.

(** What a successful resolution guarantees before the debit. *)
Lemma ensureRemainingQuota_post (now estimatedGas : Z) (address : string)
      (db db1 : DB) (payer : Quota.row) :
  within_allowance db ->
  quota_ids_ok db ->
  SQL.quotas_of address db <> [] \/ estimatedGas <= 650000 ->
  ensureRemainingQuota now estimatedGas address db = (db1, Ok payer) ->
  within_allowance db1
  /\ quota_ids_ok db1
  /\ In payer (quotas (tables db1))
  /\ Quota.gas_used payer + estimatedGas <= Quota.monthly_gas payer.
Proof.
  intros Hwithin [Hnodup Hbelow] Hcase Hresolve.
  destruct (SQL.quotas_of address db) as [|own [|own' more]] eqn:Hrows.
  - destruct Hcase as [Hcase|Hgas]; [contradiction|].
    destruct (ensureRemainingQuota_created_inv _ _ _ _ _ _ Hrows Hresolve)
      as (Hpayer & Hquotas & Hseq).
    unfold within_allowance, quota_ids_ok. rewrite Hquotas, Hseq.
    repeat split.
    + apply Forall_app. split; [exact Hwithin|].
      constructor; [|constructor]. rewrite Hpayer. cbn. lia.
    + rewrite map_app. cbn [map].
      apply NoDup_app; [exact Hnodup | repeat constructor; intros [] | ].
      intros i Hi [<-|[]].
      apply in_map_iff in Hi. destruct Hi as (q & Hid & Hq).
      rewrite Forall_forall in Hbelow. specialize (Hbelow q Hq).
      rewrite Hpayer in Hid. cbn in Hid. lia.
    + apply Forall_app. split.
      * eapply Forall_impl; [|exact Hbelow]. cbn. intros q Hq. lia.
      * constructor; [|constructor]. rewrite Hpayer. cbn. lia.
    + apply in_or_app. right. left. reflexivity.
    + rewrite Hpayer. cbn. lia.
  - destruct (ensureRemainingQuota_existing _ _ _ _ _ _ _ Hrows Hresolve)
      as (-> & Hin & Hroom).
    repeat split; assumption.
  - unfold ensureRemainingQuota in Hresolve. unfold_db.
    rewrite Hrows in Hresolve. discriminate Hresolve.
Qed.

(** C6. The reads of the resolver run in a [db.task] and the debit and the
    insert in a later [db.tx], with no transaction around both. When one
    request's resolution and debit run back to back on a store whose quota
    rows are within their allowances (ids unique, the profile's quota row
    stored or the estimate at most the default allowance 650000), every
    quota row is still within its allowance afterwards. *)
Theorem resolve_then_debit_within_allowance `{Collaborators}
        (now estimatedGas : Z) (address nonce signature abi : string)
        (channelId : Z) (signerAddress : string) (walletNonce : Z)
        (hash : string) (db db1 db2 : DB) (payer : Quota.row)
        (t : Transaction.row) :
  within_allowance db ->
  quota_ids_ok db ->
  SQL.quotas_of address db <> [] \/ estimatedGas <= 650000 ->
  ensureRemainingQuota now estimatedGas address db = (db1, Ok payer) ->
  createTransaction now estimatedGas payer address nonce signature abi
                    channelId signerAddress walletNonce hash db1
  = (db2, Ok t) ->
  within_allowance db2 /\ quota_ids_ok db2.
Proof.
  intros Hwithin Hids Hcase Hresolve Hcreate.
  destruct (ensureRemainingQuota_post _ _ _ _ _ _ Hwithin Hids Hcase Hresolve)
    as (Hwithin1 & [Hnodup Hbelow] & Hpayer & Hroom).
  apply createTransaction_ok_inv in Hcreate. cbv zeta in Hcreate.
  destruct Hcreate as (_ & _ & _ & ->).
  unfold within_allowance, quota_ids_ok.
  cbn [tables quotas quotas_id_seq].
  assert (Hsame_ids :
            map Quota.id
                (map (fun q => if Quota.id q =? Quota.id payer
                               then Quota.debit estimatedGas q else q)
                     (quotas (tables db1)))
            = map Quota.id (quotas (tables db1))).
  { rewrite map_map. apply map_ext. intros q.
    destruct (Quota.id q =? Quota.id payer); reflexivity. }
  repeat split.
  - apply Forall_forall. intros q' Hq'.
    apply in_map_iff in Hq'. destruct Hq' as (q & <- & Hq).
    destruct (Quota.id q =? Quota.id payer) eqn:Hid.
    + apply Z.eqb_eq in Hid.
      rewrite (quota_by_id _ payer q Hnodup Hpayer Hq Hid). cbn. exact Hroom.
    + unfold within_allowance in Hwithin1. rewrite Forall_forall in Hwithin1.
      apply Hwithin1. exact Hq.
  - rewrite Hsame_ids. exact Hnodup.
  - apply Forall_forall. intros q' Hq'.
    apply in_map_iff in Hq'. destruct Hq' as (q & <- & Hq).
    rewrite Forall_forall in Hbelow. specialize (Hbelow q Hq).
    destruct (Quota.id q =? Quota.id payer); cbn; exact Hbelow.
Qed.

Lemma resolve_then_debit_within_allowance_witness :
  within_allowance Sample.after_first_relay
  /\ quota_ids_ok Sample.after_first_relay.
Proof.
  apply (@resolve_then_debit_within_allowance Sample.collaborators
           0 5 "0xUP" "1" "0xSignature" "0xAbi" 0 "0xSigner" 9 "0xHash"
           Sample.single Sample.single Sample.after_first_relay
           (Quota.mk 1 "0xUP" 100 0) Sample.first_relay).
  - unfold within_allowance. cbn. repeat constructor; cbn; lia.
  - unfold quota_ids_ok. cbn. repeat split; repeat constructor; cbn; lia.
  - left. cbn. discriminate.
  - reflexivity.
  - vm_compute. reflexivity.
Defined.

(** * Further properties of the handlers *)

(** ** Listing *)

Lemma insert_desc_permutation (r : Transaction.row)
      (sorted : list Transaction.row) :
  Permutation (Listing.insert_desc r sorted) (r :: sorted).
Proof.
  induction sorted as [|x rest IH]; cbn [Listing.insert_desc].
  - apply Permutation_refl.
  - destruct (_ <=? _); [apply Permutation_refl|].
    eapply Permutation_trans; [apply perm_skip; exact IH | apply perm_swap].
Qed.

Lemma order_by_created_at_desc_permutation (rows : list Transaction.row) :
  Permutation (Listing.order_by_created_at_desc rows) rows.
Proof.
  induction rows as [|r rows IH]; [apply Permutation_refl|].
  cbn [Listing.order_by_created_at_desc fold_right].
  eapply Permutation_trans; [apply insert_desc_permutation|].
  apply perm_skip. exact IH.
Qed.

Lemma insert_desc_sorted (r : Transaction.row)
      (sorted : list Transaction.row) :
  StronglySorted Listing.newer_first sorted ->
  StronglySorted Listing.newer_first (Listing.insert_desc r sorted).
Proof.
  induction sorted as [|x rest IH]; intros Hsorted; cbn [Listing.insert_desc].
  - repeat constructor.
  - inversion Hsorted as [|? ? Hrest Hx]; subst.
    destruct (Transaction.created_at x <=? Transaction.created_at r) eqn:Hle.
    + apply Z.leb_le in Hle. constructor; [exact Hsorted|].
      constructor; [unfold Listing.newer_first; lia|].
      eapply Forall_impl; [|exact Hx].
      unfold Listing.newer_first. intros y Hy. lia.
    + apply Z.leb_gt in Hle. constructor; [apply IH; exact Hrest|].
      eapply Permutation_Forall;
        [apply Permutation_sym; apply insert_desc_permutation|].
      constructor; [unfold Listing.newer_first; lia | exact Hx].
Qed.

Lemma order_by_created_at_desc_sorted (rows : list Transaction.row) :
  StronglySorted Listing.newer_first (Listing.order_by_created_at_desc rows).
Proof.
  induction rows as [|r rows IH]; [constructor|].
  cbn [Listing.order_by_created_at_desc fold_right].
  apply insert_desc_sorted. exact IH.
Qed.

(** X1. The listing answers with exactly the stored transactions of the
    profile, each once, none of another profile, every row placed before
    all rows created earlier; it leaves the store as it was and never
    answers with the failure. *)
Theorem list_newest_first (upAddress : string) (db : DB) :
  exists rows,
    list_ upAddress db = (db, Listing.Transactions rows)
    /\ Permutation rows
         (filter (fun t => (Transaction.universal_profile_address t
                            =? upAddress)%string)
                 (transactions (tables db)))
    /\ StronglySorted Listing.newer_first rows.
Proof.
  exists (Listing.transactions_of upAddress db).
  split; [reflexivity|]. split.
  - apply order_by_created_at_desc_permutation.
  - apply order_by_created_at_desc_sorted.
Qed.

Lemma order_by_created_at_desc_newest (t : Transaction.row)
      (rows : list Transaction.row) :
  Forall (fun x => Transaction.created_at x < Transaction.created_at t) rows ->
  Listing.order_by_created_at_desc (rows ++ [t])
  = t :: Listing.order_by_created_at_desc rows.
Proof.
  induction rows as [|x rows IH]; intros Holder; [reflexivity|].
  inversion Holder as [|? ? Hx Hrest]; subst.
  cbn [app Listing.order_by_created_at_desc fold_right].
  change (fold_right Listing.insert_desc [] (rows ++ [t]))
    with (Listing.order_by_created_at_desc (rows ++ [t])).
  rewrite (IH Hrest). cbn [Listing.insert_desc].
  destruct (Transaction.created_at t <=? Transaction.created_at x) eqn:Hle;
    [apply Z.leb_le in Hle; lia | reflexivity].
Qed.

(** X2. After a successful [createTransaction] the listing of the profile
    holds the new row beside the rows it held before, and the listing of
    every other profile is what it was. *)
Theorem created_transaction_is_listed `{Collaborators}
        (now estimatedGas : Z) (quota : Quota.row)
        (address nonce signature abi : string) (channelId : Z)
        (signerAddress : string) (walletNonce : Z) (hash : string)
        (db db' : DB) (t : Transaction.row) :
  createTransaction now estimatedGas quota address nonce signature abi
                    channelId signerAddress walletNonce hash db = (db', Ok t) ->
  Permutation (Listing.transactions_of address db')
              (t :: Listing.transactions_of address db)
  /\ forall other : string,
      other <> address ->
      Listing.transactions_of other db' = Listing.transactions_of other db.
Proof.
  intros Hrun. apply createTransaction_ok_inv in Hrun. cbv zeta in Hrun.
  destruct Hrun as (_ & _ & Ht & ->).
  unfold Listing.transactions_of. cbn [tables transactions].
  assert (Haddress : Transaction.universal_profile_address t = address)
    by (rewrite Ht; reflexivity).
  split.
  - rewrite filter_app. cbn [filter].
    rewrite Haddress, String.eqb_refl.
    eapply Permutation_trans;
      [apply order_by_created_at_desc_permutation|].
    eapply Permutation_trans;
      [apply Permutation_sym; apply Permutation_cons_append|].
    apply perm_skip. apply Permutation_sym.
    apply order_by_created_at_desc_permutation.
  - intros other Hother. rewrite filter_app. cbn [filter].
    rewrite Haddress.
    destruct (address =? other)%string eqn:Heq;
      [apply String.eqb_eq in Heq; congruence|].
    rewrite app_nil_r. reflexivity.
Qed.

Lemma created_transaction_is_listed_witness :
  Permutation (Listing.transactions_of "0xUP" Sample.after_first_relay)
              (Sample.first_relay :: Listing.transactions_of "0xUP" Sample.single)
  /\ forall other : string,
      other <> "0xUP" ->
      Listing.transactions_of other Sample.after_first_relay
      = Listing.transactions_of other Sample.single.
Proof.
  apply (@created_transaction_is_listed Sample.collaborators
           0 5 (Quota.mk 1 "0xUP" 100 0) "0xUP" "1" "0xSignature" "0xAbi" 0
           "0xSigner" 9 "0xHash" Sample.single Sample.after_first_relay
           Sample.first_relay).
  vm_compute. reflexivity.
Defined.

(** X3. A transaction created at a time later than that of every stored
    transaction of the profile comes first in the profile's listing, the
    earlier rows following in their previous order. *)
Theorem created_transaction_heads_listing `{Collaborators}
        (now estimatedGas : Z) (quota : Quota.row)
        (address nonce signature abi : string) (channelId : Z)
        (signerAddress : string) (walletNonce : Z) (hash : string)
        (db db' : DB) (t : Transaction.row) :
  Forall (fun x => Transaction.universal_profile_address x = address ->
                   Transaction.created_at x < now)
         (transactions (tables db)) ->
  createTransaction now estimatedGas quota address nonce signature abi
                    channelId signerAddress walletNonce hash db = (db', Ok t) ->
  Listing.transactions_of address db'
  = t :: Listing.transactions_of address db.
Proof.
  intros Holder Hrun. apply createTransaction_ok_inv in Hrun.
  cbv zeta in Hrun. destruct Hrun as (_ & _ & Ht & ->).
  unfold Listing.transactions_of. cbn [tables transactions].
  rewrite filter_app. cbn [filter].
  assert (Haddress : Transaction.universal_profile_address t = address)
    by (rewrite Ht; reflexivity).
  rewrite Haddress, String.eqb_refl.
  apply order_by_created_at_desc_newest.
  apply Forall_forall. intros x Hx. apply filter_In in Hx.
  destruct Hx as [Hx Hmine]. apply String.eqb_eq in Hmine.
  rewrite Forall_forall in Holder. specialize (Holder x Hx Hmine).
  rewrite Ht. cbn. exact Holder.
Qed.

Lemma created_transaction_heads_listing_witness :
  Listing.transactions_of "0xUP"
    (fst (@createTransaction Sample.collaborators 7 8
            (Quota.mk 1 "0xUP" 100 5) "0xUP" "2" "0xSignature" "0xAbi" 0
            "0xSigner" 10 "0xOtherHash" Sample.after_first_relay))
  = Transaction.mk 2 "0xUP" "2" "0xSignature" "0xAbi" 0 "PENDING" "0xSigner"
                   "0xOtherHash" "10" "0xRelayer" 8 0 None 7 7
    :: Listing.transactions_of "0xUP" Sample.after_first_relay.
Proof.
  apply (@created_transaction_heads_listing Sample.collaborators
           7 8 (Quota.mk 1 "0xUP" 100 5) "0xUP" "2" "0xSignature" "0xAbi" 0
           "0xSigner" 10 "0xOtherHash" Sample.after_first_relay).
  - repeat constructor.
  - vm_compute. reflexivity.
Defined.

(** ** What the resolver writes and whom it charges *)

(** Every run of the resolver either leaves the store as it is or, for a
    profile without quota row, appends the created row and, when absent,
    the profile row. *)
Lemma ensureRemainingQuota_frame (now estimatedGas : Z) (address : string)
      (db db' : DB) (outcome : result Quota.row) :
  ensureRemainingQuota now estimatedGas address db = (db', outcome) ->
  db' = db
  \/ (SQL.quotas_of address db = []
      /\ outcome = Ok (created_quota db address)
      /\ db' = mkDB (mkTables
                       (universal_profiles (tables db)
                          ++ match SQL.profiles_of address db with
                             | [] => [UniversalProfile.mk address now]
                             | _ => []
                             end)
                       (quotas (tables db) ++ [created_quota db address])
                       (approved_quotas (tables db))
                       (transactions (tables db)))
                    (quotas_id_seq db + 1) (transactions_id_seq db)).
Proof.
  unfold ensureRemainingQuota, SQL.insert_profile, SQL.insert_quota,
    created_quota.
  unfold_db.
  destruct (SQL.quotas_of address db) as [|own [|own' more]] eqn:Hrows;
    cbn [oneOrNone].
  - destruct (SQL.profiles_of address db) as [|p [|p' more]];
      cbn [oneOrNone one tables quotas universal_profiles approved_quotas
           transactions quotas_id_seq transactions_id_seq with_tables].
    + intros [= <- <-]. right. auto.
    + intros [= <- <-]. right. rewrite app_nil_r.
      destruct db as [[ups qs aqs txs] qseq tseq]. cbn. auto.
    + intros [= <- <-]. left. reflexivity.
  - destruct (_ <=? _); [intros [= <- <-]; left; reflexivity|].
    destruct (List.length _ =? 0)%nat; [intros [= <- <-]; left; reflexivity|].
    pose proof (forApprovedQuotas_reads estimatedGas
                  (SQL.approved_quotas_of address db) (Some own) db) as Hreads.
    destruct (forApprovedQuotas _ _ _ db) as [db1 [[q1|]|e]];
      cbn in Hreads; subst db1; try (intros [= <- <-]; left; reflexivity).
    destruct (_ >? _); intros [= <- <-]; left; reflexivity.
  - intros [= <- <-]. left. reflexivity.
Qed.



Lemma quotas_of_app (address : string) (db : DB) (rows : list Quota.row)
      (ups : list UniversalProfile.row) (qseq tseq : Z) :
  SQL.quotas_of address
    (mkDB (mkTables ups (quotas (tables db) ++ rows)
                    (approved_quotas (tables db)) (transactions (tables db)))
          qseq tseq)
  = (SQL.quotas_of address db
       ++ filter (fun q => (Quota.universal_profile_address q =? address)%string)
                 rows)%list.
Proof. unfold SQL.quotas_of. cbn [tables quotas]. apply filter_app. Qed.

(** X5. Once the resolver has succeeded for a profile, a later resolution
    for the same profile, with any estimate, writes nothing: the quota row
    is created at most once. *)
Theorem ensureRemainingQuota_creates_once (now estimatedGas : Z)
        (address : string) (db db1 : DB) (payer : Quota.row)
        (now' estimatedGas' : Z) :
  ensureRemainingQuota now estimatedGas address db = (db1, Ok payer) ->
  fst (ensureRemainingQuota now' estimatedGas' address db1) = db1
  /\ SQL.quotas_of address db1 <> [].
Proof.
  intros Hrun.
  assert (Hstored : SQL.quotas_of address db1 <> []).
  { pose proof Hrun as Hframe. apply ensureRemainingQuota_frame in Hframe.
    destruct Hframe as [->|(Hnone & _ & ->)].
    - intros Hnone. unfold ensureRemainingQuota in Hrun. unfold_db.
      unfold SQL.insert_profile, SQL.insert_quota in Hrun.
      rewrite Hnone in Hrun. cbn [oneOrNone] in Hrun.
      destruct (SQL.profiles_of address db) as [|p [|p' more]];
        cbn [oneOrNone one] in Hrun; try discriminate Hrun;
        injection Hrun as Hdb _;
        apply (f_equal quotas_id_seq) in Hdb; cbn in Hdb; lia.
    - rewrite quotas_of_app, Hnone. unfold created_quota. cbn [filter app].
      cbn [Quota.universal_profile_address]. rewrite String.eqb_refl.
      discriminate. }
  split; [|exact Hstored].
  destruct (ensureRemainingQuota now' estimatedGas' address db1)
    as [db2 outcome] eqn:Hagain.
  apply ensureRemainingQuota_frame in Hagain.
  destruct Hagain as [->|(Hnone & _)]; [reflexivity | contradiction].
Qed.

Lemma ensureRemainingQuota_creates_once_witness :
  fst (ensureRemainingQuota 3 700000 "0xUP"
         (fst (ensureRemainingQuota 0 5 "0xUP" Sample.empty)))
  = fst (ensureRemainingQuota 0 5 "0xUP" Sample.empty)
  /\ SQL.quotas_of "0xUP" (fst (ensureRemainingQuota 0 5 "0xUP" Sample.empty))
     <> [].
Proof.
  apply (ensureRemainingQuota_creates_once 0 5 "0xUP" Sample.empty
           (fst (ensureRemainingQuota 0 5 "0xUP" Sample.empty))
           (Quota.mk 1 "0xUP" 650000 0) 3 700000).
  reflexivity.
Defined.

(** The scan moves over passed-over delegations, keeping in [quota] a row
    without headroom. *)
Lemma forApprovedQuotas_passed_over (estimatedGas : Z) (db : DB)
      (passed rest : list ApprovedQuota.row) :
  Forall (Resolver.passed_over db estimatedGas) passed ->
  forall q0 : Quota.row,
    Resolver.has_headroom estimatedGas q0 = false ->
    exists q1 : Quota.row,
      Resolver.has_headroom estimatedGas q1 = false
      /\ forApprovedQuotas estimatedGas (passed ++ rest) (Some q0) db
         = forApprovedQuotas estimatedGas rest (Some q1) db.
Proof.
  induction passed as [|p passed IH]; intros Hpassed q0 Hq0.
  - exists q0. split; [exact Hq0 | reflexivity].
  - inversion Hpassed as [|? ? Hp Hrest]; subst.
    cbn [app forApprovedQuotas].
    change (ApprovedQuota.gas_used p + estimatedGas
            >=? ApprovedQuota.monthly_gas p)
      with (Resolver.skipped estimatedGas p).
    destruct Hp as [Hskip|[q [Hq Hroom]]].
    + rewrite Hskip. apply IH; assumption.
    + destruct (Resolver.skipped estimatedGas p); [apply IH; assumption|].
      unfold_db. rewrite Hq. cbn [oneOrNone].
      change (Quota.gas_used q + estimatedGas <=? Quota.monthly_gas q)
        with (Resolver.has_headroom estimatedGas q).
      rewrite Hroom. apply IH; assumption.
Qed.

(** X6. When the own quota lacks headroom, the resolver returns the quota
    row of the approver of the first delegation, in stored order, that is
    not skipped and whose approver has headroom, every delegation before it
    being skipped or having an approver without headroom; the store is
    left as it was. *)
Theorem ensureRemainingQuota_first_usable (now estimatedGas : Z)
        (address : string) (db : DB) (own payer : Quota.row)
        (passed : list ApprovedQuota.row) (a : ApprovedQuota.row)
        (rest : list ApprovedQuota.row) :
  SQL.quotas_of address db = [own] ->
  Quota.gas_used own + estimatedGas > Quota.monthly_gas own ->
  SQL.approved_quotas_of address db = (passed ++ a :: rest)%list ->
  Forall (Resolver.passed_over db estimatedGas) passed ->
  ApprovedQuota.gas_used a + estimatedGas < ApprovedQuota.monthly_gas a ->
  SQL.quotas_of (ApprovedQuota.approver_address a) db = [payer] ->
  Quota.gas_used payer + estimatedGas <= Quota.monthly_gas payer ->
  ensureRemainingQuota now estimatedGas address db = (db, Ok payer).
Proof.
  intros Hown Hfull Hdel Hpassed Ha Hpayer Hroom.
  assert (Hown_room : Resolver.has_headroom estimatedGas own = false)
    by (apply Z.leb_gt; lia).
  unfold ensureRemainingQuota. unfold_db. rewrite Hown. cbn [oneOrNone].
  change (Quota.gas_used own + estimatedGas <=? Quota.monthly_gas own)
    with (Resolver.has_headroom estimatedGas own).
  rewrite Hown_room, Hdel.
  destruct (List.length (passed ++ a :: rest) =? 0)%nat eqn:Hlen.
  { apply Nat.eqb_eq in Hlen. rewrite length_app in Hlen. cbn in Hlen. lia. }
  destruct (forApprovedQuotas_passed_over estimatedGas db passed (a :: rest)
              Hpassed own Hown_room) as (q1 & _ & ->).
  cbn [forApprovedQuotas].
  destruct (_ >=? _) eqn:Hskip.
  { rewrite Z.geb_leb in Hskip. apply Z.leb_le in Hskip. lia. }
  unfold_db. rewrite Hpayer. cbn [oneOrNone].
  destruct (Quota.gas_used payer + estimatedGas <=? Quota.monthly_gas payer)
    eqn:Hle; [|apply Z.leb_gt in Hle; lia].
  destruct (_ >? _) eqn:Hover; [|reflexivity].
  rewrite Z.gtb_ltb in Hover. apply Z.ltb_lt in Hover. lia.
Qed.

Lemma ensureRemainingQuota_first_usable_witness :
  ensureRemainingQuota 0 5 "0xUP" Sample.delegated
  = (Sample.delegated, Ok (Quota.mk 2 "0xApprover" 200 190)).
Proof.
  apply (ensureRemainingQuota_first_usable 0 5 "0xUP" Sample.delegated
           (Quota.mk 1 "0xUP" 100 100) (Quota.mk 2 "0xApprover" 200 190) []
           (ApprovedQuota.mk 1 "0xApprover" "0xUP" 50 10) []);
    try reflexivity.
  - constructor.
  - cbn. lia.
Defined.

(** X7. When the own quota lacks headroom and every delegation granted to
    the profile is skipped or has an approver without headroom, none
    being granted included, the resolver fails with the NoGasError
    "gas limit reached", which [execute] passes on verbatim, and the
    store is left as it was. *)
Theorem ensureRemainingQuota_gas_limit_reached (now estimatedGas : Z)
        (address : string) (db : DB) (own : Quota.row) :
  SQL.quotas_of address db = [own] ->
  Quota.gas_used own + estimatedGas > Quota.monthly_gas own ->
  Forall (Resolver.passed_over db estimatedGas)
         (SQL.approved_quotas_of address db) ->
  ensureRemainingQuota now estimatedGas address db
  = (db, Err (NoGasError "gas limit reached"))
  /\ executeFailure (NoGasError "gas limit reached") = "gas limit reached".
Proof.
  intros Hown Hfull Hpassed. split; [|reflexivity].
  assert (Hown_room : Resolver.has_headroom estimatedGas own = false)
    by (apply Z.leb_gt; lia).
  unfold ensureRemainingQuota. unfold_db. rewrite Hown. cbn [oneOrNone].
  change (Quota.gas_used own + estimatedGas <=? Quota.monthly_gas own)
    with (Resolver.has_headroom estimatedGas own).
  rewrite Hown_room.
  destruct (List.length _ =? 0)%nat; [reflexivity|].
  destruct (forApprovedQuotas_passed_over estimatedGas db
              (SQL.approved_quotas_of address db) [] Hpassed own Hown_room)
    as (q1 & Hq1 & Hscan).
  rewrite app_nil_r in Hscan. rewrite Hscan. cbn [forApprovedQuotas].
  unfold_db.
  unfold Resolver.has_headroom in Hq1. apply Z.leb_gt in Hq1.
  destruct (Quota.gas_used q1 + estimatedGas >? Quota.monthly_gas q1)
    eqn:Hover; [reflexivity|].
  rewrite Z.gtb_ltb in Hover. apply Z.ltb_ge in Hover. lia.
Qed.

Lemma ensureRemainingQuota_gas_limit_reached_witness :
  ensureRemainingQuota 0 11 "0xUP" Sample.delegated
  = (Sample.delegated, Err (NoGasError "gas limit reached"))
  /\ executeFailure (NoGasError "gas limit reached") = "gas limit reached".
Proof.
  apply (ensureRemainingQuota_gas_limit_reached 0 11 "0xUP" Sample.delegated
           (Quota.mk 1 "0xUP" 100 100)).
  - reflexivity.
  - cbn. lia.
  - constructor; [|constructor].
    right. exists (Quota.mk 2 "0xApprover" 200 190).
    split; reflexivity.
Defined.

(** The row the scan ends on is the one it started with or the single
    quota row of the approver of a delegation that was not skipped. *)
Lemma forApprovedQuotas_via (estimatedGas : Z)
      (approvedQuotas : list ApprovedQuota.row) :
  forall (quota : option Quota.row) (db db' : DB) (q : Quota.row),
    forApprovedQuotas estimatedGas approvedQuotas quota db = (db', Ok (Some q)) ->
    quota = Some q
    \/ exists a : ApprovedQuota.row,
        In a approvedQuotas
        /\ Resolver.skipped estimatedGas a = false
        /\ SQL.quotas_of (ApprovedQuota.approver_address a) db = [q].
Proof.
  induction approvedQuotas as [|a rest IH]; intros quota db db' q;
    cbn [forApprovedQuotas].
  - unfold_db. intros [= _ ->]. left. reflexivity.
  - change (ApprovedQuota.gas_used a + estimatedGas
            >=? ApprovedQuota.monthly_gas a)
      with (Resolver.skipped estimatedGas a).
    destruct (Resolver.skipped estimatedGas a) eqn:Hskip.
    + intros Hrest. apply IH in Hrest.
      destruct Hrest as [Hq|(d & Hd & Hrest)]; [left; exact Hq|].
      right. exists d. split; [right; exact Hd | exact Hrest].
    + unfold_db.
      destruct (SQL.quotas_of (ApprovedQuota.approver_address a) db)
        as [|q1 [|q2 more]] eqn:Hrows; cbn [oneOrNone]; try discriminate.
      destruct (_ <=? _).
      * intros [= _ <-]. right. exists a.
        split; [left; reflexivity | split; [exact Hskip | exact Hrows]].
      * intros Hrest. apply IH in Hrest.
        destruct Hrest as [[= <-]|(d & Hd & Hrest)].
        -- right. exists a.
           split; [left; reflexivity | split; [exact Hskip | exact Hrows]].
        -- right. exists d. split; [right; exact Hd | exact Hrest].
Qed.

Lemma quotas_of_address (address : string) (db : DB) (q : Quota.row)
      (rows : list Quota.row) :
  SQL.quotas_of address db = q :: rows ->
  Quota.universal_profile_address q = address /\ In q (quotas (tables db)).
Proof.
  intros Hrows.
  assert (Hin : In q (SQL.quotas_of address db))
    by (rewrite Hrows; left; reflexivity).
  unfold SQL.quotas_of in Hin. apply filter_In in Hin.
  destruct Hin as [Hin Heq]. apply String.eqb_eq in Heq. auto.
Qed.

(** Where the payer of a successful resolution comes from: the created
    row, the profile's stored row, or the single quota row of the approver
    of a delegation granted to the profile that was not skipped. *)
Lemma ensureRemainingQuota_payer_via (now estimatedGas : Z) (address : string)
      (db db' : DB) (payer : Quota.row) :
  ensureRemainingQuota now estimatedGas address db = (db', Ok payer) ->
  Quota.universal_profile_address payer = address
  \/ exists a : ApprovedQuota.row,
      In a (SQL.approved_quotas_of address db)
      /\ Resolver.skipped estimatedGas a = false
      /\ SQL.quotas_of (ApprovedQuota.approver_address a) db = [payer].
Proof.
  intros Hrun.
  destruct (SQL.quotas_of address db) as [|own [|own' more]] eqn:Hrows.
  - destruct (ensureRemainingQuota_created_inv _ _ _ _ _ _ Hrows Hrun)
      as (-> & _). left. reflexivity.
  - destruct (quotas_of_address _ _ _ _ Hrows) as [Hown _].
    unfold ensureRemainingQuota in Hrun. unfold_db.
    rewrite Hrows in Hrun. cbn [oneOrNone] in Hrun.
    destruct (_ <=? _); [injection Hrun as _ <-; left; exact Hown|].
    destruct (List.length _ =? 0)%nat; [discriminate Hrun|].
    destruct (forApprovedQuotas _ _ _ db) as [db1 [[q1|]|e]] eqn:Hscan;
      try discriminate Hrun.
    destruct (_ >? _); [discriminate Hrun|]. injection Hrun as _ <-.
    apply forApprovedQuotas_via in Hscan.
    destruct Hscan as [[= <-]|Hvia]; [left; exact Hown | right; exact Hvia].
  - unfold ensureRemainingQuota in Hrun. unfold_db.
    rewrite Hrows in Hrun. discriminate Hrun.
Qed.

(** X8. The quota row the resolver returns belongs to the requesting
    profile or to the approver of a delegation granted to that profile
    which has room for the estimate (used + gas < allowance); no other
    profile is ever made to pay. *)
Theorem ensureRemainingQuota_payer (now estimatedGas : Z) (address : string)
        (db db' : DB) (payer : Quota.row) :
  ensureRemainingQuota now estimatedGas address db = (db', Ok payer) ->
  Quota.universal_profile_address payer = address
  \/ exists a : ApprovedQuota.row,
      In a (approved_quotas (tables db))
      /\ ApprovedQuota.approved_address a = address
      /\ ApprovedQuota.approver_address a
         = Quota.universal_profile_address payer
      /\ ApprovedQuota.gas_used a + estimatedGas < ApprovedQuota.monthly_gas a.
Proof.
  intros Hrun. apply ensureRemainingQuota_payer_via in Hrun.
  destruct Hrun as [Hown|(a & Ha & Hskip & Hq)]; [left; exact Hown|].
  right. exists a.
  unfold SQL.approved_quotas_of in Ha. apply filter_In in Ha.
  destruct Ha as [Ha Happroved]. apply String.eqb_eq in Happroved.
  destruct (quotas_of_address _ _ _ _ Hq) as [Hpayer _].
  unfold Resolver.skipped in Hskip.
  rewrite Z.geb_leb in Hskip. apply Z.leb_gt in Hskip.
  repeat split; auto.
Qed.

Lemma ensureRemainingQuota_payer_witness :
  Quota.universal_profile_address (Quota.mk 2 "0xApprover" 200 190) = "0xUP"
  \/ exists a : ApprovedQuota.row,
      In a (approved_quotas (tables Sample.delegated))
      /\ ApprovedQuota.approved_address a = "0xUP"
      /\ ApprovedQuota.approver_address a
         = Quota.universal_profile_address (Quota.mk 2 "0xApprover" 200 190)
      /\ ApprovedQuota.gas_used a + 5 < ApprovedQuota.monthly_gas a.
Proof.
  apply (ensureRemainingQuota_payer 0 5 "0xUP" Sample.delegated
           Sample.delegated (Quota.mk 2 "0xApprover" 200 190)).
  reflexivity.
Defined.

(** ** The outcomes of [createTransaction] *)

Lemma debited_delegation_exists (estimatedGas : Z)
      (hit : ApprovedQuota.row -> bool) (h : ApprovedQuota.row)
      (rows : list ApprovedQuota.row) :
  In h rows ->
  hit h = true ->
  existsb (fun a => ApprovedQuota.id a
                    =? ApprovedQuota.id (ApprovedQuota.debit estimatedGas h))
          (map (fun a => if hit a then ApprovedQuota.debit estimatedGas a else a)
               rows)
  = true.
Proof.
  intros Hin Hhit. apply existsb_exists.
  exists (ApprovedQuota.debit estimatedGas h). split.
  - apply in_map_iff. exists h. rewrite Hhit. auto.
  - apply Z.eqb_refl.
Qed.

(** The whole of [createTransaction], by cases: too many delegation rows
    for [oneOrNone], a stored authorization, a missing profile row, or the
    commit. *)
Lemma createTransaction_outcome `{Collaborators}
      (now estimatedGas : Z) (quota : Quota.row)
      (address nonce signature abi : string) (channelId : Z)
      (signerAddress : string) (walletNonce : Z) (hash : string) (db : DB) :
  let hit := SQL.delegation_matches address
               (Quota.universal_profile_address quota) in
  let hits := filter hit (approved_quotas (tables db)) in
  let t := Transaction.mk (transactions_id_seq db) address nonce signature abi
             channelId "PENDING" signerAddress hash (String_ walletNonce)
             wallet_address estimatedGas 0
             (option_map ApprovedQuota.id
                (List.hd_error (map (ApprovedQuota.debit estimatedGas) hits)))
             now now in
  let rolled_back := mkDB (tables db) (quotas_id_seq db)
                          (transactions_id_seq db + 1) in
  createTransaction now estimatedGas quota address nonce signature abi
                    channelId signerAddress walletNonce hash db
  = if (1 <? List.length hits)%nat
    then (mkDB (tables db) (quotas_id_seq db) (transactions_id_seq db),
          Err QueryResultError)
    else if existsb (SQL.same_authorization nonce channelId signerAddress)
                    (transactions (tables db))
    then (rolled_back, Err UniqueViolation)
    else if SQL.profile_exists address db
    then (mkDB (mkTables
                  (universal_profiles (tables db))
                  (map (fun q => if Quota.id q =? Quota.id quota
                                 then Quota.debit estimatedGas q else q)
                       (quotas (tables db)))
                  (map (fun a => if hit a
                                 then ApprovedQuota.debit estimatedGas a
                                 else a)
                       (approved_quotas (tables db)))
                  (transactions (tables db) ++ [t]))
               (quotas_id_seq db) (transactions_id_seq db + 1),
          Ok t)
    else (rolled_back, Err ForeignKeyViolation).
Proof.
  cbv zeta.
  destruct db as [[ups qs aqs txs] qseq tseq].
  cbn [tables universal_profiles quotas approved_quotas transactions
       quotas_id_seq transactions_id_seq].
  match goal with |- ?lhs = _ => remember lhs as run eqn:Hrun end.
  unfold_createTransaction Hrun.
  unfold SQL.profile_exists, SQL.approved_quota_exists in *.
  cbn [tables universal_profiles quotas approved_quotas transactions
       quotas_id_seq transactions_id_seq with_tables] in *.
  set (hit := SQL.delegation_matches address
                (Quota.universal_profile_address quota)) in *.
  destruct (filter hit aqs) as [|h [|h' more]] eqn:Hhits;
    cbn [map oneOrNone List.length Nat.ltb Nat.leb hd_error option_map]
      in *.
  - destruct (existsb _ txs); cbv beta iota in Hrun; [exact Hrun|].
    rewrite andb_true_r in Hrun.
    destruct (existsb _ ups); cbn [negb] in Hrun; cbv beta iota in Hrun;
      exact Hrun.
  - assert (Hh : In h aqs /\ hit h = true).
    { apply filter_In. rewrite Hhits. left. reflexivity. }
    destruct Hh as [Hin Hhit].
    destruct (existsb _ txs); cbv beta iota in Hrun; [exact Hrun|].
    rewrite (debited_delegation_exists estimatedGas hit h aqs Hin Hhit)
      in Hrun.
    rewrite andb_true_r in Hrun.
    destruct (existsb _ ups); cbn [negb] in Hrun; cbv beta iota in Hrun;
      exact Hrun.
  - exact Hrun.
Qed.

(** X9. For values their columns accept ([columns_accept]: INT channel,
    estimate and debited counters, VARCHAR(100) addresses and nonce, texts
    PostgreSQL can encode, a fresh INT id), [createTransaction] succeeds
    exactly when at most one delegation row runs from the payer's profile
    to the requesting profile, the authorization (nonce, channel id,
    signer) is not stored yet and the requesting profile has its row in
    universal_profiles. *)
Theorem createTransaction_succeeds_iff `{Collaborators}
        (now estimatedGas : Z) (quota : Quota.row)
        (address nonce signature abi : string) (channelId : Z)
        (signerAddress : string) (walletNonce : Z) (hash : string) (db : DB) :
  columns_accept estimatedGas quota address nonce signature abi channelId
                 signerAddress walletNonce hash db = true ->
  is_ok (snd (createTransaction now estimatedGas quota address nonce signature
                abi channelId signerAddress walletNonce hash db)) = true
  <-> ((List.length
          (filter (SQL.delegation_matches address
                     (Quota.universal_profile_address quota))
                  (approved_quotas (tables db))) <= 1)%nat
       /\ existsb (SQL.same_authorization nonce channelId signerAddress)
                  (transactions (tables db)) = false
       /\ SQL.profile_exists address db = true).
Proof.
  intros _.
  rewrite createTransaction_outcome. cbv zeta.
  destruct (1 <? List.length _)%nat eqn:Hmany.
  { apply Nat.ltb_lt in Hmany. cbn [snd is_ok].
    split; [discriminate | intros (Hle & _); lia]. }
  apply Nat.ltb_ge in Hmany.
  destruct (existsb _ (transactions (tables db))).
  { cbn [snd is_ok].
    split; [discriminate | intros (_ & Hnew & _); discriminate Hnew]. }
  destruct (SQL.profile_exists address db); cbn [snd is_ok].
  - split; [intros _; repeat split; auto | intros _; reflexivity].
  - split; [discriminate | intros (_ & _ & Hp); discriminate Hp].
Qed.

(** The delegated payment of §8: one delegation row, a new authorization,
    the profile stored. *)
Lemma createTransaction_succeeds_iff_witness :
  is_ok (snd (@createTransaction Sample.collaborators 0 5
                (Quota.mk 2 "0xApprover" 200 190) "0xUP" "1" "0xSignature"
                "0xAbi" 0 "0xSigner" 9 "0xHash" Sample.delegated)) = true
  <-> ((List.length
          (filter (SQL.delegation_matches "0xUP" "0xApprover")
                  (approved_quotas (tables Sample.delegated))) <= 1)%nat
       /\ existsb (SQL.same_authorization "1" 0 "0xSigner")
                  (transactions (tables Sample.delegated)) = false
       /\ SQL.profile_exists "0xUP" Sample.delegated = true).
Proof.
  apply (@createTransaction_succeeds_iff Sample.collaborators 0 5
           (Quota.mk 2 "0xApprover" 200 190) "0xUP" "1" "0xSignature" "0xAbi"
           0 "0xSigner" 9 "0xHash" Sample.delegated).
  vm_compute. reflexivity.
Defined.

(** X10. For values their columns accept ([columns_accept]), a failed
    [createTransaction] leaves every table as it was, the debit of the
    payer included, and fails in one of three ways: the pg-promise
    rejection when more than one delegation row matches, the unique
    violation when the authorization is stored, the foreign key violation
    when the profile row is missing. *)
Theorem createTransaction_failure `{Collaborators}
        (now estimatedGas : Z) (quota : Quota.row)
        (address nonce signature abi : string) (channelId : Z)
        (signerAddress : string) (walletNonce : Z) (hash : string)
        (db db' : DB) (e : error) :
  columns_accept estimatedGas quota address nonce signature abi channelId
                 signerAddress walletNonce hash db = true ->
  createTransaction now estimatedGas quota address nonce signature abi
                    channelId signerAddress walletNonce hash db
  = (db', Err e) ->
  tables db' = tables db
  /\ quotas_id_seq db' = quotas_id_seq db
  /\ ((e = QueryResultError
       /\ (1 < List.length
                 (filter (SQL.delegation_matches address
                            (Quota.universal_profile_address quota))
                         (approved_quotas (tables db))))%nat)
      \/ (e = UniqueViolation
          /\ existsb (SQL.same_authorization nonce channelId signerAddress)
                     (transactions (tables db)) = true)
      \/ (e = ForeignKeyViolation /\ SQL.profile_exists address db = false)).
Proof.
  intros _.
  rewrite createTransaction_outcome. cbv zeta.
  destruct (1 <? List.length _)%nat eqn:Hmany.
  { apply Nat.ltb_lt in Hmany. intros [= <- <-].
    split; [reflexivity|]. split; [reflexivity|].
    left. split; [reflexivity | exact Hmany]. }
  destruct (existsb _ (transactions (tables db))) eqn:Hstored.
  { intros [= <- <-]. split; [reflexivity|]. split; [reflexivity|].
    right. left. split; reflexivity. }
  destruct (SQL.profile_exists address db) eqn:Hprofile; [discriminate|].
  intros [= <- <-]. split; [reflexivity|]. split; [reflexivity|].
  right. right. split; reflexivity.
Qed.

Lemma createTransaction_failure_witness :
  tables (mkDB (tables Sample.after_first_relay) 2 3)
  = tables Sample.after_first_relay
  /\ quotas_id_seq (mkDB (tables Sample.after_first_relay) 2 3)
     = quotas_id_seq Sample.after_first_relay
  /\ ((UniqueViolation = QueryResultError
       /\ (1 < List.length
                 (filter (SQL.delegation_matches "0xUP" "0xUP")
                         (approved_quotas (tables Sample.after_first_relay))))%nat)
      \/ (UniqueViolation = UniqueViolation
          /\ existsb (SQL.same_authorization "1" 0 "0xSigner")
                     (transactions (tables Sample.after_first_relay)) = true)
      \/ (UniqueViolation = ForeignKeyViolation
          /\ SQL.profile_exists "0xUP" Sample.after_first_relay = false)).
Proof.
  apply (@createTransaction_failure Sample.collaborators 7 8
           (Quota.mk 1 "0xUP" 100 5) "0xUP" "1" "0xSignature" "0xAbi" 0
           "0xSigner" 10 "0xOtherHash" Sample.after_first_relay
           (mkDB (tables Sample.after_first_relay) 2 3) UniqueViolation).
  - vm_compute. reflexivity.
  - vm_compute. reflexivity.
Defined.

(** ** Delegations under sequential relays *)

Lemma filter_singleton {A} (p : A -> bool) (rows : list A) (a d : A) :
  (List.length (filter p rows) <= 1)%nat ->
  In a rows -> p a = true -> In d rows -> p d = true -> d = a.
Proof.
  intros Hone Ha Hpa Hd Hpd.
  assert (Hfa : In a (filter p rows)) by (apply filter_In; auto).
  assert (Hfd : In d (filter p rows)) by (apply filter_In; auto).
  destruct (filter p rows) as [|x [|y more]].
  - destruct Hfa.
  - destruct Hfa as [<-|[]], Hfd as [<-|[]]. reflexivity.
  - cbn in Hone. lia.
Qed.

(** X11. When a request's resolution and debit run back to back for a
    profile that has not delegated to itself, on a store whose delegation
    rows are within their allowances, every delegation row is still within
    its allowance afterwards: the delegation debited is the one whose room
    the resolver checked. *)
Theorem resolve_then_debit_delegations_within_allowance `{Collaborators}
        (now estimatedGas : Z) (address nonce signature abi : string)
        (channelId : Z) (signerAddress : string) (walletNonce : Z)
        (hash : string) (db db1 db2 : DB) (payer : Quota.row)
        (t : Transaction.row) :
  delegations_within_allowance db ->
  filter (SQL.delegation_matches address address)
         (approved_quotas (tables db)) = [] ->
  ensureRemainingQuota now estimatedGas address db = (db1, Ok payer) ->
  createTransaction now estimatedGas payer address nonce signature abi
                    channelId signerAddress walletNonce hash db1
  = (db2, Ok t) ->
  delegations_within_allowance db2.
Proof.
  intros Hwithin Hself Hresolve Hcreate.
  pose proof (ensureRemainingQuota_payer_via _ _ _ _ _ _ Hresolve) as Hvia.
  assert (Hsame : approved_quotas (tables db1) = approved_quotas (tables db)).
  { apply ensureRemainingQuota_frame in Hresolve.
    destruct Hresolve as [->|(_ & _ & ->)]; reflexivity. }
  apply createTransaction_ok_inv in Hcreate. cbv zeta in Hcreate.
  destruct Hcreate as (Hone & _ & _ & ->).
  unfold delegations_within_allowance in *. cbn [tables approved_quotas].
  rewrite Hsame in *.
  apply Forall_forall. intros d' Hd'.
  apply in_map_iff in Hd'. destruct Hd' as (d & <- & Hd).
  rewrite Forall_forall in Hwithin.
  destruct (SQL.delegation_matches address
              (Quota.universal_profile_address payer) d) eqn:Hhit;
    [|apply Hwithin; exact Hd].
  destruct Hvia as [Hown|(a & Ha & Hskip & Hq)].
  - rewrite Hown in Hhit.
    assert (Hin : In d (filter (SQL.delegation_matches address address)
                               (approved_quotas (tables db))))
      by (apply filter_In; auto).
    rewrite Hself in Hin. destruct Hin.
  - unfold SQL.approved_quotas_of in Ha. apply filter_In in Ha.
    destruct Ha as [Ha Happroved].
    destruct (quotas_of_address _ _ _ _ Hq) as [Hpayer _].
    assert (Hhit_a : SQL.delegation_matches address
                       (Quota.universal_profile_address payer) a = true).
    { unfold SQL.delegation_matches. rewrite Happroved, Hpayer.
      apply String.eqb_refl. }
    rewrite (filter_singleton _ _ a d Hone Ha Hhit_a Hd Hhit).
    unfold Resolver.skipped in Hskip.
    rewrite Z.geb_leb in Hskip. apply Z.leb_gt in Hskip.
    cbn. lia.
Qed.

Lemma resolve_then_debit_delegations_within_allowance_witness :
  delegations_within_allowance
    (fst (@createTransaction Sample.collaborators 0 5
            (Quota.mk 2 "0xApprover" 200 190) "0xUP" "1" "0xSignature" "0xAbi"
            0 "0xSigner" 9 "0xHash" Sample.delegated)).
Proof.
  apply (@resolve_then_debit_delegations_within_allowance Sample.collaborators
           0 5 "0xUP" "1" "0xSignature" "0xAbi" 0 "0xSigner" 9 "0xHash"
           Sample.delegated Sample.delegated
           (fst (@createTransaction Sample.collaborators 0 5
                   (Quota.mk 2 "0xApprover" 200 190) "0xUP" "1" "0xSignature"
                   "0xAbi" 0 "0xSigner" 9 "0xHash" Sample.delegated))
           (Quota.mk 2 "0xApprover" 200 190)
           (Transaction.mk 1 "0xUP" "1" "0xSignature" "0xAbi" 0 "PENDING"
                           "0xSigner" "0xHash" "9" "0xRelayer" 5 0 (Some 1)
                           0 0)).
  - unfold delegations_within_allowance. cbn. repeat constructor; cbn; lia.
  - reflexivity.
  - reflexivity.
  - vm_compute. reflexivity.
Defined.

(** ** The relay handler from request to response *)

(** The stages a relay request went through when its [try] block
    completed. *)
Lemma executeBody_ok_inv `{Collaborators} (getWalletNonce : DB -> result Z)
      (body : ExecuteBody.t) (now : Z) (db db' : DB) (job : Job)
      (hash : string) :
  executeBody getWalletNonce body now db = (db', Ok (job, hash)) ->
  let address := present (ExecuteBody.address body) in
  let nonce := present (ExecuteBody.nonce body) in
  let abi := present (ExecuteBody.abi body) in
  let signature := present (ExecuteBody.signature body) in
  exists (kmAddress : string) (keyManager : KeyManager)
         (signerAddress : string) (estimatedGas : Z) (payer : Quota.row)
         (db1 : DB) (channelId walletNonce : Z) (t : Transaction.row),
    validateExecuteParams (ExecuteBody.address body) (ExecuteBody.nonce body)
                          (ExecuteBody.abi body) (ExecuteBody.signature body)
    = Ok tt
    /\ setUpKeyManager address = Ok (kmAddress, keyManager)
    /\ getSignerAddress kmAddress nonce abi signature = Ok signerAddress
    /\ checkSignerPermissions address signerAddress = Ok tt
    /\ estimateGas keyManager signature nonce abi = Ok (Some estimatedGas)
    /\ estimatedGas <> 0
    /\ ensureRemainingQuota now estimatedGas address db = (db1, Ok payer)
    /\ extractChannelId nonce = Ok channelId
    /\ getWalletNonce db1 = Ok walletNonce
    /\ calcHash keyManager signature nonce abi walletNonce = Ok hash
    /\ createTransaction now estimatedGas payer address nonce signature abi
                         channelId signerAddress walletNonce hash db1
       = (db', Ok t)
    /\ job = mkJob kmAddress (Transaction.id t).
Proof.
  cbv zeta. unfold executeBody. unfold_db.
  destruct (validateExecuteParams _ _ _ _) as [[]|e0] eqn:Hvalid;
    [|discriminate].
  destruct (setUpKeyManager _) as [[kmAddress keyManager]|e1] eqn:Hkm;
    [|discriminate].
  destruct (getSignerAddress _ _ _ _) as [signerAddress|e2] eqn:Hsigner;
    [|discriminate].
  destruct (checkSignerPermissions _ _) as [[]|e3] eqn:Hcheck;
    [|discriminate].
  destruct (estimateGas _ _ _ _) as [[estimatedGas|]|e4] eqn:Hgas;
    try discriminate.
  destruct estimatedGas as [|g|g]; try discriminate.
  - destruct (ensureRemainingQuota _ _ _ db) as [db1 [payer|e5]] eqn:Hresolve;
      [|discriminate].
    destruct (extractChannelId _) as [channelId|e6] eqn:Hchannel;
      [|discriminate].
    destruct (getWalletNonce db1) as [walletNonce|e7] eqn:Hnonce;
      [|discriminate].
    destruct (calcHash _ _ _ _ _) as [h|e8] eqn:Hhash; [|discriminate].
    destruct (createTransaction _ _ _ _ _ _ _ _ _ _ _ db1)
      as [db2 [t|e9]] eqn:Hcreate; [|discriminate].
    intros [= <- <- <-].
    exists kmAddress, keyManager, signerAddress, (Z.pos g), payer, db1,
      channelId, walletNonce, t.
    repeat split; auto; discriminate.
  - destruct (ensureRemainingQuota _ _ _ db) as [db1 [payer|e5]] eqn:Hresolve;
      [|discriminate].
    destruct (extractChannelId _) as [channelId|e6] eqn:Hchannel;
      [|discriminate].
    destruct (getWalletNonce db1) as [walletNonce|e7] eqn:Hnonce;
      [|discriminate].
    destruct (calcHash _ _ _ _ _) as [h|e8] eqn:Hhash; [|discriminate].
    destruct (createTransaction _ _ _ _ _ _ _ _ _ _ _ db1)
      as [db2 [t|e9]] eqn:Hcreate; [|discriminate].
    intros [= <- <- <-].
    exists kmAddress, keyManager, signerAddress, (Z.neg g), payer, db1,
      channelId, walletNonce, t.
    repeat split; auto; discriminate.
Qed.

(** X12. When [execute] answers with a transaction hash, the request had
    passed validation and the authorization check, exactly one row was
    appended to transactions and one job was queued for it: the row is
    PENDING for the requesting profile, with nothing used yet, a non-zero
    estimate, the channel extracted from its nonce, the relayer's address,
    and its hash is the one answered. *)
Theorem execute_answers_stored_hash `{Collaborators}
        (getWalletNonce : DB -> result Z) (body : ExecuteBody.t) (now : Z)
        (db db' : DB) (txQueue txQueue' : list Job) (transactionHash : string) :
  execute getWalletNonce body now db txQueue
  = (db', txQueue', TransactionHash transactionHash) ->
  validateExecuteParams (ExecuteBody.address body) (ExecuteBody.nonce body)
                        (ExecuteBody.abi body) (ExecuteBody.signature body)
  = Ok tt
  /\ is_ok (authorization body) = true
  /\ exists (t : Transaction.row) (kmAddress : string),
      transactions (tables db') = (transactions (tables db) ++ [t])%list
      /\ txQueue' = (txQueue ++ [mkJob kmAddress (Transaction.id t)])%list
      /\ Transaction.id t = transactions_id_seq db
      /\ Transaction.hash t = transactionHash
      /\ Transaction.status t = "PENDING"
      /\ Transaction.universal_profile_address t
         = present (ExecuteBody.address body)
      /\ Transaction.nonce t = present (ExecuteBody.nonce body)
      /\ extractChannelId (Transaction.nonce t) = Ok (Transaction.channel_id t)
      /\ Transaction.estimated_gas t <> 0
      /\ Transaction.gas_used t = 0
      /\ Transaction.relayer_address t = wallet_address.
Proof.
  unfold execute.
  destruct (executeBody getWalletNonce body now db)
    as [db2 [[job hash]|e]] eqn:Hbody; [|discriminate].
  intros [= <- <- <-].
  apply executeBody_ok_inv in Hbody. cbv zeta in Hbody.
  destruct Hbody as (kmAddress & keyManager & signerAddress & estimatedGas
                     & payer & db1 & channelId & walletNonce & t
                     & Hvalid & Hkm & Hsigner & Hcheck & _ & Hgas & Hresolve
                     & Hchannel & _ & _ & Hcreate & ->).
  split; [exact Hvalid|]. split.
  { unfold authorization. rewrite Hkm. cbn [bind_result fst].
    rewrite Hsigner. cbn [bind_result]. rewrite Hcheck. reflexivity. }
  exists t, kmAddress.
  pose proof (ensureRemainingQuota_keeps_transactions now estimatedGas
                (present (ExecuteBody.address body)) db) as Hkeep.
  assert (Hseq : transactions_id_seq db1 = transactions_id_seq db).
  { apply ensureRemainingQuota_frame in Hresolve.
    destruct Hresolve as [->|(_ & _ & ->)]; reflexivity. }
  rewrite Hresolve in Hkeep. cbn [fst] in Hkeep.
  apply createTransaction_ok_inv in Hcreate. cbv zeta in Hcreate.
  destruct Hcreate as (_ & _ & Ht & ->).
  cbn [tables transactions]. rewrite Hkeep.
  rewrite Ht. cbn. rewrite Hseq. repeat split; auto.
Qed.

Lemma execute_answers_stored_hash_witness :
  validateExecuteParams (Some "0xUP") (Some "1") (Some "0xAbi")
                        (Some "0xSignature") = Ok tt
  /\ is_ok (@authorization Sample.collaborators (Sample.relay "1")) = true
  /\ exists (t : Transaction.row) (kmAddress : string),
      transactions
        (tables (fst (fst (@execute Sample.collaborators Sample.getWalletNonce
                             (Sample.relay "1") 0 Sample.single []))))
      = (transactions (tables Sample.single) ++ [t])%list
      /\ snd (fst (@execute Sample.collaborators Sample.getWalletNonce
                     (Sample.relay "1") 0 Sample.single []))
         = ([] ++ [mkJob kmAddress (Transaction.id t)])%list
      /\ Transaction.id t = transactions_id_seq Sample.single
      /\ Transaction.hash t = "0xHash"
      /\ Transaction.status t = "PENDING"
      /\ Transaction.universal_profile_address t = "0xUP"
      /\ Transaction.nonce t = "1"
      /\ extractChannelId (Transaction.nonce t) = Ok (Transaction.channel_id t)
      /\ Transaction.estimated_gas t <> 0
      /\ Transaction.gas_used t = 0
      /\ Transaction.relayer_address t = "0xRelayer".
Proof.
  apply (@execute_answers_stored_hash Sample.collaborators
           Sample.getWalletNonce (Sample.relay "1") 0 Sample.single
           (fst (fst (@execute Sample.collaborators Sample.getWalletNonce
                        (Sample.relay "1") 0 Sample.single [])))
           []
           (snd (fst (@execute Sample.collaborators Sample.getWalletNonce
                        (Sample.relay "1") 0 Sample.single [])))
           "0xHash").
  vm_compute. reflexivity.
Defined.

(** X13. When [execute] answers through [next], no job is queued and the
    tables are as they were, with one exception: for a profile without
    quota row the resolver may have run its lazy creation before the
    failure, and then the tables hold in addition the quota row
    (650000, 0) and, when the profile row was missing too, the profile
    row. No stored row is changed and no transaction row is inserted. *)
Theorem execute_failure_debits_nothing `{Collaborators}
        (getWalletNonce : DB -> result Z) (body : ExecuteBody.t) (now : Z)
        (db db' : DB) (txQueue txQueue' : list Job) (message : string) :
  execute getWalletNonce body now db txQueue
  = (db', txQueue', Next message) ->
  let address := present (ExecuteBody.address body) in
  txQueue' = txQueue
  /\ (tables db' = tables db
      \/ (SQL.quotas_of address db = []
          /\ tables db' = tables (with_created_quota now address db))).
Proof.
  cbv zeta. unfold execute.
  destruct (executeBody getWalletNonce body now db)
    as [db2 [[job hash]|e]] eqn:Hbody; [discriminate|].
  intros [= <- <- _]. split; [reflexivity|].
  assert (Hresolved :
            forall estimatedGas db1 outcome,
              ensureRemainingQuota now estimatedGas
                (present (ExecuteBody.address body)) db = (db1, outcome) ->
              tables db2 = tables db1 ->
              tables db2 = tables db
              \/ (SQL.quotas_of (present (ExecuteBody.address body)) db = []
                  /\ tables db2
                     = tables (with_created_quota now
                                 (present (ExecuteBody.address body)) db))).
  { intros estimatedGas db1 outcome Hresolve ->.
    apply ensureRemainingQuota_frame in Hresolve.
    destruct Hresolve as [->|(Hnone & _ & ->)]; [left; reflexivity|].
    right. split; [exact Hnone | reflexivity]. }
  assert (Hsame : db2 = db ->
                  tables db2 = tables db
                  \/ (SQL.quotas_of (present (ExecuteBody.address body)) db = []
                      /\ tables db2
                         = tables (with_created_quota now
                                     (present (ExecuteBody.address body)) db)))
    by (intros ->; auto).
  unfold executeBody in Hbody. unfold_db.
  destruct (validateExecuteParams _ _ _ _) as [[]|e0];
    [|injection Hbody as <- _; auto].
  destruct (setUpKeyManager _) as [[kmAddress keyManager]|e1];
    [|injection Hbody as <- _; auto].
  destruct (getSignerAddress _ _ _ _) as [signerAddress|e2];
    [|injection Hbody as <- _; auto].
  destruct (checkSignerPermissions _ _) as [[]|e3];
    [|injection Hbody as <- _; auto].
  destruct (estimateGas _ _ _ _) as [[estimatedGas|]|e4];
    try (injection Hbody as <- _; auto).
  destruct estimatedGas as [|g|g]; try (injection Hbody as <- _; auto).
  - destruct (ensureRemainingQuota _ _ _ db) as [db1 [payer|e5]] eqn:Hresolve;
      [|injection Hbody as <- _; eapply Hresolved; eauto].
    destruct (extractChannelId _) as [channelId|e6];
      [|injection Hbody as <- _; eapply Hresolved; eauto].
    destruct (getWalletNonce db1) as [walletNonce|e7];
      [|injection Hbody as <- _; eapply Hresolved; eauto].
    destruct (calcHash _ _ _ _ _) as [h|e8];
      [|injection Hbody as <- _; eapply Hresolved; eauto].
    match type of Hbody with
    | context [createTransaction ?a ?b ?c ?d ?e' ?f ?g' ?h' ?i ?j ?k db1] =>
        pose proof (tx_rollback
                      (A := Transaction.row)) as Hback;
        destruct (createTransaction a b c d e' f g' h' i j k db1)
          as [db3 [t|e9]] eqn:Hcreate
    end; [discriminate Hbody|].
    injection Hbody as <- _.
    eapply Hresolved; [exact Hresolve|].
    unfold createTransaction in Hcreate.
    match type of Hcreate with tx ?m db1 = _ =>
      specialize (Hback m db1 e9); rewrite Hcreate in Hback end.
    exact (Hback eq_refl).
  - destruct (ensureRemainingQuota _ _ _ db) as [db1 [payer|e5]] eqn:Hresolve;
      [|injection Hbody as <- _; eapply Hresolved; eauto].
    destruct (extractChannelId _) as [channelId|e6];
      [|injection Hbody as <- _; eapply Hresolved; eauto].
    destruct (getWalletNonce db1) as [walletNonce|e7];
      [|injection Hbody as <- _; eapply Hresolved; eauto].
    destruct (calcHash _ _ _ _ _) as [h|e8];
      [|injection Hbody as <- _; eapply Hresolved; eauto].
    match type of Hbody with
    | context [createTransaction ?a ?b ?c ?d ?e' ?f ?g' ?h' ?i ?j ?k db1] =>
        pose proof (tx_rollback
                      (A := Transaction.row)) as Hback;
        destruct (createTransaction a b c d e' f g' h' i j k db1)
          as [db3 [t|e9]] eqn:Hcreate
    end; [discriminate Hbody|].
    injection Hbody as <- _.
    eapply Hresolved; [exact Hresolve|].
    unfold createTransaction in Hcreate.
    match type of Hcreate with tx ?m db1 = _ =>
      specialize (Hback m db1 e9); rewrite Hcreate in Hback end.
    exact (Hback eq_refl).
Qed.

(** A relay whose nonce BigNumber cannot read, for a profile that has
    neither quota row nor profile row: the request fails after the
    resolver created both. *)
Lemma execute_failure_debits_nothing_witness :
  let after := fst (fst (@execute Sample.collaborators Sample.getWalletNonce
                           (Sample.relay "not a number") 0 Sample.empty [])) in
  snd (fst (@execute Sample.collaborators Sample.getWalletNonce
              (Sample.relay "not a number") 0 Sample.empty [])) = []
  /\ (tables after = tables Sample.empty
      \/ (SQL.quotas_of "0xUP" Sample.empty = []
          /\ tables after
             = mkTables [UniversalProfile.mk "0xUP" 0]
                        [Quota.mk 1 "0xUP" 650000 0] [] [])).
Proof.
  cbv zeta.
  apply (@execute_failure_debits_nothing Sample.collaborators
           Sample.getWalletNonce (Sample.relay "not a number") 0 Sample.empty
           (fst (fst (@execute Sample.collaborators Sample.getWalletNonce
                        (Sample.relay "not a number") 0 Sample.empty [])))
           []
           (snd (fst (@execute Sample.collaborators Sample.getWalletNonce
                        (Sample.relay "not a number") 0 Sample.empty [])))
           "Failed to execute").
  vm_compute. reflexivity.
Defined.

(** ** The status handler from request to response *)

(** What the [db.task] of the status handler reads and writes. *)
Lemma loadQuotas_inv (now : Z) (address : string) (db db' : DB)
      (outcome : result (Quota.row * list ApprovedQuota.row
                         * option (list Quota.row))) :
  loadQuotas now address db = (db', outcome) ->
  (db' = db /\ is_ok outcome = false)
  \/ exists own : Quota.row,
      outcome
      = Ok (own, SQL.approved_quotas_of address db,
            if (0 <? List.length (SQL.approved_quotas_of address db))%nat
            then Some (SQL.quotas_in
                         (map ApprovedQuota.approver_address
                              (SQL.approved_quotas_of address db)) db')
            else None)
      /\ ((db' = db /\ SQL.quotas_of address db = [own])
          \/ (SQL.quotas_of address db = []
              /\ own = created_quota db address
              /\ db' = mkDB (mkTables
                               (universal_profiles (tables db)
                                  ++ match SQL.profiles_of address db with
                                     | [] => [UniversalProfile.mk address now]
                                     | _ => []
                                     end)
                               (quotas (tables db) ++ [own])
                               (approved_quotas (tables db))
                               (transactions (tables db)))
                            (quotas_id_seq db + 1) (transactions_id_seq db))).
Proof.
  unfold loadQuotas, SQL.insert_profile, SQL.insert_quota, created_quota.
  unfold_db.
  destruct (SQL.quotas_of address db) as [|own [|own' more]] eqn:Hrows;
    cbn [oneOrNone].
  - destruct (SQL.profiles_of address db) as [|p [|p' more]] eqn:Hprofiles;
      cbn [oneOrNone one tables quotas universal_profiles approved_quotas
           transactions quotas_id_seq transactions_id_seq with_tables].
    + unfold SQL.approved_quotas_of at 1 2. cbn [tables approved_quotas].
      fold (SQL.approved_quotas_of address db).
      destruct (0 <? List.length (SQL.approved_quotas_of address db))%nat;
        intros [= <- <-]; right; eexists; split; try reflexivity;
        right; auto.
    + unfold SQL.approved_quotas_of at 1 2. cbn [tables approved_quotas].
      fold (SQL.approved_quotas_of address db).
      destruct db as [[ups qs aqs txs] qseq tseq].
      cbn [tables quotas universal_profiles approved_quotas transactions
           quotas_id_seq transactions_id_seq] in *.
      rewrite app_nil_r.
      destruct (0 <? List.length _)%nat;
        intros [= <- <-]; right; eexists; split; try reflexivity;
        right; auto.
    + intros [= <- <-]. left. auto.
  - destruct (0 <? List.length (SQL.approved_quotas_of address db))%nat;
      intros [= <- <-]; right; exists own; split; try reflexivity;
      left; auto.
  - intros [= <- <-]. left. auto.
Qed.

(** The aggregate never fails on what [loadQuotas] hands it. *)
Lemma computeAvailableQuota_loaded (own : Quota.row)
      (approvedQuotas : list ApprovedQuota.row) (parents : list Quota.row) :
  exists totalQuota gasUsed : Z,
    computeAvailableQuota own approvedQuotas
      (if (0 <? List.length approvedQuotas)%nat then Some parents else None)
    = Ok (totalQuota, gasUsed).
Proof.
  destruct approvedQuotas as [|a rest]; cbn [List.length Nat.ltb Nat.leb].
  - eexists. eexists. reflexivity.
  - cbn [computeAvailableQuota].
    destruct (fold_left _ _ _) as [totalQuota gasUsed].
    eexists. eexists. reflexivity.
Qed.

(** An accepted request is answered from [loadQuotas] and the
    aggregate. *)
Lemma quota_accepted `{Collaborators} (body : QuotaBody.t) (now : Z)
      (db : DB) :
  status_request_accepted body now ->
  quota body now db
  = match loadQuotas now (present (QuotaBody.address body)) db with
    | (db', Ok (transactionQuota, approvedQuotas, parentQuotas)) =>
        match computeAvailableQuota transactionQuota approvedQuotas
                                    parentQuotas with
        | Ok (totalQuota, gasUsed) =>
            (db', QuotaStatus gasUsed "gas" totalQuota (firstOfNextMonth now))
        | Err e => (db', Next (quotaFailure e))
        end
    | (db', Err e) => (db', Next (quotaFailure e))
    end.
Proof.
  intros (timestamp & signerAddress & Hts & Hvalid & Hfresh & Hsigner & Hcheck).
  unfold quota, quotaBody. rewrite Hts. unfold_db. rewrite Hvalid.
  destruct ((now - timestamp >? 5000) || (now - timestamp <? -5000)) eqn:Hwin.
  { apply orb_true_iff in Hwin. destruct Hwin as [Hgt|Hlt].
    - rewrite Z.gtb_ltb in Hgt. apply Z.ltb_lt in Hgt. lia.
    - apply Z.ltb_lt in Hlt. lia. }
  rewrite Hsigner, Hcheck.
  destruct (loadQuotas now (present (QuotaBody.address body)) db)
    as [db' [[[transactionQuota approvedQuotas] parentQuotas]|e]];
    [|reflexivity].
  destruct (computeAvailableQuota _ _ _) as [[totalQuota gasUsed]|e];
    reflexivity.
Qed.



(** X15. The status handler changes no stored row. A request answered
    through [next], and any request for a profile that has its quota row,
    leaves the whole store as it was. Its only writes are those of the
    lazy creation for a profile without quota row: the quota row
    (650000, 0) and, when the profile row is missing too, the profile
    row. *)
Theorem quota_writes `{Collaborators} (body : QuotaBody.t) (now : Z)
        (db db' : DB) (response : Response) :
  quota body now db = (db', response) ->
  let address := present (QuotaBody.address body) in
  ((exists message, response = Next message) -> db' = db)
  /\ (SQL.quotas_of address db <> [] -> db' = db)
  /\ (db' = db
      \/ (SQL.quotas_of address db = []
          /\ db' = with_created_quota now address db)).
Proof.
  cbv zeta. intros Hrun.
  assert (Hsame : db' = db ->
            ((exists message, response = Next message) -> db' = db)
            /\ (SQL.quotas_of (present (QuotaBody.address body)) db <> []
                -> db' = db)
            /\ (db' = db
                \/ (SQL.quotas_of (present (QuotaBody.address body)) db = []
                    /\ db' = with_created_quota now
                               (present (QuotaBody.address body)) db)))
    by (intros ->; repeat split; auto).
  unfold quota, quotaBody in Hrun. unfold_db.
  destruct (validateQuotaParams _ _ _) as [[]|e0];
    [|injection Hrun as <- _; auto].
  destruct ((_ >? 5000) || (_ <? -5000)); [injection Hrun as <- _; auto|].
  destruct (verifyMessage _ _) as [signerAddress|e1];
    [|injection Hrun as <- _; auto].
  destruct (checkSignerPermissions _ _) as [[]|e2];
    [|injection Hrun as <- _; auto].
  destruct (loadQuotas now (present (QuotaBody.address body)) db)
    as [db1 outcome] eqn:Hload.
  apply loadQuotas_inv in Hload.
  destruct Hload as [[-> Herr]|(own & -> & Hcases)].
  - destruct outcome as [[[tq aqs] ps]|e3]; [discriminate Herr|].
    injection Hrun as <- _. auto.
  - destruct (computeAvailableQuota_loaded own
                (SQL.approved_quotas_of (present (QuotaBody.address body)) db)
                (SQL.quotas_in
                   (map ApprovedQuota.approver_address
                        (SQL.approved_quotas_of
                           (present (QuotaBody.address body)) db)) db1))
      as (totalQuota & gasUsed & Htotals).
    rewrite Htotals in Hrun. injection Hrun as <- <-.
    destruct Hcases as [[-> _]|(Hnone & -> & ->)]; [auto|].
    split; [intros (message & Hnext); discriminate Hnext|].
    split; [intros Hsome; contradiction|].
    right. split; [exact Hnone | reflexivity].
Qed.

(** A status request for a profile that has neither quota row nor profile
    row. *)
Lemma quota_writes_witness :
  let body := QuotaBody.mk (Some "0xUP") (Some 1) (Some "0xSignature") in
  let db' := fst (@quota Sample.collaborators body 1 Sample.empty) in
  ((exists message,
       snd (@quota Sample.collaborators body 1 Sample.empty) = Next message)
   -> db' = Sample.empty)
  /\ (SQL.quotas_of "0xUP" Sample.empty <> [] -> db' = Sample.empty)
  /\ (db' = Sample.empty
      \/ (SQL.quotas_of "0xUP" Sample.empty = []
          /\ db' = mkDB (mkTables [UniversalProfile.mk "0xUP" 1]
                                  [Quota.mk 1 "0xUP" 650000 0] [] [])
                        2 1)).
Proof.
  cbv zeta.
  apply (@quota_writes Sample.collaborators
           (QuotaBody.mk (Some "0xUP") (Some 1) (Some "0xSignature")) 1
           Sample.empty).
  vm_compute. reflexivity.
Defined.

Lemma filter_map_stable {A} (p : A -> bool) (f : A -> A) (rows : list A) :
  (forall x, p (f x) = p x) ->
  filter p (map f rows) = map f (filter p rows).
Proof.
  intros Hstable. induction rows as [|x rows IH]; [reflexivity|].
  cbn [map filter]. rewrite Hstable.
  destruct (p x); cbn [map]; rewrite IH; reflexivity.
Qed.

(** An accepted request for a profile with its quota row and no
    delegation granted to it is answered the row's own figures. *)
Lemma quota_own_figures `{Collaborators} (body : QuotaBody.t) (now : Z)
      (db : DB) (own : Quota.row) :
  status_request_accepted body now ->
  SQL.quotas_of (present (QuotaBody.address body)) db = [own] ->
  SQL.approved_quotas_of (present (QuotaBody.address body)) db = [] ->
  quota body now db
  = (db, QuotaStatus (Quota.gas_used own) "gas" (Quota.monthly_gas own)
                     (firstOfNextMonth now)).
Proof.
  intros Haccepted Hown Hnone.
  rewrite (quota_accepted body now db Haccepted).
  unfold loadQuotas. unfold_db. rewrite Hown. cbn [oneOrNone].
  rewrite Hnone. reflexivity.
Qed.

(** X16. After a successful [createTransaction] paid by the profile's own
    quota row, the profile having no delegation granted to it, an accepted
    status request is answered the former used figure plus the estimate,
    against the same total, and leaves the store as it is. *)
Theorem relay_then_status `{Collaborators}
        (now estimatedGas : Z) (own : Quota.row)
        (address nonce signature abi : string) (channelId : Z)
        (signerAddress : string) (walletNonce : Z) (hash : string)
        (db db' : DB) (t : Transaction.row)
        (body : QuotaBody.t) (later : Z) :
  SQL.quotas_of address db = [own] ->
  SQL.approved_quotas_of address db = [] ->
  createTransaction now estimatedGas own address nonce signature abi
                    channelId signerAddress walletNonce hash db = (db', Ok t) ->
  present (QuotaBody.address body) = address ->
  status_request_accepted body later ->
  quota body later db'
  = (db', QuotaStatus (Quota.gas_used own + estimatedGas) "gas"
                      (Quota.monthly_gas own) (firstOfNextMonth later)).
Proof.
  intros Hown Hnone Hcreate Haddress Haccepted.
  apply createTransaction_ok_inv in Hcreate. cbv zeta in Hcreate.
  destruct Hcreate as (_ & _ & _ & ->).
  rewrite (quota_own_figures body later _ (Quota.debit estimatedGas own)
                             Haccepted); [reflexivity| |].
  - rewrite Haddress. unfold SQL.quotas_of in *. cbn [tables quotas].
    rewrite filter_map_stable.
    + rewrite Hown. cbn [map]. rewrite Z.eqb_refl. reflexivity.
    + intros q. destruct (Quota.id q =? Quota.id own); reflexivity.
  - rewrite Haddress. unfold SQL.approved_quotas_of in *.
    cbn [tables approved_quotas].
    rewrite filter_map_stable.
    + rewrite Hnone. reflexivity.
    + intros a. destruct (SQL.delegation_matches _ _ a); reflexivity.
Qed.

Lemma relay_then_status_witness :
  @quota Sample.collaborators
         (QuotaBody.mk (Some "0xUP") (Some 1700000000000) (Some "0xSignature"))
         1700000001000 Sample.after_first_relay
  = (Sample.after_first_relay,
     QuotaStatus (Quota.gas_used (Quota.mk 1 "0xUP" 100 0) + 5) "gas"
                 (Quota.monthly_gas (Quota.mk 1 "0xUP" 100 0))
                 (@firstOfNextMonth Sample.collaborators 1700000001000)).
Proof.
  apply (@relay_then_status Sample.collaborators
           0 5 (Quota.mk 1 "0xUP" 100 0) "0xUP" "1" "0xSignature" "0xAbi" 0
           "0xSigner" 9 "0xHash" Sample.single Sample.after_first_relay
           Sample.first_relay
           (QuotaBody.mk (Some "0xUP") (Some 1700000000000)
                         (Some "0xSignature"))
           1700000001000).
  - reflexivity.
  - reflexivity.
  - vm_compute. reflexivity.
  - reflexivity.
  - exists 1700000000000, "0xSigner".
    repeat split; try reflexivity; vm_compute; discriminate.
Defined.

Lemma approved_quotas_of_same (address : string) (db : DB)
      (ups : list UniversalProfile.row) (qs : list Quota.row)
      (txs : list Transaction.row) (qseq tseq : Z) :
  SQL.approved_quotas_of address
    (mkDB (mkTables ups qs (approved_quotas (tables db)) txs) qseq tseq)
  = SQL.approved_quotas_of address db.
Proof. reflexivity. Qed.

(** X17. The first accepted status request for a profile that has no
    quota row and no delegation granted to it creates the row and is
    answered 0 used of a total of 650000; the profile row is created too
    when it is missing; nothing else changes. *)
Theorem quota_first_touch `{Collaborators} (body : QuotaBody.t) (now : Z)
        (db : DB) :
  status_request_accepted body now ->
  SQL.quotas_of (present (QuotaBody.address body)) db = [] ->
  (List.length (SQL.profiles_of (present (QuotaBody.address body)) db) <= 1)%nat ->
  SQL.approved_quotas_of (present (QuotaBody.address body)) db = [] ->
  let address := present (QuotaBody.address body) in
  quota body now db
  = (mkDB (mkTables
             (universal_profiles (tables db)
                ++ match SQL.profiles_of address db with
                   | [] => [UniversalProfile.mk address now]
                   | _ => []
                   end)
             (quotas (tables db) ++ [created_quota db address])
             (approved_quotas (tables db))
             (transactions (tables db)))
          (quotas_id_seq db + 1) (transactions_id_seq db),
     QuotaStatus 0 "gas" 650000 (firstOfNextMonth now)).
Proof.
  intros Haccepted Hquota Hprofile Hnone. cbv zeta.
  rewrite (quota_accepted body now db Haccepted).
  unfold loadQuotas, SQL.insert_profile, SQL.insert_quota, created_quota.
  unfold_db. rewrite Hquota. cbn [oneOrNone].
  destruct (SQL.profiles_of (present (QuotaBody.address body)) db)
    as [|p [|p' more]];
    cbn [oneOrNone one tables quotas universal_profiles approved_quotas
         transactions quotas_id_seq transactions_id_seq with_tables].
  - rewrite !approved_quotas_of_same, Hnone. reflexivity.
  - rewrite !approved_quotas_of_same, Hnone. rewrite app_nil_r.
    destruct db as [[ups qs aqs txs] qseq tseq]. reflexivity.
  - cbn [List.length] in Hprofile. lia.
Qed.

Lemma quota_first_touch_witness :
  @quota Sample.collaborators
         (QuotaBody.mk (Some "0xUP") (Some 1) (Some "0xSignature")) 1
         Sample.empty
  = (mkDB (mkTables [UniversalProfile.mk "0xUP" 1]
                    [Quota.mk 1 "0xUP" 650000 0] [] [])
          2 1,
     QuotaStatus 0 "gas" 650000 1).
Proof.
  apply (@quota_first_touch Sample.collaborators
           (QuotaBody.mk (Some "0xUP") (Some 1) (Some "0xSignature")) 1
           Sample.empty).
  - exists 1, "0xSigner".
    repeat split; try reflexivity; vm_compute; discriminate.
  - reflexivity.
  - cbn. lia.
  - reflexivity.
Defined.

(** ** Bounds of the aggregate *)

Lemma counted_total_bounds (parents : list Quota.row) (a : ApprovedQuota.row) :
  0 <= ApprovedQuota.gas_used a <= ApprovedQuota.monthly_gas a ->
  0 <= (if counted parents a then counted_total parents a else 0)
    <= ApprovedQuota.monthly_gas a.
Proof.
  intros Hrow. unfold counted, counted_total, Spec.headroom.
  destruct (parentOf parents a) as [p|]; [|lia].
  destruct (Quota.gas_used p <? Quota.monthly_gas p) eqn:Hroom; [|lia].
  apply Z.ltb_lt in Hroom.
  destruct (_ >=? _) eqn:Hcovers; [lia|].
  rewrite Z.geb_leb in Hcovers. apply Z.leb_gt in Hcovers. lia.
Qed.

Lemma sum_bounds {A} (f lower upper : A -> Z) (rows : list A) :
  Forall (fun a => lower a <= f a <= upper a) rows ->
  Spec.sum (map lower rows) <= Spec.sum (map f rows)
  <= Spec.sum (map upper rows).
Proof.
  induction 1 as [|a rows Ha _ IH]; cbn [map]; [cbn; lia|].
  rewrite !sum_cons. lia.
Qed.

Lemma counted_sums_bounds (parents : list Quota.row)
      (approvedQuotas : list ApprovedQuota.row) :
  Forall (fun a => 0 <= ApprovedQuota.gas_used a <= ApprovedQuota.monthly_gas a)
         approvedQuotas ->
  0 <= Spec.sum (map (fun a => if counted parents a
                               then counted_total parents a else 0)
                     approvedQuotas)
    <= Spec.sum (map ApprovedQuota.monthly_gas approvedQuotas)
  /\ 0 <= Spec.sum (map (fun a => if counted parents a
                                  then ApprovedQuota.gas_used a else 0)
                        approvedQuotas)
       <= Spec.sum (map ApprovedQuota.gas_used approvedQuotas).
Proof.
  intros Hrows.
  assert (Hzero : Spec.sum (map (fun _ : ApprovedQuota.row => 0)
                                approvedQuotas) = 0).
  { clear. induction approvedQuotas as [|a rows IH]; [reflexivity|].
    cbn [map]. rewrite sum_cons, IH. reflexivity. }
  split.
  - rewrite <- Hzero at 1. apply sum_bounds.
    eapply Forall_impl; [|exact Hrows].
    intros a Ha. apply counted_total_bounds. exact Ha.
  - rewrite <- Hzero at 1. apply sum_bounds.
    eapply Forall_impl; [|exact Hrows].
    cbn beta. intros a Ha. destruct (counted parents a); lia.
Qed.

(** X18. When every delegation granted to the profile has
    0 <= used <= allowance, the total answered by the status handler lies
    between the profile's own allowance and that allowance plus the
    allowances of all these delegations, and the used figure between the
    profile's own used and that plus the used of all these delegations. *)
Theorem computeAvailableQuota_bounds (own : Quota.row)
        (approvedQuotas : list ApprovedQuota.row)
        (parentQuotas : option (list Quota.row)) (totalQuota gasUsed : Z) :
  Forall (fun a => 0 <= ApprovedQuota.gas_used a <= ApprovedQuota.monthly_gas a)
         approvedQuotas ->
  computeAvailableQuota own approvedQuotas parentQuotas
  = Ok (totalQuota, gasUsed) ->
  Quota.monthly_gas own <= totalQuota
  <= Quota.monthly_gas own
     + Spec.sum (map ApprovedQuota.monthly_gas approvedQuotas)
  /\ Quota.gas_used own <= gasUsed
     <= Quota.gas_used own
        + Spec.sum (map ApprovedQuota.gas_used approvedQuotas).
Proof.
  intros Hrows Htotals.
  assert (Hsums : exists parents,
             totalQuota
             = Quota.monthly_gas own
               + Spec.sum (map (fun a => if counted parents a
                                         then counted_total parents a else 0)
                               approvedQuotas)
             /\ gasUsed
                = Quota.gas_used own
                  + Spec.sum (map (fun a => if counted parents a
                                            then ApprovedQuota.gas_used a
                                            else 0)
                                  approvedQuotas)).
  { unfold computeAvailableQuota in Htotals.
    destruct approvedQuotas as [|a rest].
    - injection Htotals as <- <-. exists []. cbn. lia.
    - destruct parentQuotas as [parents|]; [|discriminate Htotals].
      rewrite fold_countApproved in Htotals. injection Htotals as <- <-.
      exists parents. auto. }
  destruct Hsums as (parents & -> & ->).
  destruct (counted_sums_bounds parents approvedQuotas Hrows). lia.
Qed.

Lemma computeAvailableQuota_bounds_witness :
  650000 <= 650100 <= 650000 + Spec.sum [100]
  /\ 0 <= 60 <= 0 + Spec.sum [60].
Proof.
  apply (computeAvailableQuota_bounds
           (Quota.mk 1 "0xUP" 650000 0)
           [ApprovedQuota.mk 1 "0xApprover" "0xUP" 100 60]
           (Some [Quota.mk 2 "0xApprover" 650000 649950]) 650100 60).
  - repeat constructor; cbn; lia.
  - reflexivity.
Defined.

(** ** Decimal text and channel extraction *)

Lemma digits_of_uint_acc (d : Decimal.uint) :
  forall acc : positive,
    BigNumber.digits 10 BigNumber.dec_digit (NilEmpty.string_of_uint d)
                     (Z.pos acc)
    = Some (Z.pos (Pos.of_uint_acc d acc)).
Proof.
  induction d as [|d IH|d IH|d IH|d IH|d IH|d IH|d IH|d IH|d IH|d IH];
    intros acc;
    cbn [NilEmpty.string_of_uint BigNumber.digits Pos.of_uint_acc];
    [reflexivity|..];
    match goal with
    | |- context [BigNumber.dec_digit ?c] =>
        let v := eval vm_compute in (BigNumber.dec_digit c) in
        change (BigNumber.dec_digit c) with v
    end;
    cbv beta iota; rewrite <- IH; f_equal; lia.
Qed.

Lemma digits_of_uint (d : Decimal.uint) :
  BigNumber.digits 10 BigNumber.dec_digit (NilEmpty.string_of_uint d) 0
  = Some (Z.of_N (Pos.of_uint d)).
Proof.
  induction d as [|d IH|d IH|d IH|d IH|d IH|d IH|d IH|d IH|d IH|d IH];
    cbn [NilEmpty.string_of_uint BigNumber.digits Pos.of_uint];
    [reflexivity|..];
    match goal with
    | |- context [BigNumber.dec_digit ?c] =>
        let v := eval vm_compute in (BigNumber.dec_digit c) in
        change (BigNumber.dec_digit c) with v
    end;
    cbv beta iota; [exact IH|..];
    cbn [Z.of_N]; rewrite <- digits_of_uint_acc; reflexivity.
Qed.

Lemma magnitude_string_of_uint (d : Decimal.uint) :
  d <> Decimal.Nil ->
  BigNumber.magnitude (NilEmpty.string_of_uint d)
  = BigNumber.digits 10 BigNumber.dec_digit (NilEmpty.string_of_uint d) 0.
Proof.
  intros Hd.
  destruct d as [|d|d|d|d|d|d|d|d|d|d]; [contradiction|..];
    try reflexivity.
  destruct d as [|d|d|d|d|d|d|d|d|d|d]; reflexivity.
Qed.

Lemma from_string_of_uint (d : Decimal.uint) :
  d <> Decimal.Nil ->
  BigNumber.from (NilEmpty.string_of_uint d)
  = Ok (Z.of_N (Pos.of_uint d))
  /\ BigNumber.magnitude (NilEmpty.string_of_uint d)
     = Some (Z.of_N (Pos.of_uint d)).
Proof.
  intros Hd.
  assert (Hm : BigNumber.magnitude (NilEmpty.string_of_uint d)
               = Some (Z.of_N (Pos.of_uint d)))
    by (rewrite magnitude_string_of_uint, digits_of_uint; auto).
  split; [|exact Hm].
  assert (Hfrom : BigNumber.from (NilEmpty.string_of_uint d)
                  = match BigNumber.magnitude (NilEmpty.string_of_uint d) with
                    | Some v => Ok v
                    | None => Err (BigNumberError "invalid BigNumber string")
                    end).
  { destruct d as [|d|d|d|d|d|d|d|d|d|d]; [contradiction|..]; reflexivity. }
  rewrite Hfrom, Hm. reflexivity.
Qed.

Lemma string_of_uint_nonnil (d : Decimal.uint) :
  d <> Decimal.Nil ->
  NilZero.string_of_uint d = NilEmpty.string_of_uint d.
Proof. destruct d; [contradiction | reflexivity..]. Qed.

Lemma Number_decimal_text (n : Z) : Number_ (String_ n) = Some n.
Proof.
  unfold Number_, String_.
  assert (Hread : NilZero.int_of_string (NilZero.string_of_int (Z.to_int n))
                  = Some (Z.to_int n)).
  { apply NilZero.isi; destruct n as [|p|p]; cbn; try discriminate;
      intros [= Hnil]; exact (Unsigned.to_uint_nonnil p Hnil). }
  destruct (NilZero.string_of_int (Z.to_int n)) eqn:Htext.
  - cbn in Hread. discriminate Hread.
  - rewrite Hread. cbn [option_map]. rewrite DecimalZ.of_to. reflexivity.
Qed.

Lemma from_decimal_text (n : Z) : BigNumber.from (String_ n) = Ok n.
Proof.
  unfold String_. destruct n as [|p|p]; [reflexivity| |];
    cbn [Z.to_int NilZero.string_of_int];
    pose proof (Unsigned.to_uint_nonnil p) as Hnonnil;
    rewrite (string_of_uint_nonnil _ Hnonnil).
  - rewrite (proj1 (from_string_of_uint (Pos.to_uint p) Hnonnil)).
    rewrite Unsigned.of_to. reflexivity.
  - cbn [BigNumber.from].
    rewrite (proj2 (from_string_of_uint (Pos.to_uint p) Hnonnil)).
    rewrite Unsigned.of_to. reflexivity.
Qed.

(** The decimal text of an integer, as stored for a relayer nonce, reads
    back as that integer, through [Number] as through [BigNumber.from]. *)
Theorem decimal_text_round_trip (n : Z) :
  Number_ (String_ n) = Some n /\ BigNumber.from (String_ n) = Ok n.
Proof.
  split; [apply Number_decimal_text | apply from_decimal_text].
Qed.

(** What [extractChannelId] makes of a value BigNumber has read. *)
Lemma extractChannelId_value (nonce : string) (call_nonce : Z) :
  BigNumber.from nonce = Ok call_nonce ->
  extractChannelId nonce
  = if call_nonce <? 0
    then Err (BigNumberError "negative-width")
    else if call_nonce / 2 ^ 128 <? 2 ^ 53
         then Ok (call_nonce / 2 ^ 128)
         else Err (BigNumberError "overflow").
Proof.
  intros Hfrom.
  unfold extractChannelId, BigNumber.shr, BigNumber.toNumber.
  rewrite Hfrom. cbn [bind_result].
  rewrite Z.shiftr_div_pow2 by lia.
  destruct (call_nonce <? 0) eqn:Hneg; cbn [orb Z.ltb Z.compare bind_result];
    [reflexivity|].
  apply Z.ltb_ge in Hneg.
  rewrite Z.abs_eq by (apply Z.div_pos; lia). reflexivity.
Qed.

(** X19. [extractChannelId] returns a channel exactly for the nonce texts
    BigNumber reads as a non-negative value whose quotient by 2^128 is
    below 2^53, and the channel is that quotient; every other text, a
    negative value and a wider channel are rejected. *)
Theorem extractChannelId_ok_iff (nonce : string) (channelId : Z) :
  extractChannelId nonce = Ok channelId
  <-> exists call_nonce : Z,
        BigNumber.from nonce = Ok call_nonce
        /\ 0 <= call_nonce
        /\ channelId = call_nonce / 2 ^ 128
        /\ channelId < 2 ^ 53.
Proof.
  destruct (BigNumber.from nonce) as [v|e] eqn:Hfrom.
  2:{ unfold extractChannelId. rewrite Hfrom. cbn [bind_result].
      split; [discriminate | intros (v & Hv & _); discriminate Hv]. }
  rewrite (extractChannelId_value nonce v Hfrom).
  destruct (v <? 0) eqn:Hneg.
  - apply Z.ltb_lt in Hneg.
    split; [discriminate | intros (w & [= <-] & Hw & _); lia].
  - apply Z.ltb_ge in Hneg.
    destruct (v / 2 ^ 128 <? 2 ^ 53) eqn:Hfit.
    + apply Z.ltb_lt in Hfit. split.
      * intros [= <-]. exists v. auto.
      * intros (w & [= <-] & _ & -> & _). reflexivity.
    + apply Z.ltb_ge in Hfit.
      split; [discriminate | intros (w & [= <-] & _ & -> & Hlt); lia].
Qed.

(** X20. For the decimal text of a call nonce made of a channel below
    2^53 in its high part and any 128 low bits, [extractChannelId]
    returns the channel: the low 128 bits play no part. *)
Theorem extractChannelId_of_channel (channelId low : Z) :
  0 <= channelId < 2 ^ 53 ->
  0 <= low < 2 ^ 128 ->
  extractChannelId (String_ (channelId * 2 ^ 128 + low)) = Ok channelId.
Proof.
  intros Hchannel Hlow.
  rewrite (extractChannelId_value _ _ (from_decimal_text _)).
  assert (Hq : (channelId * 2 ^ 128 + low) / 2 ^ 128 = channelId).
  { rewrite Z.div_add_l by lia. rewrite Z.div_small by lia. lia. }
  rewrite Hq.
  destruct (channelId * 2 ^ 128 + low <? 0) eqn:Hneg.
  { apply Z.ltb_lt in Hneg. nia. }
  destruct (channelId <? 2 ^ 53) eqn:Hfit; [reflexivity|].
  apply Z.ltb_ge in Hfit. lia.
Qed.

Lemma extractChannelId_of_channel_witness :
  extractChannelId (String_ (2 * 2 ^ 128 + 1)) = Ok 2.
Proof.
  apply (extractChannelId_of_channel 2 1); vm_compute; split; congruence.
Defined.

(** ** The relayer nonce after relays *)

(** X21. From a store with no relay in flight for the relayer wallet, a
    successful [createTransaction] stores its relayer nonce as text, and
    the nonce computed next is that nonce plus one. *)
Theorem walletNonce_follows_relay `{Collaborators}
        (now estimatedGas : Z) (quota : Quota.row)
        (address nonce signature abi : string) (channelId : Z)
        (signerAddress : string) (walletNonce : Z) (hash : string)
        (db db' : DB) (t : Transaction.row) :
  Earlier.pending_of wallet_address db = [] ->
  createTransaction now estimatedGas quota address nonce signature abi
                    channelId signerAddress walletNonce hash db = (db', Ok t) ->
  Earlier.walletNonce db' = (db', Ok (Some (walletNonce + 1))).
Proof.
  intros Hnone Hcreate.
  apply createTransaction_ok_inv in Hcreate. cbv zeta in Hcreate.
  destruct Hcreate as (_ & _ & Ht & Hdb).
  assert (Hpending : Earlier.pending_of wallet_address db' = [t]).
  { rewrite Hdb. unfold Earlier.pending_of in *. cbn [tables transactions].
    rewrite filter_app, Hnone. cbn [filter app].
    rewrite Ht at 1 2. cbn [Transaction.relayer_address Transaction.status].
    rewrite String.eqb_refl. reflexivity. }
  rewrite (walletNonce_one_pending db' t Hpending).
  rewrite Ht. cbn [Transaction.relayer_nonce].
  rewrite Number_decimal_text. reflexivity.
Qed.

Lemma walletNonce_follows_relay_witness :
  @Earlier.walletNonce Sample.collaborators Sample.after_first_relay
  = (Sample.after_first_relay, Ok (Some (9 + 1))).
Proof.
  apply (@walletNonce_follows_relay Sample.collaborators
           0 5 (Quota.mk 1 "0xUP" 100 0) "0xUP" "1" "0xSignature" "0xAbi" 0
           "0xSigner" 9 "0xHash" Sample.single Sample.after_first_relay
           Sample.first_relay).
  - reflexivity.
  - vm_compute. reflexivity.
Defined.

Lemma string_compare_trans (p : string) :
  forall x r : string,
    String.compare p x <> Gt ->
    String.compare x r = Lt ->
    String.compare p r = Lt.
Proof.
  induction p as [|a p IH]; intros [|b x] [|c r]; cbn [String.compare];
    try congruence.
  unfold Ascii.compare.
  destruct (N.compare_spec (N_of_ascii a) (N_of_ascii b)) as [Hab|Hab|Hab];
    destruct (N.compare_spec (N_of_ascii b) (N_of_ascii c)) as [Hbc|Hbc|Hbc];
    destruct (N.compare_spec (N_of_ascii a) (N_of_ascii c)) as [Hac|Hac|Hac];
    try congruence; try lia.
  apply IH.
Qed.

Lemma string_not_ltb (x r : string) :
  String.ltb x r = false -> String.leb r x = true.
Proof.
  unfold String.ltb, String.leb. rewrite (String.compare_antisym r x).
  destruct (String.compare x r); cbn; congruence.
Qed.

Lemma string_leb_ltb (p x r : string) :
  String.leb p x = true -> String.ltb x r = true -> String.leb p r = true.
Proof.
  unfold String.ltb, String.leb. intros Hpx Hxr.
  rewrite (string_compare_trans p x r); [reflexivity | |].
  - destruct (String.compare p x); congruence.
  - destruct (String.compare x r); congruence.
Qed.

Lemma string_leb_refl (s : string) : String.leb s s = true.
Proof.
  unfold String.leb.
  assert (Heq : String.compare s s = Eq).
  { induction s as [|a s IH]; [reflexivity|]. cbn [String.compare].
    unfold Ascii.compare. rewrite N.compare_refl. exact IH. }
  rewrite Heq. reflexivity.
Qed.

Lemma string_leb_trans (p x r : string) :
  String.leb p x = true -> String.leb x r = true -> String.leb p r = true.
Proof.
  intros Hpx Hxr. unfold String.leb in Hxr.
  destruct (String.compare x r) eqn:Hcmp; [| |discriminate Hxr].
  - apply String.compare_eq_iff in Hcmp. subst r. exact Hpx.
  - apply (string_leb_ltb p x r Hpx). unfold String.ltb. rewrite Hcmp.
    reflexivity.
Qed.

(** ORDER BY relayer_nonce DESC puts first a row whose text no other row
    exceeds. *)
Lemma order_by_relayer_nonce_desc_head (rows : list Transaction.row) :
  rows <> [] ->
  exists (t : Transaction.row) (rest : list Transaction.row),
    Earlier.order_by_relayer_nonce_desc rows = t :: rest
    /\ In t rows
    /\ forall p, In p rows ->
                 String.leb (Transaction.relayer_nonce p)
                            (Transaction.relayer_nonce t) = true.
Proof.
  induction rows as [|r rows IH]; [congruence|]. intros _.
  cbn [Earlier.order_by_relayer_nonce_desc fold_right].
  destruct rows as [|r' rows'].
  - exists r, []. split; [reflexivity|]. split; [left; reflexivity|].
    intros p [<-|[]]. apply string_leb_refl.
  - destruct IH as (t & rest & Hsorted & Hin & Hmax); [discriminate|].
    change (fold_right Earlier.insert_desc [] (r' :: rows'))
      with (Earlier.order_by_relayer_nonce_desc (r' :: rows')).
    rewrite Hsorted. cbn [Earlier.insert_desc].
    destruct (String.ltb (Transaction.relayer_nonce t)
                         (Transaction.relayer_nonce r)) eqn:Hlt.
    + exists r, (t :: rest). split; [reflexivity|].
      split; [left; reflexivity|].
      intros p [<-|Hp]; [apply string_leb_refl|].
      apply (string_leb_ltb _ (Transaction.relayer_nonce t)); auto.
    + exists t, (Earlier.insert_desc r rest). split; [reflexivity|].
      split; [right; exact Hin|].
      intros p [<-|Hp]; [apply string_not_ltb; exact Hlt | auto].
Qed.

(** X22. With relays in flight, the nonce computed for the next relay is
    one more than the number read from the relayer nonce that comes last
    in text order among the PENDING rows of the relayer wallet: the
    greatest as text, whatever the numbers. *)
Theorem walletNonce_after_greatest_text `{Collaborators} (db : DB) :
  Earlier.pending_of wallet_address db <> [] ->
  exists t : Transaction.row,
    In t (transactions (tables db))
    /\ Transaction.relayer_address t = wallet_address
    /\ Transaction.status t = "PENDING"
    /\ (forall p, In p (Earlier.pending_of wallet_address db) ->
                  String.leb (Transaction.relayer_nonce p)
                             (Transaction.relayer_nonce t) = true)
    /\ Earlier.walletNonce db
       = (db, Ok (option_map (fun n => n + 1)
                             (Number_ (Transaction.relayer_nonce t)))).
Proof.
  intros Hpending.
  destruct (order_by_relayer_nonce_desc_head _ Hpending)
    as (t & rest & Hsorted & Hin & Hmax).
  exists t.
  unfold Earlier.pending_of in Hin. apply filter_In in Hin.
  destruct Hin as [Hin Hmine]. apply andb_true_iff in Hmine.
  destruct Hmine as [Hrelayer Hstatus].
  apply String.eqb_eq in Hrelayer. apply String.eqb_eq in Hstatus.
  repeat split; auto.
  unfold Earlier.walletNonce, Earlier.latest_pending. unfold_db.
  rewrite Hsorted. reflexivity.
Qed.

Lemma walletNonce_after_greatest_text_witness :
  exists t : Transaction.row,
    In t (transactions (tables Sample.in_flight))
    /\ Transaction.relayer_address t = "0xRelayer"
    /\ Transaction.status t = "PENDING"
    /\ (forall p, In p (Earlier.pending_of "0xRelayer" Sample.in_flight) ->
                  String.leb (Transaction.relayer_nonce p)
                             (Transaction.relayer_nonce t) = true)
    /\ @Earlier.walletNonce Sample.collaborators Sample.in_flight
       = (Sample.in_flight,
          Ok (option_map (fun n => n + 1)
                         (Number_ (Transaction.relayer_nonce t)))).
Proof.
  apply (@walletNonce_after_greatest_text Sample.collaborators
           Sample.in_flight).
  vm_compute. discriminate.
Defined.

(** ** Constraints of the schema as invariants of the handlers *)

Lemma filter_nil_not_in {A} (p : A -> bool) (rows : list A) (x : A) :
  filter p rows = [] -> In x rows -> p x = false.
Proof.
  intros Hnone Hin. destruct (p x) eqn:Hp; [|reflexivity].
  assert (Hx : In x (filter p rows)) by (apply filter_In; auto).
  rewrite Hnone in Hx. destruct Hx.
Qed.

Lemma NoDup_snoc {A} (rows : list A) (x : A) :
  NoDup rows -> ~ In x rows -> NoDup (rows ++ [x]).
Proof.
  intros Hrows Hx. apply NoDup_app; [exact Hrows | repeat constructor; easy|].
  intros y Hy [<-|[]]. exact (Hx Hy).
Qed.

(** Appending the created quota row, and the profile row when missing,
    keeps the keys. *)
Lemma created_keeps_keys (now : Z) (address : string) (db : DB) :
  keys_ok db ->
  SQL.quotas_of address db = [] ->
  keys_ok (mkDB (mkTables
                   (universal_profiles (tables db)
                      ++ match SQL.profiles_of address db with
                         | [] => [UniversalProfile.mk address now]
                         | _ => []
                         end)
                   (quotas (tables db) ++ [created_quota db address])
                   (approved_quotas (tables db))
                   (transactions (tables db)))
                (quotas_id_seq db + 1) (transactions_id_seq db)).
Proof.
  intros (Hquotas & Hprofiles & Hids & Hbelow & Hauth) Hnone.
  unfold keys_ok.
  cbn [tables quotas universal_profiles transactions transactions_id_seq].
  repeat split; auto.
  - rewrite map_app. cbn [map]. apply NoDup_snoc; [exact Hquotas|].
    intros Hin. apply in_map_iff in Hin. destruct Hin as (q & Hq & Hin).
    unfold SQL.quotas_of in Hnone.
    pose proof (filter_nil_not_in _ _ q Hnone Hin) as Hfalse.
    cbn beta in Hfalse. unfold created_quota in Hq. cbn in Hq.
    rewrite Hq, String.eqb_refl in Hfalse. discriminate Hfalse.
  - destruct (SQL.profiles_of address db) as [|p more] eqn:Hp;
      [|rewrite app_nil_r; exact Hprofiles].
    rewrite map_app. cbn [map]. apply NoDup_snoc; [exact Hprofiles|].
    intros Hin. apply in_map_iff in Hin. destruct Hin as (u & Hu & Hin).
    unfold SQL.profiles_of in Hp.
    pose proof (filter_nil_not_in _ _ u Hp Hin) as Hfalse.
    cbn beta in Hfalse. cbn in Hu.
    rewrite Hu, String.eqb_refl in Hfalse. discriminate Hfalse.
Qed.

Lemma ensureRemainingQuota_keeps_keys (now estimatedGas : Z)
      (address : string) (db db' : DB) (outcome : result Quota.row) :
  keys_ok db ->
  ensureRemainingQuota now estimatedGas address db = (db', outcome) ->
  keys_ok db'.
Proof.
  intros Hkeys Hrun. apply ensureRemainingQuota_frame in Hrun.
  destruct Hrun as [->|(Hnone & _ & ->)]; [exact Hkeys|].
  apply created_keeps_keys; assumption.
Qed.

Lemma loadQuotas_keeps_keys (now : Z) (address : string) (db db' : DB)
      (outcome : result (Quota.row * list ApprovedQuota.row
                         * option (list Quota.row))) :
  keys_ok db ->
  loadQuotas now address db = (db', outcome) ->
  keys_ok db'.
Proof.
  intros Hkeys Hrun. apply loadQuotas_inv in Hrun.
  destruct Hrun as [[-> _]|(own & _ & [[-> _]|(Hnone & -> & ->)])];
    try exact Hkeys.
  apply created_keeps_keys; assumption.
Qed.

Lemma not_stored_authorization (nonce : string) (channelId : Z)
      (signerAddress : string) (rows : list Transaction.row) :
  existsb (SQL.same_authorization nonce channelId signerAddress) rows = false ->
  ~ In (nonce, channelId, signerAddress) (map authorization_of rows).
Proof.
  intros Hnew Hin. apply in_map_iff in Hin. destruct Hin as (t & Ht & Hin).
  unfold authorization_of in Ht. injection Ht as Hn Hc Hs.
  assert (Hstored : existsb (SQL.same_authorization nonce channelId
                                                    signerAddress) rows = true).
  { apply existsb_exists. exists t. split; [exact Hin|].
    apply same_authorization_refl; assumption. }
  congruence.
Qed.

(** The stores [createTransaction] can leave keep the keys. *)
Lemma createTransaction_keeps_keys `{Collaborators}
      (now estimatedGas : Z) (quota : Quota.row)
      (address nonce signature abi : string) (channelId : Z)
      (signerAddress : string) (walletNonce : Z) (hash : string)
      (db db' : DB) (outcome : result Transaction.row) :
  keys_ok db ->
  createTransaction now estimatedGas quota address nonce signature abi
                    channelId signerAddress walletNonce hash db
  = (db', outcome) ->
  keys_ok db'.
Proof.
  intros (Hquotas & Hprofiles & Hids & Hbelow & Hauth).
  rewrite createTransaction_outcome. cbv zeta.
  assert (Hrolled : forall tseq, transactions_id_seq db <= tseq ->
            keys_ok (mkDB (tables db) (quotas_id_seq db) tseq)).
  { intros tseq Hle. unfold keys_ok. cbn [tables transactions_id_seq].
    repeat split; auto.
    eapply Forall_impl; [|exact Hbelow]. cbn beta. intros t Ht. lia. }
  destruct (1 <? List.length _)%nat;
    [intros [= <- _]; apply Hrolled; lia|].
  destruct (existsb _ (transactions (tables db))) eqn:Hnew;
    [intros [= <- _]; apply Hrolled; lia|].
  destruct (SQL.profile_exists address db);
    [|intros [= <- _]; apply Hrolled; lia].
  intros [= <- _]. unfold keys_ok.
  cbn [tables quotas universal_profiles transactions transactions_id_seq].
  repeat split; auto.
  - rewrite map_map.
    erewrite map_ext; [exact Hquotas|].
    intros q. destruct (Quota.id q =? Quota.id quota); reflexivity.
  - rewrite map_app. cbn [map Transaction.id]. apply NoDup_snoc; [exact Hids|].
    intros Hin. apply in_map_iff in Hin. destruct Hin as (t & Ht & Hin).
    rewrite Forall_forall in Hbelow. specialize (Hbelow t Hin). lia.
  - apply Forall_app. split.
    + eapply Forall_impl; [|exact Hbelow]. cbn beta. intros t Ht. lia.
    + constructor; [cbn; lia | constructor].
  - rewrite map_app. cbn [map]. apply NoDup_snoc; [exact Hauth|].
    unfold authorization_of at 1. cbn.
    apply not_stored_authorization. exact Hnew.
Qed.

(** Where the store of a relay request can end up: untouched, as the
    resolver left it, or as [createTransaction] left it after that. *)
Lemma executeBody_store `{Collaborators} (getWalletNonce : DB -> result Z)
      (body : ExecuteBody.t) (now : Z) (db db' : DB)
      (outcome : result (Job * string)) :
  executeBody getWalletNonce body now db = (db', outcome) ->
  db' = db
  \/ exists (estimatedGas : Z) (db1 : DB) (resolved : result Quota.row),
      ensureRemainingQuota now estimatedGas
        (present (ExecuteBody.address body)) db = (db1, resolved)
      /\ (db' = db1
          \/ exists (payer : Quota.row) (channelId : Z)
                    (signerAddress : string) (walletNonce : Z) (hash : string)
                    (created : result Transaction.row),
              createTransaction now estimatedGas payer
                (present (ExecuteBody.address body))
                (present (ExecuteBody.nonce body))
                (present (ExecuteBody.signature body))
                (present (ExecuteBody.abi body)) channelId signerAddress
                walletNonce hash db1
              = (db', created)).
Proof.
  unfold executeBody. unfold_db.
  destruct (validateExecuteParams _ _ _ _) as [[]|e0];
    [|intros [= <- _]; auto].
  destruct (setUpKeyManager _) as [[kmAddress keyManager]|e1];
    [|intros [= <- _]; auto].
  destruct (getSignerAddress _ _ _ _) as [signerAddress|e2];
    [|intros [= <- _]; auto].
  destruct (checkSignerPermissions _ _) as [[]|e3];
    [|intros [= <- _]; auto].
  destruct (estimateGas _ _ _ _) as [[estimatedGas|]|e4];
    try (intros [= <- _]; auto; fail).
  destruct estimatedGas as [|g|g]; try (intros [= <- _]; auto; fail).
  - destruct (ensureRemainingQuota _ _ _ db) as [db1 [payer|e5]] eqn:Hresolve;
      [|intros [= <- _]; right; eauto 6].
    destruct (extractChannelId _) as [channelId|e6];
      [|intros [= <- _]; right; eauto 6].
    destruct (getWalletNonce db1) as [walletNonce|e7];
      [|intros [= <- _]; right; eauto 6].
    destruct (calcHash _ _ _ _ _) as [h|e8];
      [|intros [= <- _]; right; eauto 6].
    destruct (createTransaction _ _ _ _ _ _ _ _ _ _ _ db1)
      as [db2 created] eqn:Hcreate.
    intros Hout. right. exists (Z.pos g), db1, (Ok payer).
    split; [exact Hresolve|]. right.
    exists payer, channelId, signerAddress, walletNonce, h, created.
    rewrite Hcreate. f_equal.
    destruct created; injection Hout as <- _; reflexivity.
  - destruct (ensureRemainingQuota _ _ _ db) as [db1 [payer|e5]] eqn:Hresolve;
      [|intros [= <- _]; right; eauto 6].
    destruct (extractChannelId _) as [channelId|e6];
      [|intros [= <- _]; right; eauto 6].
    destruct (getWalletNonce db1) as [walletNonce|e7];
      [|intros [= <- _]; right; eauto 6].
    destruct (calcHash _ _ _ _ _) as [h|e8];
      [|intros [= <- _]; right; eauto 6].
    destruct (createTransaction _ _ _ _ _ _ _ _ _ _ _ db1)
      as [db2 created] eqn:Hcreate.
    intros Hout. right. exists (Z.neg g), db1, (Ok payer).
    split; [exact Hresolve|]. right.
    exists payer, channelId, signerAddress, walletNonce, h, created.
    rewrite Hcreate. f_equal.
    destruct created; injection Hout as <- _; reflexivity.
Qed.

(** X23. The relay handler keeps the keys of the store, whatever it
    answers: one quota row and one profile row per address, transaction
    ids unique and below the sequence, and no authorization
    (nonce, channel id, signer) stored twice. *)
Theorem execute_keeps_keys `{Collaborators} (getWalletNonce : DB -> result Z)
        (body : ExecuteBody.t) (now : Z) (db db' : DB)
        (txQueue txQueue' : list Job) (response : Response) :
  keys_ok db ->
  execute getWalletNonce body now db txQueue = (db', txQueue', response) ->
  keys_ok db'.
Proof.
  intros Hkeys. unfold execute.
  destruct (executeBody getWalletNonce body now db) as [db2 outcome] eqn:Hbody.
  intros Hrun.
  assert (Hdb : db' = db2)
    by (destruct outcome as [[job hash]|e]; injection Hrun as <- _ _;
        reflexivity).
  subst db'. clear Hrun.
  apply executeBody_store in Hbody.
  destruct Hbody as [->|(estimatedGas & db1 & resolved & Hresolve & Hrest)];
    [exact Hkeys|].
  pose proof (ensureRemainingQuota_keeps_keys _ _ _ _ _ _ Hkeys Hresolve)
    as Hkeys1.
  destruct Hrest as [->|(payer & channelId & signerAddress & walletNonce
                         & hash & created & Hcreate)]; [exact Hkeys1|].
  exact (createTransaction_keeps_keys _ _ _ _ _ _ _ _ _ _ _ _ _ _ Hkeys1
                                      Hcreate).
Qed.

Lemma execute_keeps_keys_witness :
  keys_ok (fst (fst (@execute Sample.collaborators Sample.getWalletNonce
                       (Sample.relay "1") 0 Sample.single []))).
Proof.
  apply (@execute_keeps_keys Sample.collaborators Sample.getWalletNonce
           (Sample.relay "1") 0 Sample.single
           (fst (fst (@execute Sample.collaborators Sample.getWalletNonce
                        (Sample.relay "1") 0 Sample.single [])))
           []
           (snd (fst (@execute Sample.collaborators Sample.getWalletNonce
                        (Sample.relay "1") 0 Sample.single [])))
           (snd (@execute Sample.collaborators Sample.getWalletNonce
                   (Sample.relay "1") 0 Sample.single []))).
  - unfold keys_ok. cbn.
    repeat split; repeat constructor; cbn; intuition congruence.
  - vm_compute. reflexivity.
Defined.

(** X24. The status handler keeps the keys of the store, whatever it
    answers. *)
Theorem quota_keeps_keys `{Collaborators} (body : QuotaBody.t) (now : Z)
        (db db' : DB) (response : Response) :
  keys_ok db ->
  quota body now db = (db', response) ->
  keys_ok db'.
Proof.
  intros Hkeys Hrun. unfold quota, quotaBody in Hrun. unfold_db.
  destruct (validateQuotaParams _ _ _) as [[]|e0];
    [|injection Hrun as <- _; exact Hkeys].
  destruct ((_ >? 5000) || (_ <? -5000));
    [injection Hrun as <- _; exact Hkeys|].
  destruct (verifyMessage _ _) as [signerAddress|e1];
    [|injection Hrun as <- _; exact Hkeys].
  destruct (checkSignerPermissions _ _) as [[]|e2];
    [|injection Hrun as <- _; exact Hkeys].
  destruct (loadQuotas now (present (QuotaBody.address body)) db)
    as [db1 outcome] eqn:Hload.
  pose proof (loadQuotas_keeps_keys _ _ _ _ _ Hkeys Hload) as Hkeys1.
  destruct outcome as [[[tq aqs] ps]|e3];
    [|injection Hrun as <- _; exact Hkeys1].
  destruct (computeAvailableQuota tq aqs ps) as [[total used]|e4];
    injection Hrun as <- _; exact Hkeys1.
Qed.

Lemma quota_keeps_keys_witness :
  keys_ok (fst (@quota Sample.collaborators
                  (QuotaBody.mk (Some "0xUP") (Some 1) (Some "0xSignature")) 1
                  Sample.empty)).
Proof.
  apply (@quota_keeps_keys Sample.collaborators
           (QuotaBody.mk (Some "0xUP") (Some 1) (Some "0xSignature")) 1
           Sample.empty
           (fst (@quota Sample.collaborators
                   (QuotaBody.mk (Some "0xUP") (Some 1) (Some "0xSignature")) 1
                   Sample.empty))
           (snd (@quota Sample.collaborators
                   (QuotaBody.mk (Some "0xUP") (Some 1) (Some "0xSignature")) 1
                   Sample.empty))).
  - unfold keys_ok. cbn. repeat split; constructor.
  - vm_compute. reflexivity.
Defined.

(** ** Refusals of the relay handler after authorization *)

(** X25. A relay request that passed validation and authorization but
    whose gas estimate is undefined or zero is answered the generic
    "Failed to execute", before the resolver runs: the store and the queue
    are left as they were. *)
Theorem execute_without_estimate `{Collaborators}
        (getWalletNonce : DB -> result Z) (body : ExecuteBody.t) (now : Z)
        (db : DB) (txQueue : list Job) (kmAddress : string)
        (keyManager : KeyManager) (signerAddress : string) :
  validateExecuteParams (ExecuteBody.address body) (ExecuteBody.nonce body)
                        (ExecuteBody.abi body) (ExecuteBody.signature body)
  = Ok tt ->
  setUpKeyManager (present (ExecuteBody.address body))
  = Ok (kmAddress, keyManager) ->
  getSignerAddress kmAddress (present (ExecuteBody.nonce body))
                   (present (ExecuteBody.abi body))
                   (present (ExecuteBody.signature body)) = Ok signerAddress ->
  checkSignerPermissions (present (ExecuteBody.address body)) signerAddress
  = Ok tt ->
  estimateGas keyManager (present (ExecuteBody.signature body))
              (present (ExecuteBody.nonce body))
              (present (ExecuteBody.abi body)) = Ok None
  \/ estimateGas keyManager (present (ExecuteBody.signature body))
                 (present (ExecuteBody.nonce body))
                 (present (ExecuteBody.abi body)) = Ok (Some 0) ->
  execute getWalletNonce body now db txQueue
  = (db, txQueue, Next "Failed to execute").
Proof.
  intros Hvalid Hkm Hsigner Hcheck Hgas.
  unfold execute, executeBody. unfold_db.
  rewrite Hvalid, Hkm, Hsigner, Hcheck.
  destruct Hgas as [->| ->]; reflexivity.
Qed.

Lemma execute_without_estimate_witness :
  let unestimated : Collaborators := {|
    wallet_address := "0xRelayer";
    getTransactionCount := 9;
    setUpKeyManager := fun _ => Ok ("0xKeyManager", "0xKeyManager");
    getSignerAddress := fun _ _ _ _ => Ok "0xSigner";
    checkSignerPermissions := fun _ _ => Ok tt;
    estimateGas := fun _ _ _ _ => Ok (Some 0);
    calcHash := fun _ _ _ _ _ => Ok "0xHash";
    quotaMessage := fun address _ => address;
    verifyMessage := fun _ _ => Ok "0xSigner";
    firstOfNextMonth := fun now => now
  |} in
  @execute unestimated (fun _ => Ok 9) (Sample.relay "1") 0 Sample.empty []
  = (Sample.empty, [], Next "Failed to execute").
Proof.
  cbv zeta.
  apply (@execute_without_estimate _ (fun _ => Ok 9) (Sample.relay "1") 0
           Sample.empty [] "0xKeyManager" "0xKeyManager" "0xSigner");
    try reflexivity.
  right. reflexivity.
Defined.

(** X26. A relay request that passed validation and authorization and has
    a non-zero estimate, but which the resolver refuses, is answered the
    resolver's failure - the NoGasError message verbatim, any other
    failure as "Failed to execute" - and leaves the store and the queue as
    they were. *)
Theorem execute_refused_by_resolver `{Collaborators}
        (getWalletNonce : DB -> result Z) (body : ExecuteBody.t) (now : Z)
        (db db1 : DB) (txQueue : list Job) (kmAddress : string)
        (keyManager : KeyManager) (signerAddress : string)
        (estimatedGas : Z) (e : error) :
  validateExecuteParams (ExecuteBody.address body) (ExecuteBody.nonce body)
                        (ExecuteBody.abi body) (ExecuteBody.signature body)
  = Ok tt ->
  setUpKeyManager (present (ExecuteBody.address body))
  = Ok (kmAddress, keyManager) ->
  getSignerAddress kmAddress (present (ExecuteBody.nonce body))
                   (present (ExecuteBody.abi body))
                   (present (ExecuteBody.signature body)) = Ok signerAddress ->
  checkSignerPermissions (present (ExecuteBody.address body)) signerAddress
  = Ok tt ->
  estimateGas keyManager (present (ExecuteBody.signature body))
              (present (ExecuteBody.nonce body))
              (present (ExecuteBody.abi body)) = Ok (Some estimatedGas) ->
  estimatedGas <> 0 ->
  ensureRemainingQuota now estimatedGas (present (ExecuteBody.address body)) db
  = (db1, Err e) ->
  execute getWalletNonce body now db txQueue
  = (db, txQueue, Next (executeFailure e)).
Proof.
  intros Hvalid Hkm Hsigner Hcheck Hgas Hnonzero Hresolve.
  assert (Hdb : db1 = db).
  { pose proof Hresolve as Hframe. apply ensureRemainingQuota_frame in Hframe.
    destruct Hframe as [->|(_ & Hok & _)]; [reflexivity | discriminate Hok]. }
  subst db1.
  unfold execute, executeBody. unfold_db.
  rewrite Hvalid, Hkm, Hsigner, Hcheck, Hgas.
  destruct estimatedGas as [|g|g]; [contradiction| |];
    rewrite Hresolve; reflexivity.
Qed.

Lemma execute_refused_by_resolver_witness :
  @execute Sample.collaborators (fun _ => Ok 9) (Sample.relay "1") 0
           (mkDB (mkTables [Sample.profile "0xUP"] [Quota.mk 1 "0xUP" 4 0]
                           [] [])
                 2 1)
           []
  = (mkDB (mkTables [Sample.profile "0xUP"] [Quota.mk 1 "0xUP" 4 0] [] [])
          2 1,
     [], Next (executeFailure (NoGasError "gas limit reached"))).
Proof.
  apply (@execute_refused_by_resolver Sample.collaborators (fun _ => Ok 9)
           (Sample.relay "1") 0
           (mkDB (mkTables [Sample.profile "0xUP"] [Quota.mk 1 "0xUP" 4 0]
                           [] [])
                 2 1)
           (mkDB (mkTables [Sample.profile "0xUP"] [Quota.mk 1 "0xUP" 4 0]
                           [] [])
                 2 1)
           [] "0xKeyManager" "0xKeyManager" "0xSigner" 5
           (NoGasError "gas limit reached"));
    try reflexivity.
  discriminate.
Defined.

(** ** The two revisions of the resolver *)

Lemma forApprovedUniversalProfiles_unskipped (estimatedGas : Z) (db : DB)
      (approvedQuotas : list ApprovedQuota.row) :
  Forall (fun a => Resolver.skipped estimatedGas a = false) approvedQuotas ->
  forall quota : option Quota.row,
    EarlierResolver.forApprovedUniversalProfiles estimatedGas
      (map EarlierResolver.approval_of approvedQuotas) quota db
    = forApprovedQuotas estimatedGas approvedQuotas quota db.
Proof.
  induction approvedQuotas as [|a rest IH]; intros Hroom quota;
    [reflexivity|].
  inversion Hroom as [|? ? Ha Hrest]; subst.
  cbn [map EarlierResolver.forApprovedUniversalProfiles forApprovedQuotas].
  unfold Resolver.skipped in Ha. rewrite Ha.
  unfold_db.
  cbn [EarlierResolver.approval_of ApprovedUniversalProfile.approver_address].
  destruct (oneOrNone _) as [[q|]|e]; try reflexivity.
  destruct (_ <=? _); [reflexivity|]. apply IH. exact Hrest.
Qed.

(** The scan itself fails only on a missing or an ambiguous approver
    quota. *)
Lemma forApprovedQuotas_error (estimatedGas : Z)
      (approvedQuotas : list ApprovedQuota.row) :
  forall (quota : option Quota.row) (db db' : DB) (e : error),
    forApprovedQuotas estimatedGas approvedQuotas quota db = (db', Err e) ->
    e = TypeError \/ e = QueryResultError.
Proof.
  induction approvedQuotas as [|a rest IH]; intros quota db db' e;
    cbn [forApprovedQuotas].
  - unfold_db. discriminate.
  - destruct (_ >=? _); [apply IH|]. unfold_db.
    destruct (SQL.quotas_of _ db) as [|q [|q' more]]; cbn [oneOrNone].
    + intros [= _ <-]. left. reflexivity.
    + destruct (_ <=? _); [discriminate | apply IH].
    + intros [= _ <-]. right. reflexivity.
Qed.

(** X27. On a store where the profile has its quota row and every
    delegation granted to it has room for the estimate (none is skipped),
    the earlier revision of the resolver, reading the same delegations,
    returns what the later one returns and writes nothing; only its
    refusal is the plain string "gas limit reached" instead of the
    NoGasError. *)
Theorem resolver_revisions_agree (now estimatedGas : Z) (address : string)
        (db : DB) :
  SQL.quotas_of address db <> [] ->
  Forall (fun a => ApprovedQuota.gas_used a + estimatedGas
                   < ApprovedQuota.monthly_gas a)
         (SQL.approved_quotas_of address db) ->
  EarlierResolver.ensureRemainingQuota
    (map EarlierResolver.approval_of (approved_quotas (tables db)))
    estimatedGas address db
  = (db, EarlierResolver.as_thrown
           (snd (ensureRemainingQuota now estimatedGas address db))).
Proof.
  intros Hstored Hroom.
  assert (Hunskipped : Forall (fun a => Resolver.skipped estimatedGas a = false)
                              (SQL.approved_quotas_of address db)).
  { eapply Forall_impl; [|exact Hroom]. cbn beta. intros a Ha.
    unfold Resolver.skipped. rewrite Z.geb_leb. apply Z.leb_gt. exact Ha. }
  assert (Hsame : filter (fun a => (ApprovedUniversalProfile.approved_address a
                                    =? address)%string)
                         (map EarlierResolver.approval_of
                              (approved_quotas (tables db)))
                  = map EarlierResolver.approval_of
                        (SQL.approved_quotas_of address db)).
  { unfold SQL.approved_quotas_of.
    induction (approved_quotas (tables db)) as [|a rows IH]; [reflexivity|].
    cbn [map filter EarlierResolver.approval_of
         ApprovedUniversalProfile.approved_address].
    destruct (ApprovedQuota.approved_address a =? address)%string;
      cbn [map]; rewrite IH; reflexivity. }
  unfold EarlierResolver.ensureRemainingQuota, ensureRemainingQuota.
  unfold_db.
  destruct (SQL.quotas_of address db) as [|own [|own' more]];
    [contradiction| |reflexivity].
  cbn [oneOrNone].
  destruct (_ <=? _); [reflexivity|].
  rewrite Hsame, length_map.
  destruct (List.length (SQL.approved_quotas_of address db) =? 0)%nat;
    [reflexivity|].
  rewrite (forApprovedUniversalProfiles_unskipped estimatedGas db _ Hunskipped).
  pose proof (forApprovedQuotas_reads estimatedGas
                (SQL.approved_quotas_of address db) (Some own) db) as Hreads.
  destruct (forApprovedQuotas _ _ _ db) as [db1 [[q1|]|e]] eqn:Hscan;
    cbn in Hreads; subst db1; try reflexivity.
  - destruct (_ >? _); reflexivity.
  - apply forApprovedQuotas_error in Hscan.
    destruct Hscan as [->| ->]; reflexivity.
Qed.

Lemma resolver_revisions_agree_witness :
  EarlierResolver.ensureRemainingQuota
    (map EarlierResolver.approval_of (approved_quotas (tables Sample.delegated)))
    5 "0xUP" Sample.delegated
  = (Sample.delegated,
     EarlierResolver.as_thrown
       (snd (ensureRemainingQuota 0 5 "0xUP" Sample.delegated))).
Proof.
  apply (resolver_revisions_agree 0 5 "0xUP" Sample.delegated).
  - cbn. discriminate.
  - repeat constructor.
Defined.

(** Where a delegation has no room the revisions part: with an estimate
    of 45 against a delegation with 10 used of 50, the earlier resolver
    takes the approver's quota (150 + 45 <= 200), the later one skips the
    delegation and refuses. *)
Example resolver_revisions_differ :
  let db := mkDB (mkTables [Sample.profile "0xUP"; Sample.profile "0xApprover"]
                           [Quota.mk 1 "0xUP" 100 100;
                            Quota.mk 2 "0xApprover" 200 150]
                           [ApprovedQuota.mk 1 "0xApprover" "0xUP" 50 10]
                           [])
                 3 1 in
  snd (EarlierResolver.ensureRemainingQuota
         (map EarlierResolver.approval_of (approved_quotas (tables db)))
         45 "0xUP" db)
  = Ok (Quota.mk 2 "0xApprover" 200 150)
  /\ snd (ensureRemainingQuota 0 45 "0xUP" db)
     = Err (NoGasError "gas limit reached").
Proof. vm_compute. split; reflexivity. Qed.
